(** * Stock-Agent: the data engine and derivation layer of the macro dashboards

    A shallow embedding of the pandas pipeline of [cpi_agent.py],
    [cpi_agent_v2.1.py], [rate_agent.py], [rate_agent_v2.py] and
    [rate_agent_v3.py]: fetch, align, forward-fill, drop rows, unit
    normalisation, derived columns and the base-effect simulator.

    Numbers are IEEE binary64 values, as in pandas ([float64] columns): the
    kernel's primitive floats.  A missing observation is NaN, as in pandas. *)

From Stdlib Require Import Floats ZArith Sorted.
From stdpp Require Import base list strings.

Set Warnings "-inexact-float,-clear-no-such-hyp".
Local Open Scope string_scope.
Local Open Scope list_scope.
Local Open Scope nat_scope.

(** ** Exceptions and the error monad

    Python code that indexes a missing column or an empty frame raises, a
    fetch may fail, and [st.stop()] after [st.error(message)] ends the run;
    the embedding returns a [result]. *)

Inductive exn : Type :=
  | KeyError (key : string)
  | IndexError
  | FetchError (code : string)
  | Stop (message : string).

Inductive result (A : Type) : Type :=
  | Ok (a : A)
  | Raise (e : exn).
Arguments Ok {A} a.
Arguments Raise {A} e.

(** The error monad, through stdpp's [mret] and [mbind] (notation
    [x ← m; k]). *)
#[global] Instance result_ret : MRet result := fun A a => Ok a.
#[global] Instance result_bind : MBind result := fun A B k m =>
  match m with
  | Ok a => k a
  | Raise e => Raise e
  end.

Definition is_ok {A : Type} (m : result A) : bool :=
  match m with Ok _ => true | Raise _ => false end.

(** ** The pandas layer *)

Module Pandas.

(** A column of float64 cells, one per row of the frame. *)
Abbreviation column := (list float).

(** Dates are day ordinals. *)
Definition date : Type := Z.

(** [pd.Series]: the cells and their dates, in increasing date order. *)
Record Series : Type := mkSeries {
  s_index : list date;
  s_values : column
}.

(** [pd.DataFrame]: a row index and the named columns, in insertion order. *)
Record DataFrame : Type := mkDataFrame {
  index : list date;
  columns : list (string * column)
}.

Definition empty_frame : DataFrame := mkDataFrame [] [].

(** [np.nan], [pd.isna], [pd.notna]. *)
Definition nan : float := PrimFloat.nan.
Definition isna (x : float) : bool := PrimFloat.is_nan x.
Definition notna (x : float) : bool := negb (isna x).

(** [df.columns] as a list of names; [name in df.columns]. *)
Definition column_names (df : DataFrame) : list string :=
  (columns df).*1.

Fixpoint lookup_col (name : string) (cs : list (string * column))
    : option column :=
  match cs with
  | [] => None
  | (k, v) :: cs' => if decide (k = name) then Some v else lookup_col name cs'
  end.

Definition has_col (name : string) (df : DataFrame) : bool :=
  bool_decide (is_Some (lookup_col name (columns df))).

(** [df[name]]: the column, or [KeyError]. *)
Definition getitem (df : DataFrame) (name : string) : result column :=
  match lookup_col name (columns df) with
  | Some v => Ok v
  | None => Raise (KeyError name)
  end.

(** [df[name] = values] for values already on the frame's index: an
    existing column is replaced in place, a new one is appended. *)
Fixpoint assign_col (name : string) (v : column) (cs : list (string * column))
    : list (string * column) :=
  match cs with
  | [] => [(name, v)]
  | (k, w) :: cs' =>
      if decide (k = name) then (k, v) :: cs'
      else (k, w) :: assign_col name v cs'
  end.

Definition setitem (df : DataFrame) (name : string) (v : column) : DataFrame :=
  mkDataFrame (index df) (assign_col name v (columns df)).

(** [df[name] = scalar]: the scalar is broadcast over the rows. *)
Definition setitem_scalar (df : DataFrame) (name : string) (x : float)
    : DataFrame :=
  setitem df name (replicate (length (index df)) x).

(** Arithmetic of a column with a scalar and of two columns of one frame
    (same index, so cell by cell). *)
Definition div_scalar (c : column) (k : float) : column :=
  (fun x => PrimFloat.div x k) <$> c.
Definition mul_scalar (c : column) (k : float) : column :=
  (fun x => PrimFloat.mul x k) <$> c.
Definition sub_scalar (c : column) (k : float) : column :=
  (fun x => PrimFloat.sub x k) <$> c.
Definition sub_col (a b : column) : column := zip_with PrimFloat.sub a b.
Definition div_col (a b : column) : column := zip_with PrimFloat.div a b.

(** [Series.ffill()]: a missing cell takes the last non-missing cell
    above it, if there is one. *)
Fixpoint ffill_from (last : float) (c : column) : column :=
  match c with
  | [] => []
  | x :: c' =>
      if isna x then last :: ffill_from last c'
      else x :: ffill_from x c'
  end.

Definition ffill_col (c : column) : column := ffill_from nan c.

(** [DataFrame.ffill()]: every column on its own; the index is kept. *)
Definition ffill (df : DataFrame) : DataFrame :=
  mkDataFrame (index df) (prod_map id ffill_col <$> columns df).

(** [Series.shift(n)]: every cell moves [n] rows down, NaN enters at the
    top, the length is kept. *)
Definition shift (n : nat) (c : column) : column :=
  take (length c) (replicate n nan ++ c).

(** [Series.pct_change(n)] is [data / data.shift(n) - 1], where [data] is
    the column itself or, when the installed pandas still pads by default
    (every release before 3.0), its forward fill. *)
Definition pct_change (pads : bool) (n : nat) (c : column) : column :=
  let data := if pads then ffill_col c else c in
  sub_scalar (div_col data (shift n data)) 1.

(** A row mask applied to a list of row cells. *)
Fixpoint select {A : Type} (mask : list bool) (l : list A) : list A :=
  match mask, l with
  | b :: mask', x :: l' => if b then x :: select mask' l' else select mask' l'
  | _, _ => []
  end.

Definition select_rows (mask : list bool) (df : DataFrame) : DataFrame :=
  mkDataFrame (select mask (index df))
              (prod_map id (select mask) <$> columns df).

(** [df.dropna(subset=[name])]: rows whose cell in the column is missing
    are dropped; a column that is not there is a [KeyError]. *)
Definition dropna_subset (name : string) (df : DataFrame) : result DataFrame :=
  match lookup_col name (columns df) with
  | Some c => Ok (select_rows (notna <$> c) df)
  | None => Raise (KeyError name)
  end.

(** Cell [i] of every column: row [i] of the frame. *)
Definition row_cells (df : DataFrame) (i : nat) : list float :=
  (fun kv : string * column => default nan (kv.2 !! i)) <$> columns df.

(** [df.dropna()]: rows with a missing cell in any column are dropped. *)
Definition dropna (df : DataFrame) : DataFrame :=
  select_rows
    ((fun i => forallb notna (row_cells df i)) <$> seq 0 (length (index df)))
    df.

(** [df.empty]: no rows or no columns. *)
Definition empty (df : DataFrame) : bool :=
  match index df, columns df with
  | [], _ | _, [] => true
  | _, _ => false
  end.

(** [s.iloc[-k]] for [k >= 1]: the [k]-th cell from the end, or
    [IndexError]. *)
Definition iloc_neg {A : Type} (l : list A) (k : nat) : result A :=
  match rev l !! pred k with
  | Some x => Ok x
  | None => Raise IndexError
  end.

(** [s.iloc[-a:-b]] for [a >= b >= 1]: Python clamps both ends to the
    length. *)
Definition iloc_slice_neg {A : Type} (l : list A) (a b : nat) : list A :=
  let n := length l in
  drop (n - a) (take (n - b) l).

(** The cell of a series at a date, when the date is in its index. *)
Fixpoint lookup_date (d : date) (idx : list date) (c : column)
    : option float :=
  match idx, c with
  | d' :: idx', x :: c' =>
      if decide (d' = d) then Some x else lookup_date d idx' c'
  | _, _ => None
  end.

(** [s.reindex(idx)]: the series on another index, NaN where it has no
    observation. *)
Definition reindex (idx : list date) (s : Series) : column :=
  (fun d => default nan (lookup_date d (s_index s) (s_values s))) <$> idx.

(** [df[name] = series]. A frame without rows first takes the index of a
    non-empty series (its columns become NaN on it); the series is then
    stored as it is when its index is the frame's, and reindexed
    otherwise. *)
Definition setitem_series (df : DataFrame) (name : string) (s : Series)
    : DataFrame :=
  let df :=
    match index df, s_index s with
    | [], _ :: _ =>
        mkDataFrame (s_index s)
          (prod_map id (fun _ : column => replicate (length (s_index s)) nan)
             <$> columns df)
    | _, _ => df
    end in
  setitem df name
    (if decide (s_index s = index df) then s_values s
     else reindex (index df) s).

(** [df[name]] as a series: the column on the frame's index. *)
Definition getitem_series (df : DataFrame) (name : string) : result Series :=
  c ← getitem df name; mret (mkSeries (index df) c).

(** The sorted union of two date indexes. *)
Fixpoint insert_date (d : date) (idx : list date) : list date :=
  match idx with
  | [] => [d]
  | d' :: idx' =>
      if decide (d = d') then idx
      else if decide (d < d')%Z then d :: idx
      else d' :: insert_date d idx'
  end.

Definition union_index (a b : list date) : list date :=
  foldr insert_date a b.

(** The columns of a frame on another index. *)
Definition reindex_frame (idx : list date) (df : DataFrame) : DataFrame :=
  mkDataFrame idx
    (prod_map id (fun c => reindex idx (mkSeries (index df) c))
       <$> columns df).

(** [df.join(other, how='outer')] for frames with different column names:
    the rows are the sorted union of both indexes. *)
Definition join_outer (df other : DataFrame) : DataFrame :=
  let idx := union_index (index df) (index other) in
  mkDataFrame idx
    (columns (reindex_frame idx df) ++ columns (reindex_frame idx other)).

(** A named series as a one-column frame. *)
Definition to_frame (name : string) (s : Series) : DataFrame :=
  mkDataFrame (s_index s) [(name, s_values s)].

(** [pd.concat(series, axis=1)] and [pd.DataFrame(series).T]: one column
    per series on the sorted union of their indexes. *)
Definition concat_axis1 (l : list (string * Series)) : DataFrame :=
  let idx := foldl (fun acc kv => union_index acc (s_index kv.2)) [] l in
  mkDataFrame idx (prod_map id (reindex idx) <$> l).

(** The cell of the last row dated at or before [d], NaN when there is
    none. *)
Fixpoint pad_lookup (d : date) (idx : list date) (c : column) (last : float)
    : float :=
  match idx, c with
  | d' :: idx', x :: c' =>
      if decide (d' ≤ d)%Z then pad_lookup d idx' c' x else last
  | _, _ => last
  end.

(** [df.resample('D').ffill()]: one row per day from the first to the
    last date; a day takes the last row at or before it, as that row is
    (its missing cells stay missing). *)
Definition resample_D_ffill (df : DataFrame) : DataFrame :=
  match index df with
  | [] => df
  | lo :: _ =>
      let hi := List.last (index df) lo in
      let days := seqZ lo (hi - lo + 1) in
      mkDataFrame days
        (prod_map id
           (fun c => (fun d => pad_lookup d (index df) c nan) <$> days)
           <$> columns df)
  end.

(** Row [-k] of a frame, [df.iloc[-k]]: the cells by column name. *)
Definition iloc_row (df : DataFrame) (k : nat)
    : result (list (string * float)) :=
  _ ← iloc_neg (index df) k;
  mret ((fun kv : string * column =>
           (kv.1, default nan (rev kv.2 !! pred k))) <$> columns df).

(** Cell-wise arithmetic on every column of a frame. *)
Definition map_frame (f : column → column) (df : DataFrame) : DataFrame :=
  mkDataFrame (index df) (prod_map id f <$> columns df).

(** [df[[name; ...]]]: the listed columns, in the listed order, on the
    frame's index. A name that is no column is a [KeyError]; pandas lists
    the missing labels in its message, the first of them is kept here. *)
Fixpoint getitem_cols (df : DataFrame) (names : list string)
    : result (list (string * column)) :=
  match names with
  | [] => mret []
  | name :: names' =>
      c ← getitem df name;
      cs ← getitem_cols df names';
      mret ((name, c) :: cs)
  end.

Definition getitem_list (df : DataFrame) (names : list string)
    : result DataFrame :=
  cs ← getitem_cols df names;
  mret (mkDataFrame (index df) cs).

End Pandas.

(** ** What a render cycle hands on

    Every script runs its engine inside [try: ... except Exception as e:
    st.error(...)]; [st.stop()] ends the run after the message before it.
    Either way the cycle ends with a reported failure and nothing is handed
    to the presentation layer. *)

Inductive outcome (A : Type) : Type :=
  | Presented (out : A)
  | Failed (report : exn).
Arguments Presented {A} out.
Arguments Failed {A} report.

Definition render_cycle {A : Type} (body : result A) : outcome A :=
  match body with
  | Ok out => Presented out
  | Raise e => Failed e
  end.

(** The loop body shared by the simulators of both CPI scripts:
    [curr = curr * (1 + assumed_mom)], then the year-over-year figure against
    [base[i]] when [i < len(base)], NaN otherwise. *)
Fixpoint simulate_loop (base : list float) (assumed_mom : float)
    (steps i : nat) (curr : float) : list float :=
  match steps with
  | O => []
  | S steps' =>
      let curr := PrimFloat.mul curr (PrimFloat.add 1 assumed_mom) in
      (match base !! i with
       | Some b => PrimFloat.mul (PrimFloat.sub (PrimFloat.div curr b) 1) 100
       | None => Pandas.nan
       end) :: simulate_loop base assumed_mom steps' (S i) curr
  end.

(** ** cpi_agent.py *)

Module CpiAgent.
Import Pandas.

Definition tickers : list (string * string) :=
  [ ("CPIAUCSL", "CPI (Headline)");
    ("CPILFESL", "CPI (Core)");
    ("PPIFIS", "PPI (Final Demand)");
    ("PCEPI", "PCE (Headline)");
    ("STICKCPIM159SFRBATL", "Sticky CPI") ].

Definition months_to_predict : nat := 6.

(** What the engine part of the script computes before the charts. *)
Record dashboard : Type := mkDashboard {
  d_yoy : DataFrame;
  d_mom : DataFrame;
  d_spread : column;
  d_latest : list float;
  d_previous : list float;
  d_simulated_yoy : list float
}.

Section Engine.
(** [fred.get_series(code, observation_start=start)], the clock, the
    default of [pct_change] in the installed pandas and the slider. *)
Variable get_series : string → date → result Series.
Variable now : date.
Variable pct_change_pads : bool.
Variable assumed_mom : float.

(** The frame and the names of the series reported with [st.error]. *)
Definition get_macro_data : DataFrame * list string :=
  let start_date := (now - 365 * 5)%Z in
  foldl
    (fun (acc : DataFrame * list string) (t : string * string) =>
       match get_series t.1 start_date with
       | Ok series => (setitem_series acc.1 t.2 series, acc.2)
       | Raise _ => (acc.1, (acc.2 ++ [t.2])%list)
       end)
    (empty_frame, []) tickers.

Definition process_data (df : DataFrame)
    : result (DataFrame * DataFrame * DataFrame) :=
  let df_yoy :=
    map_frame (fun c => mul_scalar (pct_change pct_change_pads 12 c) 100) df in
  let df_mom :=
    map_frame (fun c => mul_scalar (pct_change pct_change_pads 1 c) 100) df in
  tables ←
    (if has_col "Sticky CPI" df then
       sticky ← getitem df "Sticky CPI";
       mret (setitem df_yoy "Sticky CPI" sticky,
             setitem_scalar df_mom "Sticky CPI" nan)
     else mret (df_yoy, df_mom));
  df_yoy ←
    (if has_col "US_10Y_Yield" df then
       y ← getitem df "US_10Y_Yield";
       mret (setitem tables.1 "US_10Y_Yield" y)
     else mret tables.1);
  mret (df, df_yoy, tables.2).

Definition calculate_spread (df_yoy : DataFrame) : result column :=
  cpi ← getitem df_yoy "CPI (Headline)";
  ppi ← getitem df_yoy "PPI (Final Demand)";
  mret (sub_col cpi ppi).

(** Tab 3, the base-effect simulator. *)
Definition simulate (raw_df : DataFrame) : result (list float) :=
  cpi ← getitem raw_df "CPI (Headline)";
  last_cpi_index ← iloc_neg cpi 1;
  let base_indices := iloc_slice_neg cpi 13 (13 - months_to_predict) in
  mret (simulate_loop base_indices assumed_mom months_to_predict 0
          last_cpi_index).

(** The body of the script's [try] block, up to the data of the charts. *)
Definition main : result dashboard :=
  let raw_df := dropna get_macro_data.1 in
  tables ← process_data raw_df;
  let df_yoy := tables.1.2 in
  spread ← calculate_spread df_yoy;
  _ ← iloc_neg (index df_yoy) 1;
  cpi ← getitem df_yoy "CPI (Headline)";
  core ← getitem df_yoy "CPI (Core)";
  ppi ← getitem df_yoy "PPI (Final Demand)";
  latest_cpi ← iloc_neg cpi 1;
  latest_core ← iloc_neg core 1;
  latest_ppi ← iloc_neg ppi 1;
  latest_spread ← iloc_neg spread 1;
  prev_cpi ← iloc_neg cpi 2;
  prev_core ← iloc_neg core 2;
  prev_ppi ← iloc_neg ppi 2;
  simulated_yoy ← simulate raw_df;
  mret (mkDashboard df_yoy tables.2 spread
          [latest_cpi; latest_core; latest_ppi; latest_spread]
          [prev_cpi; prev_core; prev_ppi] simulated_yoy).

Definition run : outcome dashboard := render_cycle main.
End Engine.
End CpiAgent.

(** ** cpi_agent_v2.1.py *)

Module CpiAgentV21.
Import Pandas.

Definition tickers : list (string * string) :=
  [ ("CPIAUCSL", "CPI (Headline)");
    ("CPILFESL", "CPI (Core)");
    ("PPIFIS", "PPI (Final Demand)");
    ("PCEPI", "PCE (Headline)");
    ("CUSR0000SAD", "Supercore (Svcs ex Shelter)");
    ("CUSR0000SETA02", "Used Cars");
    ("CUSR0000SAH1", "CPI Shelter");
    ("CHNTOT", "China Import Prices");
    ("STICKCPIM159SFRBATL", "Sticky CPI");
    ("T5YIE", "5Y Breakeven");
    ("DFII10", "10Y Real Yield") ].

Definition index_cols : list string :=
  [ "CPI (Headline)"; "CPI (Core)"; "PPI (Final Demand)"; "PCE (Headline)";
    "Supercore (Svcs ex Shelter)"; "Used Cars"; "CPI Shelter";
    "China Import Prices" ].

Definition rate_cols : list string :=
  [ "Sticky CPI"; "5Y Breakeven"; "10Y Real Yield" ].

Definition months_predict : nat := 6.

Record dashboard : Type := mkDashboard {
  d_yoy : DataFrame;
  d_latest : list (string * float);
  d_prev : list (string * float);
  d_future_yoy : list float
}.

Section Engine.
Variable get_series : string → date → result Series.
Variable now : date.
Variable pct_change_pads : bool.
Variable assumed_mom : float.

Definition get_macro_data : DataFrame * list string :=
  let start_date := (now - 365 * 6)%Z in
  foldl
    (fun (acc : DataFrame * list string) (t : string * string) =>
       match get_series t.1 start_date with
       | Ok series => (setitem_series acc.1 t.2 series, acc.2)
       | Raise _ => (acc.1, (acc.2 ++ [t.2])%list)
       end)
    (empty_frame, []) tickers.

(** One round of [for col in index_cols: if col in df.columns:
    df_yoy[col] = df[col].pct_change(12) * 100]. *)
Definition yoy_step (df : DataFrame) (df_yoy : result DataFrame)
    (col : string) : result DataFrame :=
  df_yoy ← df_yoy;
  if has_col col df then
    s ← getitem_series df col;
    mret (setitem_series df_yoy col
            (mkSeries (s_index s)
               (mul_scalar (pct_change pct_change_pads 12 (s_values s)) 100)))
  else mret df_yoy.

(** One round of [for col in rate_cols: if col in df.columns:
    df_yoy[col] = df[col]]. *)
Definition rate_step (df : DataFrame) (df_yoy : result DataFrame)
    (col : string) : result DataFrame :=
  df_yoy ← df_yoy;
  if has_col col df then
    s ← getitem_series df col;
    mret (setitem_series df_yoy col s)
  else mret df_yoy.

Definition process_data (df : DataFrame) : result (DataFrame * DataFrame) :=
  df_yoy ← foldl (yoy_step df) (Ok empty_frame) index_cols;
  df_yoy ← foldl (rate_step df) (Ok df_yoy) rate_cols;
  df_yoy ←
    (if has_col "CPI (Headline)" df_yoy && has_col "PPI (Final Demand)" df_yoy
     then
       cpi ← getitem_series df_yoy "CPI (Headline)";
       ppi ← getitem_series df_yoy "PPI (Final Demand)";
       mret (setitem_series df_yoy "Profit Spread"
               (mkSeries (s_index cpi) (sub_col (s_values cpi) (s_values ppi))))
     else mret df_yoy);
  mret (df, df_yoy).

(** Tab 5, the base-effect simulator. *)
Definition simulate (raw_df : DataFrame) : result (list float) :=
  cpi ← getitem raw_df "CPI (Headline)";
  last_val ← iloc_neg cpi 1;
  let base_vals := iloc_slice_neg cpi 13 (13 - months_predict) in
  mret (simulate_loop base_vals assumed_mom months_predict 0 last_val).

(** The body of the script's [try] block, up to the data of the charts. *)
Definition main : result dashboard :=
  let raw_df := get_macro_data.1 in
  if negb (has_col "CPI (Headline)" raw_df) then
    Raise (Stop "CPI data unavailable")
  else
    raw_df ← dropna_subset "CPI (Headline)" raw_df;
    tables ← process_data raw_df;
    let df_yoy := tables.2 in
    latest ← iloc_row df_yoy 1;
    prev ← iloc_row df_yoy 2;
    future_yoy ← simulate raw_df;
    mret (mkDashboard df_yoy latest prev future_yoy).

Definition run : outcome dashboard := render_cycle main.
End Engine.
End CpiAgentV21.

(** ** rate_agent.py *)

Module RateAgent.
Import Pandas.

Definition tickers : list (string * string) :=
  [ ("DGS10", "US 10Y Yield");
    ("DGS2", "US 2Y Yield");
    ("FEDFUNDS", "Fed Funds Rate");
    ("DFII10", "10Y Real Yield");
    ("T10Y3M", "10Y-3M Spread");
    ("BAMLH0A0HYM2", "High Yield Spread");
    ("NFCI", "Financial Conditions");
    ("SP500", "S&P 500") ].

Record dashboard : Type := mkDashboard {
  d_table : DataFrame;
  d_latest : list (string * float);
  d_prev_week : list (string * float)
}.

Section Engine.
Variable get_series : string → date → result Series.
Variable now : date.

(** The three liquidity series are fetched in one [try] block, merged,
    resampled to days and joined to the frame; any failure there leaves
    the frame as it was and is reported. *)
Definition fetch_liquidity (start_date : date) (df : DataFrame)
    : result DataFrame :=
  fed_assets ← get_series "WALCL" start_date;
  tga ← get_series "WTREGEN" start_date;
  rrp ← get_series "RRPONTSYD" start_date;
  let liq_df :=
    concat_axis1 [ ("Fed Total Assets", fed_assets);
                   ("TGA Account", tga);
                   ("Reverse Repo", rrp) ] in
  let liq_df := resample_D_ffill liq_df in
  mret (join_outer df liq_df).

Definition get_rates_data (years : Z) : DataFrame * list exn :=
  let start_date := (now - 365 * years)%Z in
  let df :=
    foldl
      (fun (df : DataFrame) (t : string * string) =>
         match get_series t.1 start_date with
         | Ok series => join_outer df (to_frame t.2 series)
         | Raise _ => df
         end)
      empty_frame tickers in
  match fetch_liquidity start_date df with
  | Ok df' => (df', [])
  | Raise e => (df, [e])
  end.

Definition process_rates_data (df : DataFrame) : result DataFrame :=
  let df := ffill df in
  df ← dropna_subset "US 10Y Yield" df;
  df ←
    (if forallb (fun x => has_col x df)
          [ "Fed Total Assets"; "TGA Account"; "Reverse Repo" ]
     then
       fed ← getitem df "Fed Total Assets";
       let fed_t := div_scalar fed 1000000 in
       tga ← getitem df "TGA Account";
       let tga_t := div_scalar tga 1000 in
       rrp ← getitem df "Reverse Repo";
       let rrp_t := div_scalar rrp 1000 in
       mret (setitem df "Net Liquidity" (sub_col (sub_col fed_t tga_t) rrp_t))
     else mret df);
  if has_col "US 10Y Yield" df && has_col "US 2Y Yield" df then
    y10 ← getitem df "US 10Y Yield";
    y2 ← getitem df "US 2Y Yield";
    mret (setitem df "Curve 10Y-2Y" (sub_col y10 y2))
  else mret df.

Definition main (years_back : Z) : result dashboard :=
  let raw_df := (get_rates_data years_back).1 in
  df ← process_rates_data raw_df;
  if empty df then Raise (Stop "no data")
  else
    latest ← iloc_row df 1;
    prev_week ← iloc_row df 7;
    mret (mkDashboard df latest prev_week).

Definition run (years_back : Z) : outcome dashboard :=
  render_cycle (main years_back).
End Engine.
(** The table a chart is drawn from: the script plots [plot_df.index]
    against the columns of [plot_df]. *)
Definition plot_dual_axis (df : DataFrame) (col1 col2 : string)
    : result DataFrame :=
  sel ← getitem_list df [col1; col2];
  mret (dropna sel).

Definition plot_area_chart (df : DataFrame) (col : string)
    : result DataFrame :=
  sel ← getitem_list df [col];
  mret (dropna sel).

(** Tab 4: the credit chart, behind its test on the columns; [None] when
    the test fails and nothing is drawn. *)
Definition credit_chart (df : DataFrame) : result (option DataFrame) :=
  if has_col "High Yield Spread" df then
    plot_df ← plot_dual_axis df "High Yield Spread" "Financial Conditions";
    mret (Some plot_df)
  else mret None.

End RateAgent.

(** ** rate_agent_v2.py *)

Module RateAgentV2.
Import Pandas.

Definition tickers : list (string * string) :=
  [ ("DGS10", "US 10Y Yield");
    ("DGS2", "US 2Y Yield");
    ("FEDFUNDS", "Fed Funds Rate");
    ("DFII10", "10Y Real Yield");
    ("T10Y3M", "10Y-3M Spread");
    ("WALCL", "Fed Total Assets");
    ("WTREGEN", "TGA Account");
    ("RRPONTSYD", "Reverse Repo");
    ("BAMLH0A0HYM2", "High Yield Spread");
    ("NFCI", "Financial Conditions");
    ("SP500", "S&P 500") ].

Definition req_cols : list string :=
  [ "Fed Total Assets"; "TGA Account"; "Reverse Repo" ].

Record dashboard : Type := mkDashboard {
  d_table : DataFrame;
  d_latest : list (string * float);
  d_prev : list (string * float)
}.

(** [pd.concat(data_frames, axis=1)], [ffill()], then
    [dropna(subset=['US 10Y Yield'])]. *)
Definition merge_and_fill (data_frames : list (string * Series))
    : result DataFrame :=
  let df := concat_axis1 data_frames in
  let df := ffill df in
  dropna_subset "US 10Y Yield" df.

Definition process_rates_data (df : DataFrame) : result DataFrame :=
  df ←
    (if forallb (fun col => has_col col df) req_cols then
       fed_assets ← getitem df "Fed Total Assets";
       let fed := div_scalar fed_assets 1000000 in
       tga_account ← getitem df "TGA Account";
       let tga := div_scalar tga_account 1000000 in
       reverse_repo ← getitem df "Reverse Repo";
       let rrp := div_scalar reverse_repo 1000 in
       mret (setitem df "Net Liquidity" (sub_col (sub_col fed tga) rrp))
     else mret (setitem_scalar df "Net Liquidity" nan));
  if has_col "US 10Y Yield" df && has_col "US 2Y Yield" df then
    y10 ← getitem df "US 10Y Yield";
    y2 ← getitem df "US 2Y Yield";
    mret (setitem df "Curve 10Y-2Y" (sub_col y10 y2))
  else mret df.

(** The table a chart is drawn from: the script plots [plot_df.index]
    against the columns of [plot_df]. [None] when the function returns
    without a figure. *)
Definition plot_dual_axis (df : DataFrame) (col1 col2 : string)
    : result (option DataFrame) :=
  sel ← getitem_list df [col1; col2];
  let plot_df := dropna sel in
  if empty plot_df then mret None else mret (Some plot_df).

Definition plot_area_chart (df : DataFrame) (col : string)
    : result (option DataFrame) :=
  if negb (has_col col df) then mret None
  else
    sel ← getitem_list df [col];
    mret (Some (dropna sel)).

(** Tab 4: the credit chart, behind its test on the columns. *)
Definition credit_chart (df : DataFrame) : result (option DataFrame) :=
  if has_col "High Yield Spread" df && has_col "Financial Conditions" df then
    plot_dual_axis df "High Yield Spread" "Financial Conditions"
  else mret None.

Section Engine.
Variable get_series : string → date → result Series.
Variable now : date.

(** The fetched series in ticker order, and the names printed as
    failed. *)
Definition fetch_all (start_date : date)
    : list (string * Series) * list string :=
  foldl
    (fun (acc : list (string * Series) * list string)
         (t : string * string) =>
       match get_series t.1 start_date with
       | Ok series => ((acc.1 ++ [(t.2, series)])%list, acc.2)
       | Raise _ => (acc.1, (acc.2 ++ [t.2])%list)
       end)
    ([], []) tickers.

Definition get_rates_data (years : Z) : result DataFrame :=
  let start_date := (now - 365 * years)%Z in
  let data_frames := (fetch_all start_date).1 in
  match data_frames with
  | [] => mret empty_frame
  | _ => merge_and_fill data_frames
  end.

Definition main (years_back : Z) : result dashboard :=
  raw_df ← get_rates_data years_back;
  df ← process_rates_data raw_df;
  if empty df then Raise (Stop "no data")
  else
    latest ← iloc_row df 1;
    prev ← iloc_row df 7;
    mret (mkDashboard df latest prev).

Definition run (years_back : Z) : outcome dashboard :=
  render_cycle (main years_back).
End Engine.
End RateAgentV2.

(** ** rate_agent_v3.py *)

Module RateAgentV3.
Import Pandas.

Definition tickers : list (string * string) :=
  [ ("DGS10", "US 10Y Yield");
    ("DGS2", "US 2Y Yield");
    ("FEDFUNDS", "Fed Funds Rate");
    ("DFII10", "10Y Real Yield");
    ("T10Y3M", "10Y-3M Spread");
    ("DGS30", "US 30Y Yield");
    ("WALCL", "Fed Total Assets");
    ("WTREGEN", "TGA Account");
    ("RRPONTSYD", "Reverse Repo");
    ("SOFR", "SOFR Rate");
    ("IORB", "IORB Rate");
    ("TOTRESNS", "Bank Reserves");
    ("CUSR0000SAD", "Supercore CPI Index");
    ("T5YIE", "5Y Breakeven");
    ("BAMLH0A0HYM2", "High Yield Spread");
    ("NFCI", "Financial Conditions");
    ("SP500", "S&P 500") ].

Definition req_liq : list string :=
  [ "Fed Total Assets"; "TGA Account"; "Reverse Repo" ].

Record dashboard : Type := mkDashboard {
  d_table : DataFrame;
  d_latest : list (string * float);
  d_prev : list (string * float)
}.

Definition merge_and_fill (data_frames : list (string * Series))
    : result DataFrame :=
  let df := concat_axis1 data_frames in
  let df := ffill df in
  dropna_subset "US 10Y Yield" df.

(** The table a chart is drawn from: the script plots [plot_df.index]
    against the columns of [plot_df]. [None] when the function returns
    without a figure. *)
Definition plot_dual_axis (df : DataFrame) (col1 col2 : string)
    : result (option DataFrame) :=
  sel ← getitem_list df [col1; col2];
  let plot_df := dropna sel in
  if empty plot_df then mret None else mret (Some plot_df).

Definition plot_single_line (df : DataFrame) (col : string)
    : result (option DataFrame) :=
  sel ← getitem_list df [col];
  let plot_df := dropna sel in
  if empty plot_df then mret None else mret (Some plot_df).

Definition plot_area_chart (df : DataFrame) (col : string)
    : result (option DataFrame) :=
  if negb (has_col col df) then mret None
  else
    sel ← getitem_list df [col];
    mret (Some (dropna sel)).

(** Tab 5: the credit chart, behind its test on the columns. *)
Definition credit_chart (df : DataFrame) : result (option DataFrame) :=
  if has_col "High Yield Spread" df && has_col "Financial Conditions" df then
    plot_dual_axis df "High Yield Spread" "Financial Conditions"
  else mret None.

Section Engine.
Variable get_series : string → date → result Series.
Variable now : date.
Variable pct_change_pads : bool.

Definition process_rates_data (df : DataFrame) : result DataFrame :=
  df ←
    (if forallb (fun col => has_col col df) req_liq then
       fed_assets ← getitem df "Fed Total Assets";
       let fed := div_scalar fed_assets 1000000 in
       tga_account ← getitem df "TGA Account";
       let tga := div_scalar tga_account 1000000 in
       reverse_repo ← getitem df "Reverse Repo";
       let rrp := div_scalar reverse_repo 1000 in
       mret (setitem df "Net Liquidity" (sub_col (sub_col fed tga) rrp))
     else mret (setitem_scalar df "Net Liquidity" nan));
  df ←
    (if has_col "SOFR Rate" df && has_col "IORB Rate" df then
       sofr ← getitem df "SOFR Rate";
       iorb ← getitem df "IORB Rate";
       mret (setitem df "Liquidity Stress" (sub_col sofr iorb))
     else mret df);
  df ←
    (if has_col "Supercore CPI Index" df then
       supercore ← getitem df "Supercore CPI Index";
       mret (setitem df "Supercore YoY"
               (mul_scalar (pct_change pct_change_pads 252 supercore) 100))
     else mret df);
  df ←
    (if has_col "Bank Reserves" df then
       reserves ← getitem df "Bank Reserves";
       mret (setitem df "Bank Reserves Trillions" (div_scalar reserves 1000))
     else mret df);
  if has_col "US 10Y Yield" df && has_col "US 2Y Yield" df then
    y10 ← getitem df "US 10Y Yield";
    y2 ← getitem df "US 2Y Yield";
    mret (setitem df "Curve 10Y-2Y" (sub_col y10 y2))
  else mret df.

Definition fetch_all (start_date : date) : list (string * Series) :=
  foldl
    (fun (acc : list (string * Series)) (t : string * string) =>
       match get_series t.1 start_date with
       | Ok series => (acc ++ [(t.2, series)])%list
       | Raise _ => acc
       end)
    [] tickers.

Definition get_rates_data (years : Z) : result DataFrame :=
  let start_date := (now - 365 * years)%Z in
  let data_frames := fetch_all start_date in
  match data_frames with
  | [] => mret empty_frame
  | _ => merge_and_fill data_frames
  end.

Definition main (years_back : Z) : result dashboard :=
  raw_df ← get_rates_data years_back;
  df ← process_rates_data raw_df;
  if empty df then Raise (Stop "no data")
  else
    latest ← iloc_row df 1;
    prev ← iloc_row df 7;
    mret (mkDashboard df latest prev).

Definition run (years_back : Z) : outcome dashboard :=
  render_cycle (main years_back).
End Engine.
End RateAgentV3.

(** ** Vocabulary of the statements *)

Module Spec.
Import Pandas.

(** The columns a derivation step may add, by script. *)
Definition derived_v2 : list string := [ "Net Liquidity"; "Curve 10Y-2Y" ].
Definition derived_v3 : list string :=
  [ "Net Liquidity"; "Liquidity Stress"; "Supercore YoY";
    "Bank Reserves Trillions"; "Curve 10Y-2Y" ].

(** [df'] is [df] with, at most, columns of [derived] added or set: same
    index, every other column as it was, no other new name. *)
Definition extends (derived : list string) (df df' : DataFrame) : Prop :=
  index df' = index df
  ∧ (∀ c, c ∉ derived →
       lookup_col c (columns df') = lookup_col c (columns df))
  ∧ (∀ c, c ∈ column_names df' → c ∈ column_names df ∨ c ∈ derived).

(** The net-liquidity column of [rate_agent_v2.py] and [rate_agent_v3.py]:
    Fed assets and the TGA divided by 1,000,000, reverse repo by 1,000. *)
Definition net_liquidity_millions (fed tga rrp : column) : column :=
  sub_col (sub_col (div_scalar fed 1000000) (div_scalar tga 1000000))
          (div_scalar rrp 1000).

(** None of the names is a column of the frame. *)
Definition absent (names : list string) (df : DataFrame) : Prop :=
  ∀ n, n ∈ names → has_col n df = false.

(** The year-over-year transform of a column over [n] periods, in
    percent: [c.pct_change(n) * 100]. *)
Definition yoy_col (pads : bool) (n : nat) (c : column) : column :=
  mul_scalar (pct_change pads n c) 100.

(** A frame under construction from columns of [df]: still the empty
    frame, or already on the index of [df]. *)
Definition on_index_of (df y : DataFrame) : Prop :=
  y = empty_frame ∨ index y = index df.

(** One round of a [for col in ...: if col in df.columns: out[col] =
    g(df[col])] loop, on the columns of the output. *)
Definition copy_col (df : DataFrame) (g : column → column)
    (cs : list (string * column)) (col : string) : list (string * column) :=
  match lookup_col col (columns df) with
  | Some c => assign_col col (g c) cs
  | None => cs
  end.

(** The columns of the derived table of [cpi_agent_v2.1.py] before the
    profit spread: year-over-year of the index columns of [df], then the
    rate columns of [df] as they are. *)
Definition yoy_and_rate_columns (pads : bool) (df : DataFrame)
    : list (string * column) :=
  foldl (copy_col df id)
    (foldl (copy_col df (yoy_col pads 12)) [] CpiAgentV21.index_cols)
    CpiAgentV21.rate_cols.

(** A column observed at its first and fourth row only. *)
Definition gap_table : DataFrame :=
  mkDataFrame [20000%Z; 20001%Z; 20002%Z; 20003%Z]
    [ ("US 10Y Yield", [4.25%float; 4.5%float; 4.5%float; 4.75%float]);
      ("Fed Total Assets", [9000000%float; nan; nan; 8900000%float]) ].

(** An index column worth 100, then 110 twelve rows later, with a rate
    column beside it. *)
Definition yoy_table : DataFrame :=
  mkDataFrame (seqZ 0 13)
    [ ("CPI (Headline)",
       [100; 101; 102; 103; 104; 105; 106; 107; 108; 109; 109; 110; 110]%float);
      ("Sticky CPI",
       [3.5; 3.5; 3.5; 3.5; 3.5; 3.5; 3.5; 3.5; 3.5; 3.5; 3.5; 3.5; 3.5]%float) ].

(** Every column has one cell per row. *)
Definition well_formed (df : DataFrame) : Prop :=
  Forall (fun kv : string * list float => length kv.2 = length (index df))
         (columns df).

(** The positions a row mask keeps, in order, and the cells of a list at
    given positions. *)
Definition kept (mask : list bool) : list nat :=
  filter (fun i => mask !! i = Some true) (seq 0 (length mask)).

Definition pick {A : Type} (d : A) (l : list A) (positions : list nat)
    : list A :=
  (fun i => default d (l !! i)) <$> positions.

(** The row mask of [df.dropna()]: rows without a missing cell. *)
Definition complete_rows (df : DataFrame) : list bool :=
  (fun i => forallb notna (row_cells df i)) <$> seq 0 (length (index df)).

(** A CPI table whose second row has the headline index but no PPI. *)
Definition ppi_gap_table : DataFrame :=
  mkDataFrame [19000%Z; 19031%Z]
    [ ("CPI (Headline)", [300; 301]%float);
      ("PPI (Final Demand)", [140%float; nan]) ].

(** The display names of the tickers whose fetch succeeds, and of those
    whose fetch fails, in ticker order. *)
Definition fetched (get_series : string → date → result Series)
    (start : date) (tickers : list (string * string)) : list string :=
  (filter (fun t : string * string => is_ok (get_series t.1 start) = true)
          tickers).*2.

Definition failed (get_series : string → date → result Series)
    (start : date) (tickers : list (string * string)) : list string :=
  (filter (fun t : string * string => is_ok (get_series t.1 start) = false)
          tickers).*2.

(** A source with two monthly observations of the headline CPI and of the
    two-year yield, one of everything else except the reverse repo, which
    it fails to deliver. *)
Definition sample_source (code : string) (start : date) : result Series :=
  if decide (code = "RRPONTSYD") then Raise (FetchError code)
  else if decide (code = "PPIFIS") then
    Ok (mkSeries [19000%Z; 19031%Z] [140%float; nan])
  else if decide (code = "CPIAUCSL") then
    Ok (mkSeries [19000%Z; 19031%Z] [300; 301]%float)
  else if decide (code = "DGS10") then
    Ok (mkSeries [19000%Z; 19031%Z] [4.25; 4.5]%float)
  else Ok (mkSeries [19000%Z] [1%float]).

(** The same source without the anchor series of either dashboard. *)
Definition no_anchor_source (code : string) (start : date) : result Series :=
  if decide (code = "CPIAUCSL") then Raise (FetchError code)
  else if decide (code = "DGS10") then Raise (FetchError code)
  else sample_source code start.

(** [rate_agent.py] fetches the three liquidity series in one [try]
    block: they enter the table together or not at all. *)
Definition liquidity_names : list string :=
  [ "Fed Total Assets"; "TGA Account"; "Reverse Repo" ].

Definition liquidity_fetched (get_series : string → date → result Series)
    (start : date) : bool :=
  is_ok (get_series "WALCL" start)
  && is_ok (get_series "WTREGEN" start)
  && is_ok (get_series "RRPONTSYD" start).

(** The projected levels: [level[0]] is the latest level compounded
    once, [level[i+1] = level[i] * (1 + rate)]. *)
Fixpoint projected_level (last rate : float) (i : nat) : float :=
  match i with
  | O => PrimFloat.mul last (PrimFloat.add 1 rate)
  | S j => PrimFloat.mul (projected_level last rate j) (PrimFloat.add 1 rate)
  end.

(** The year-over-year figure of a level against a base, in percent. *)
Definition yoy_against (level base : float) : float :=
  PrimFloat.mul (PrimFloat.sub (PrimFloat.div level base) 1) 100.

(** A CPI history of twelve months, and one of thirteen. *)
Definition history12 : DataFrame :=
  mkDataFrame (seqZ 0 12)
    [ ("CPI (Headline)",
       [300; 301; 302; 303; 304; 305; 306; 307; 308; 309; 310; 311]%float) ].

Definition history13 : DataFrame :=
  mkDataFrame (seqZ 0 13)
    [ ("CPI (Headline)",
       [300; 301; 302; 303; 304; 305; 306; 307; 308; 309; 310; 311;
        310]%float) ].

(** Two rows of the crisis columns of [rate_agent_v3.py]. *)
Definition stress_table : DataFrame :=
  mkDataFrame [20000%Z; 20001%Z]
    [ ("US 10Y Yield", [4.25%float; 4.5%float]);
      ("SOFR Rate", [5.31%float; 5.33%float]);
      ("IORB Rate", [5.4%float; 5.4%float]);
      ("Bank Reserves", [3400%float; 3300%float]) ].

(** Thirteen months of headline CPI and PPI. *)
Definition spread_table : DataFrame :=
  mkDataFrame (seqZ 0 13)
    [ ("CPI (Headline)",
       [100; 101; 102; 103; 104; 105; 106; 107; 108; 109; 109; 110; 110]%float);
      ("PPI (Final Demand)",
       [200; 201; 202; 203; 204; 205; 206; 207; 208; 209; 209; 210; 210]%float) ].

(** A column without a gap: a row that holds a value is followed by rows
    that hold values only. First by positions, then by recursion on the
    column. *)
Definition gap_free (c : list float) : Prop :=
  ∀ (i j : nat) (x : float),
    i ≤ j → j < length c → c !! i = Some x → isna x = false →
    ∃ y, c !! j = Some y ∧ isna y = false.

Definition observed (x : float) : Prop := isna x = false.

Fixpoint no_gap (c : list float) : Prop :=
  match c with
  | [] => True
  | x :: c' => if isna x then no_gap c' else Forall observed c'
  end.

(** A source with eight daily observations of every series. *)
Definition week_source (code : string) (start : date) : result Series :=
  Ok (mkSeries (seqZ 19000 8) [4; 4.1; 4.2; 4.3; 4.2; 4.1; 4; 4.1]%float).

(** The column that [df[name] = s] stores in a frame with rows, on the
    index [idx]: the values as they are when the series has this very
    index, the series reindexed otherwise. *)
Definition aligned_to (idx : list date) (s : Series) : list float :=
  if decide (s_index s = idx) then s_values s else reindex idx s.

(** A table with the high-yield spread but without the financial
    conditions index. *)
Definition no_nfci_table : DataFrame :=
  mkDataFrame [20000%Z; 20001%Z]
    [ ("US 10Y Yield", [4.25%float; 4.5%float]);
      ("High Yield Spread", [3.1%float; 3.2%float]) ].



(** The merged table of [rate_agent_v2.py] and of [rate_agent_v3.py],
    [pd.concat(data_frames, axis=1)], before it is filled. *)
Definition merged_v2 (get_series : string → date → result Series)
    (now : date) (years : Z) : DataFrame :=
  concat_axis1 (RateAgentV2.fetch_all get_series (now - 365 * years)%Z).1.

Definition merged_v3 (get_series : string → date → result Series)
    (now : date) (years : Z) : DataFrame :=
  concat_axis1 (RateAgentV3.fetch_all get_series (now - 365 * years)%Z).


(** A source with three monthly observations of every series, the PPI
    of the last month not yet released. *)
Definition ppi_late_source (code : string) (start : date) : result Series :=
  if decide (code = "PPIFIS") then
    Ok (mkSeries [19000%Z; 19031%Z; 19061%Z] [140%float; 141%float; nan])
  else Ok (mkSeries [19000%Z; 19031%Z; 19061%Z] [300; 301; 302]%float).

(** The table of the unit-normalisation example: one row with Fed assets
    9,000,000 and TGA 700,000 (millions), reverse repo 500 (billions). *)
Definition units_table : DataFrame :=
  mkDataFrame [20000%Z]
    [ ("US 10Y Yield", [4.25%float]);
      ("Fed Total Assets", [9000000%float]);
      ("TGA Account", [700000%float]);
      ("Reverse Repo", [500%float]) ].

(** The same table without the reverse-repo column. *)
Definition no_rrp_table : DataFrame :=
  mkDataFrame [20000%Z; 20001%Z]
    [ ("US 10Y Yield", [4.25%float; 4.5%float]);
      ("US 2Y Yield", [4%float; 4.125%float]);
      ("Fed Total Assets", [9000000%float; 9000000%float]);
      ("TGA Account", [700000%float; 700000%float]) ].

(** [|x - y| <= tol], false when either is NaN. *)
Definition close_to (tol x y : float) : bool :=
  PrimFloat.leb (PrimFloat.abs (PrimFloat.sub x y)) tol.

End Spec.

(** * Properties *)

(** ** Columns of a frame *)

Section ColumnFacts.
Import Pandas.
Implicit Types (cs : list (string * column)) (df : DataFrame).

Lemma lookup_assign_eq name v cs :
  lookup_col name (assign_col name v cs) = Some v.
Proof.
  induction cs as [|[k w] cs IH]; simpl.
  - by rewrite decide_True.
  - destruct (decide (k = name)) as [->|Hne]; simpl.
    + by rewrite decide_True.
    + by rewrite decide_False.
Qed.

Lemma lookup_assign_ne name k v cs :
  k ≠ name → lookup_col k (assign_col name v cs) = lookup_col k cs.
Proof.
  intros Hne. induction cs as [|[k' w] cs IH]; simpl.
  - by rewrite decide_False.
  - destruct (decide (k' = name)) as [->|Hne']; simpl.
    + by rewrite !decide_False.
    + by rewrite IH.
Qed.

Lemma lookup_col_Some_names name c cs :
  lookup_col name cs = Some c → name ∈ cs.*1.
Proof.
  induction cs as [|[k w] cs IH]; simpl; [done|].
  destruct (decide (k = name)) as [->|Hne]; intros H.
  - apply list_elem_of_here.
  - apply list_elem_of_further, IH, H.
Qed.

Lemma lookup_col_None_names name cs :
  lookup_col name cs = None ↔ name ∉ cs.*1.
Proof.
  induction cs as [|[k w] cs IH]; simpl.
  - split; [intros _; apply not_elem_of_nil | done].
  - rewrite not_elem_of_cons. destruct (decide (k = name)) as [->|Hne].
    + split; [done | intros [? _]; done].
    + rewrite IH. split; [intros ?; split; [done|done] | intros [_ ?]; done].
Qed.

Lemma names_assign name v cs x :
  x ∈ (assign_col name v cs).*1 ↔ x = name ∨ x ∈ cs.*1.
Proof.
  induction cs as [|[k w] cs IH]; simpl.
  - rewrite list_elem_of_singleton. split; [by left | intros [?|H]; [done|]].
    by apply not_elem_of_nil in H.
  - destruct (decide (k = name)) as [->|Hne]; simpl.
    + rewrite !elem_of_cons. naive_solver.
    + rewrite !elem_of_cons, IH. naive_solver.
Qed.

Lemma has_col_true name df :
  has_col name df = true ↔ ∃ c, lookup_col name (columns df) = Some c.
Proof. unfold has_col. by rewrite bool_decide_eq_true. Qed.

Lemma has_col_false name df :
  has_col name df = false ↔ lookup_col name (columns df) = None.
Proof.
  unfold has_col. rewrite bool_decide_eq_false, <- eq_None_not_Some. done.
Qed.

Lemma has_col_names name df :
  has_col name df = true ↔ name ∈ column_names df.
Proof.
  rewrite has_col_true. unfold column_names. split.
  - intros [c Hc]. by eapply lookup_col_Some_names.
  - intros Hin. destruct (lookup_col name (columns df)) eqn:E; [by eexists|].
    by apply lookup_col_None_names in E.
Qed.

Lemma getitem_Ok name df c :
  lookup_col name (columns df) = Some c → getitem df name = Ok c.
Proof. unfold getitem. by intros ->. Qed.

End ColumnFacts.

(** ** The derivation step adds columns and touches nothing else *)

Section Frame.
Import Pandas Spec.
Implicit Types (df : DataFrame) (derived : list string).

Lemma extends_refl derived df : extends derived df df.
Proof. repeat split; auto. Qed.

Lemma extends_setitem derived df df' name v :
  name ∈ derived → extends derived df df' →
  extends derived df (setitem df' name v).
Proof.
  intros Hin (Hi & Hc & Hn). repeat split; simpl.
  - done.
  - intros c Hc'. rewrite lookup_assign_ne; [by apply Hc|].
    intros ->. done.
  - intros c. unfold column_names; simpl. rewrite names_assign.
    intros [->|H]; [by right | by apply Hn].
Qed.

Lemma extends_setitem_scalar derived df df' name x :
  name ∈ derived → extends derived df df' →
  extends derived df (setitem_scalar df' name x).
Proof. apply extends_setitem. Qed.

(** A stage of the step that succeeds and extends, followed by a
    continuation that does so from any extension, succeeds and extends. *)
Lemma bind_extends derived df (m : result DataFrame)
    (k : DataFrame → result DataFrame) :
  (∃ df1, m = Ok df1 ∧ extends derived df df1) →
  (∀ df1, extends derived df df1 →
     ∃ df2, k df1 = Ok df2 ∧ extends derived df df2) →
  ∃ df2, (m ≫= k) = Ok df2 ∧ extends derived df df2.
Proof. intros (df1 & -> & H1) Hk. by apply Hk. Qed.

End Frame.

(** Case analysis on the [name in df.columns] tests of a stage; in the
    branches where a test holds the column is looked up. *)
Ltac case_has_col :=
  repeat match goal with
  | |- context [Pandas.has_col ?n ?d] =>
      let H := fresh "Hcol" in
      destruct (Pandas.has_col n d) eqn:H;
      [ apply has_col_true in H as [? H];
        try rewrite (getitem_Ok _ _ _ H)
      | ];
      cbn [andb forallb mbind mret result_bind result_ret]
  end.

(** Membership in a list given by its elements. *)
Ltac elem_of_literal :=
  repeat first [ apply list_elem_of_here | apply list_elem_of_further ].

Ltac stage_extends :=
  cbn [forallb]; case_has_col;
  eexists; (split; [reflexivity|]);
  first [ assumption
        | apply extends_setitem; [elem_of_literal | assumption]
        | apply extends_setitem_scalar; [elem_of_literal | assumption] ].

Section FrameTheorems.
Import Pandas Spec.

Lemma process_rates_data_v2_extends df :
  ∃ df', RateAgentV2.process_rates_data df = Ok df'
         ∧ extends derived_v2 df df'.
Proof.
  unfold RateAgentV2.process_rates_data, RateAgentV2.req_cols.
  apply bind_extends.
  { pose proof (extends_refl derived_v2 df). stage_extends. }
  intros df1 H1. stage_extends.
Qed.

Lemma process_rates_data_v3_extends pads df :
  ∃ df', RateAgentV3.process_rates_data pads df = Ok df'
         ∧ extends derived_v3 df df'.
Proof.
  unfold RateAgentV3.process_rates_data, RateAgentV3.req_liq.
  apply bind_extends.
  { pose proof (extends_refl derived_v3 df). stage_extends. }
  intros df1 H1. apply bind_extends; [stage_extends|].
  intros df2 H2. apply bind_extends; [stage_extends|].
  intros df3 H3. apply bind_extends; [stage_extends|].
  intros df4 H4. stage_extends.
Qed.

End FrameTheorems.

(** ** Unit normalisation and net liquidity *)

Section NetLiquidity.
Import Pandas Spec.
Local Open Scope float_scope.

Lemma lookup_col_fmap name (f : column → column) cs :
  lookup_col name (prod_map id f <$> cs) = f <$> lookup_col name cs.
Proof.
  induction cs as [|[k w] cs IH]; simpl; [done|].
  by destruct (decide (k = name)).
Qed.

Lemma names_fmap (f : column → column) (cs : list (string * column)) :
  (prod_map id f <$> cs).*1 = cs.*1.
Proof. induction cs as [|[k w] cs IH]; simpl; [done | by f_equal]. Qed.

Lemma net_liquidity_v2 df fed tga rrp :
  lookup_col "Fed Total Assets" (columns df) = Some fed →
  lookup_col "TGA Account" (columns df) = Some tga →
  lookup_col "Reverse Repo" (columns df) = Some rrp →
  ∃ out, RateAgentV2.process_rates_data df = Ok out
         ∧ lookup_col "Net Liquidity" (columns out)
           = Some (net_liquidity_millions fed tga rrp).
Proof.
  intros Hf Ht Hr. unfold RateAgentV2.process_rates_data, RateAgentV2.req_cols.
  cbn [forallb].
  rewrite !(proj2 (has_col_true _ _)) by eauto.
  rewrite (getitem_Ok _ _ _ Hf), (getitem_Ok _ _ _ Ht), (getitem_Ok _ _ _ Hr).
  cbn [andb mbind mret result_bind result_ret].
  case_has_col; eexists; (split; [reflexivity|]); simpl;
    rewrite ?lookup_assign_ne by done; apply lookup_assign_eq.
Qed.

Lemma net_liquidity_v3 pads df fed tga rrp :
  lookup_col "Fed Total Assets" (columns df) = Some fed →
  lookup_col "TGA Account" (columns df) = Some tga →
  lookup_col "Reverse Repo" (columns df) = Some rrp →
  ∃ out, RateAgentV3.process_rates_data pads df = Ok out
         ∧ lookup_col "Net Liquidity" (columns out)
           = Some (net_liquidity_millions fed tga rrp).
Proof.
  intros Hf Ht Hr. unfold RateAgentV3.process_rates_data, RateAgentV3.req_liq.
  cbn [forallb].
  rewrite !(proj2 (has_col_true _ _)) by eauto.
  rewrite (getitem_Ok _ _ _ Hf), (getitem_Ok _ _ _ Ht), (getitem_Ok _ _ _ Hr).
  cbn [andb mbind mret result_bind result_ret].
  case_has_col; eexists; (split; [reflexivity|]); simpl;
    rewrite ?lookup_assign_ne by done; apply lookup_assign_eq.
Qed.

(** On the example table both scripts give 9.0 - 0.7 - 0.5, which in
    binary64 is the neighbour of 7.8 one unit in the last place above. *)
Lemma net_liquidity_units_table pads :
  (out ← RateAgentV2.process_rates_data units_table;
   getitem out "Net Liquidity") = Ok [9 - 0.7 - 0.5]
  ∧ (out ← RateAgentV3.process_rates_data pads units_table;
     getitem out "Net Liquidity") = Ok [9 - 0.7 - 0.5]
  ∧ div_scalar [9000000] 1000000 = [9]
  ∧ div_scalar [700000] 1000000 = [0.7]
  ∧ div_scalar [500] 1000 = [0.5]
  ∧ 9 - 0.7 - 0.5 = 0x1.f333333333334p+2
  ∧ close_to 0x1p-50 (9 - 0.7 - 0.5) 7.8 = true.
Proof. destruct pads; vm_compute; repeat split. Qed.

(** C1. Unit normalisation to trillions: on the table with Fed assets
    9,000,000 (millions), TGA 700,000 (millions) and reverse repo 500
    (billions) the claim expects TGA_T = 0.7 and a net liquidity of 7.8.
    [rate_agent.py] divides the TGA column by 1,000, not 1,000,000: its
    TGA_T is 700.0 and its net liquidity is -691.5. *)
Theorem rate_agent_net_liquidity_units_table :
  (out ← RateAgent.process_rates_data units_table;
   getitem out "Net Liquidity") = Ok [(-691.5)]
  ∧ div_scalar [700000] 1000 = [700]
  ∧ 9 - 700 - 0.5 = (-691.5).
Proof. vm_compute. repeat split. Qed.

(** Row by row: the cell is [fed / 1e6 - tga / 1e6 - rrp / 1e3]. *)
Lemma net_liquidity_millions_cell (fed tga rrp : column) i a b c :
  fed !! i = Some a → tga !! i = Some b → rrp !! i = Some c →
  net_liquidity_millions fed tga rrp !! i
    = Some (a / 1000000 - b / 1000000 - c / 1000).
Proof.
  intros Ha Hb Hc. unfold net_liquidity_millions, sub_col, div_scalar.
  rewrite !lookup_zip_with, !list_lookup_fmap, Ha, Hb, Hc. done.
Qed.

(** Unit normalisation in [rate_agent_v2.py] and [rate_agent_v3.py]: with
    the three liquidity columns in the table, the net liquidity of a row is
    its Fed assets over 1,000,000 less its TGA over 1,000,000 less its
    reverse repo over 1,000. *)
Theorem net_liquidity_in_trillions (pads : bool) (df : DataFrame)
    (fed tga rrp : list float) (i : nat) (a b c : float) :
  lookup_col "Fed Total Assets" (columns df) = Some fed →
  lookup_col "TGA Account" (columns df) = Some tga →
  lookup_col "Reverse Repo" (columns df) = Some rrp →
  fed !! i = Some a → tga !! i = Some b → rrp !! i = Some c →
  (∃ out, RateAgentV2.process_rates_data df = Ok out
          ∧ (lookup_col "Net Liquidity" (columns out) ≫= (.!! i))
            = Some (a / 1000000 - b / 1000000 - c / 1000))
  ∧ (∃ out, RateAgentV3.process_rates_data pads df = Ok out
            ∧ (lookup_col "Net Liquidity" (columns out) ≫= (.!! i))
              = Some (a / 1000000 - b / 1000000 - c / 1000)).
Proof.
  intros Hf Ht Hr Ha Hb Hc. split.
  - destruct (net_liquidity_v2 df fed tga rrp Hf Ht Hr) as (out & Hout & Hnl).
    exists out. split; [done|]. rewrite Hnl. simpl.
    by apply net_liquidity_millions_cell.
  - destruct (net_liquidity_v3 pads df fed tga rrp Hf Ht Hr)
      as (out & Hout & Hnl).
    exists out. split; [done|]. rewrite Hnl. simpl.
    by apply net_liquidity_millions_cell.
Qed.

Lemma net_liquidity_in_trillions_witness :
  (∃ out, RateAgentV2.process_rates_data units_table = Ok out
          ∧ (lookup_col "Net Liquidity" (columns out) ≫= (.!! 0%nat))
            = Some (9000000 / 1000000 - 700000 / 1000000 - 500 / 1000))
  ∧ close_to 0x1p-50
      (9000000 / 1000000 - 700000 / 1000000 - 500 / 1000) 7.8 = true.
Proof.
  split; [|reflexivity].
  exact (proj1 (net_liquidity_in_trillions true units_table _ _ _ 0 _ _ _
                  eq_refl eq_refl eq_refl eq_refl eq_refl eq_refl)).
Defined.

End NetLiquidity.

(** ** Composite metrics when an input column is absent *)

Section CompositeOmission.
Import Pandas Spec.

Lemma has_col_setitem n m v df :
  has_col n (setitem df m v) = if decide (n = m) then true else has_col n df.
Proof.
  destruct (decide (n = m)) as [->|Hne].
  - apply has_col_true. eexists. apply lookup_assign_eq.
  - unfold has_col; simpl. by rewrite lookup_assign_ne.
Qed.

Lemma has_col_ffill n df : has_col n (ffill df) = has_col n df.
Proof.
  unfold has_col, ffill; simpl. rewrite lookup_col_fmap.
  by destruct (lookup_col n (columns df)).
Qed.

Lemma has_col_select_rows n mask df :
  has_col n (select_rows mask df) = has_col n df.
Proof.
  unfold has_col, select_rows; simpl. rewrite lookup_col_fmap.
  by destruct (lookup_col n (columns df)).
Qed.

Lemma dropna_subset_Ok a df :
  has_col a df = true →
  ∃ c, lookup_col a (columns df) = Some c
       ∧ dropna_subset a df = Ok (select_rows (notna <$> c) df).
Proof.
  intros [c Hc]%has_col_true. exists c. split; [done|].
  unfold dropna_subset. by rewrite Hc.
Qed.

Lemma dropna_subset_KeyError a df :
  has_col a df = false → dropna_subset a df = Raise (KeyError a).
Proof.
  intros Hc%has_col_false. unfold dropna_subset. by rewrite Hc.
Qed.

Lemma forallb_has_col_false (req : list string) missing df :
  missing ∈ req → has_col missing df = false →
  forallb (fun c => has_col c df) req = false.
Proof.
  intros Hin Hmiss. destruct (forallb _ req) eqn:E; [|done].
  apply Is_true_true, forallb_True in E.
  rewrite Forall_forall in E. specialize (E _ Hin).
  by rewrite Hmiss in E.
Qed.

(** [rate_agent.py]: with the anchor there and a liquidity input absent,
    the step returns a table without a net-liquidity column. *)
Lemma rate_agent_net_liquidity_absent df missing :
  missing ∈ ["Fed Total Assets"; "TGA Account"; "Reverse Repo"] →
  has_col missing df = false →
  has_col "US 10Y Yield" df = true →
  has_col "Net Liquidity" df = false →
  ∃ out, RateAgent.process_rates_data df = Ok out
         ∧ has_col "Net Liquidity" out = false.
Proof.
  intros Hin Hmiss Hanchor Hnl. unfold RateAgent.process_rates_data.
  rewrite <- has_col_ffill in Hanchor.
  destruct (dropna_subset_Ok _ _ Hanchor) as (c & _ & ->).
  cbn [mbind result_bind].
  rewrite (forallb_has_col_false _ missing); [|done|].
  2: { by rewrite has_col_select_rows, has_col_ffill. }
  cbn [mbind mret result_bind result_ret].
  case_has_col; eexists; (split; [reflexivity|]);
    rewrite ?has_col_setitem; cbn;
    by rewrite has_col_select_rows, has_col_ffill.
Qed.

(** [rate_agent_v2.py], [rate_agent_v3.py]: the [else] branch stores NaN
    in every row of a net-liquidity column. *)
Lemma v2_net_liquidity_all_missing df missing :
  missing ∈ RateAgentV2.req_cols →
  has_col missing df = false →
  ∃ out, RateAgentV2.process_rates_data df = Ok out
         ∧ lookup_col "Net Liquidity" (columns out)
           = Some (replicate (length (index df)) nan).
Proof.
  intros Hin Hmiss. unfold RateAgentV2.process_rates_data.
  rewrite (forallb_has_col_false _ missing) by done.
  cbn [mbind mret result_bind result_ret].
  case_has_col; eexists; (split; [reflexivity|]); simpl;
    rewrite ?lookup_assign_ne by done; apply lookup_assign_eq.
Qed.

Lemma v3_net_liquidity_all_missing pads df missing :
  missing ∈ RateAgentV3.req_liq →
  has_col missing df = false →
  ∃ out, RateAgentV3.process_rates_data pads df = Ok out
         ∧ lookup_col "Net Liquidity" (columns out)
           = Some (replicate (length (index df)) nan).
Proof.
  intros Hin Hmiss. unfold RateAgentV3.process_rates_data.
  rewrite (forallb_has_col_false _ missing) by done.
  cbn [mbind mret result_bind result_ret].
  case_has_col; eexists; (split; [reflexivity|]); simpl;
    rewrite ?lookup_assign_ne by done; apply lookup_assign_eq.
Qed.

Lemma absent_setitem names df name v :
  name ∉ names → absent names df → absent names (setitem df name v).
Proof.
  intros Hnot Habs n Hn. rewrite has_col_setitem.
  rewrite decide_False; [by apply Habs | by intros ->].
Qed.

Lemma absent_ffill names df : absent names df → absent names (ffill df).
Proof. intros H n Hn. rewrite has_col_ffill. by apply H. Qed.

Lemma absent_select_rows names mask df :
  absent names df → absent names (select_rows mask df).
Proof. intros H n Hn. rewrite has_col_select_rows. by apply H. Qed.

Lemma bind_absent names (m : result DataFrame)
    (k : DataFrame → result DataFrame) :
  (∃ df1, m = Ok df1 ∧ absent names df1) →
  (∀ df1, absent names df1 → ∃ df2, k df1 = Ok df2 ∧ absent names df2) →
  ∃ df2, (m ≫= k) = Ok df2 ∧ absent names df2.
Proof. intros (df1 & -> & H1) Hk. by apply Hk. Qed.

End CompositeOmission.

(** A column that was just looked up cannot be one of the absent names. *)
Ltac absent_contradiction :=
  match goal with
  | Hl : Pandas.lookup_col ?r (Pandas.columns ?d) = Some _,
    Ha : Spec.absent _ ?d |- _ =>
      let Hf := fresh in
      pose proof (Ha r ltac:(solve [elem_of_literal])) as Hf;
      apply has_col_false in Hf; congruence
  end.

Ltac not_elem_of_literal :=
  unfold CpiAgentV21.index_cols, CpiAgentV21.rate_cols, RateAgentV2.req_cols,
    RateAgentV3.req_liq, Spec.derived_v2, Spec.derived_v3;
  rewrite ?not_elem_of_cons; repeat split; try done; apply not_elem_of_nil.

Ltac stage_absent :=
  cbn [forallb]; case_has_col;
  first
    [ exfalso; absent_contradiction
    | eexists; (split; [reflexivity|]);
      first [ assumption
            | apply absent_setitem; [not_elem_of_literal | assumption] ] ].

Section CompositeOmissionTheorems.
Import Pandas Spec.

(** A spread whose input is absent is not computed by the rate scripts:
    the yield-curve spread when the 2-year yield is absent, the liquidity
    stress when SOFR or IORB is. *)
Lemma v2_curve_absent df :
  absent ["US 2Y Yield"; "Curve 10Y-2Y"] df →
  ∃ out, RateAgentV2.process_rates_data df = Ok out
         ∧ absent ["US 2Y Yield"; "Curve 10Y-2Y"] out.
Proof.
  intros H. unfold RateAgentV2.process_rates_data, RateAgentV2.req_cols.
  unfold setitem_scalar.
  apply bind_absent; [stage_absent|]. intros df1 H1. stage_absent.
Qed.

Lemma v2_curve_absent_10y df :
  absent ["US 10Y Yield"; "Curve 10Y-2Y"] df →
  ∃ out, RateAgentV2.process_rates_data df = Ok out
         ∧ absent ["US 10Y Yield"; "Curve 10Y-2Y"] out.
Proof.
  intros H. unfold RateAgentV2.process_rates_data, RateAgentV2.req_cols.
  unfold setitem_scalar.
  apply bind_absent; [stage_absent|]. intros df1 H1. stage_absent.
Qed.

Lemma v3_absent pads df names :
  names ∈ [ ["US 2Y Yield"; "Curve 10Y-2Y"];
            ["US 10Y Yield"; "Curve 10Y-2Y"];
            ["SOFR Rate"; "Liquidity Stress"];
            ["IORB Rate"; "Liquidity Stress"] ] →
  absent names df →
  ∃ out, RateAgentV3.process_rates_data pads df = Ok out
         ∧ absent names out.
Proof.
  intros Hin H. unfold RateAgentV3.process_rates_data, RateAgentV3.req_liq.
  unfold setitem_scalar.
  repeat (apply elem_of_cons in Hin as [->|Hin]);
    [..| by apply elem_of_nil in Hin];
    (apply bind_absent; [stage_absent|]; intros df1 H1;
     apply bind_absent; [stage_absent|]; intros df2 H2;
     apply bind_absent; [stage_absent|]; intros df3 H3;
     apply bind_absent; [stage_absent|]; intros df4 H4;
     stage_absent).
Qed.

Lemma rate_agent_curve_absent df :
  has_col "US 10Y Yield" df = true →
  absent ["US 2Y Yield"; "Curve 10Y-2Y"] df →
  ∃ out, RateAgent.process_rates_data df = Ok out
         ∧ absent ["US 2Y Yield"; "Curve 10Y-2Y"] out.
Proof.
  intros Hanchor H. unfold RateAgent.process_rates_data.
  rewrite <- has_col_ffill in Hanchor.
  destruct (dropna_subset_Ok _ _ Hanchor) as (c & _ & ->).
  cbn [mbind result_bind].
  pose proof (absent_select_rows _ (notna <$> c) _ (absent_ffill _ _ H)) as H0.
  apply bind_absent; [stage_absent|]. intros df1 H1. stage_absent.
Qed.

End CompositeOmissionTheorems.

(** ** The derived table of cpi_agent_v2.1.py *)

Section ProcessDataV21.
Import Pandas Spec.
Variable pads : bool.
Variable df : DataFrame.

Lemma setitem_series_on_index y name v :
  on_index_of df y →
  setitem_series y name (mkSeries (index df) v)
  = mkDataFrame (index df) (assign_col name v (columns y)).
Proof.
  unfold setitem_series, setitem. intros [->|Hy]; simpl.
  - destruct (index df) eqn:E; simpl; [done | by rewrite decide_True].
  - rewrite Hy. destruct (index df) eqn:E; simpl; rewrite Hy;
      by rewrite decide_True.
Qed.

Lemma setitem_series_same_index y name v :
  setitem_series y name (mkSeries (index y) v) = setitem y name v.
Proof.
  unfold setitem_series; simpl.
  destruct (index y) eqn:E; simpl; rewrite ?E; [done | by rewrite decide_True].
Qed.

Lemma yoy_step_columns y col :
  on_index_of df y →
  ∃ y', CpiAgentV21.yoy_step pads df (Ok y) col = Ok y'
        ∧ on_index_of df y'
        ∧ columns y' = copy_col df (yoy_col pads 12) (columns y) col.
Proof.
  intros Hy. unfold CpiAgentV21.yoy_step, copy_col, getitem_series.
  cbn [mbind result_bind]. case_has_col.
  - rewrite Hcol. simpl. rewrite setitem_series_on_index by done.
    eexists; split; [reflexivity|]. split; [by right | done].
  - apply has_col_false in Hcol. rewrite Hcol. by exists y.
Qed.

Lemma rate_step_columns y col :
  on_index_of df y →
  ∃ y', CpiAgentV21.rate_step df (Ok y) col = Ok y'
        ∧ on_index_of df y'
        ∧ columns y' = copy_col df id (columns y) col.
Proof.
  intros Hy. unfold CpiAgentV21.rate_step, copy_col, getitem_series.
  cbn [mbind result_bind]. case_has_col.
  - rewrite Hcol. simpl. rewrite setitem_series_on_index by done.
    eexists; split; [reflexivity|]. split; [by right | done].
  - apply has_col_false in Hcol. rewrite Hcol. by exists y.
Qed.

(** The loop, from its rounds. *)
Lemma foldl_steps (step : result DataFrame → string → result DataFrame)
    (g : column → column) (cols : list string) :
  (∀ y col, on_index_of df y →
     ∃ y', step (Ok y) col = Ok y' ∧ on_index_of df y'
           ∧ columns y' = copy_col df g (columns y) col) →
  ∀ y, on_index_of df y →
    ∃ y', foldl step (Ok y) cols = Ok y' ∧ on_index_of df y'
          ∧ columns y' = foldl (copy_col df g) (columns y) cols.
Proof.
  intros Hstep. induction cols as [|col cols IH]; intros y Hy; simpl.
  - by exists y.
  - destruct (Hstep y col Hy) as (y1 & -> & Hy1 & Hc1).
    destruct (IH y1 Hy1) as (y' & -> & Hy' & Hc').
    exists y'. by rewrite Hc', Hc1.
Qed.

Lemma lookup_copy_col g cs col c :
  lookup_col c (copy_col df g cs col)
  = if decide (c = col) then
      match lookup_col c (columns df) with
      | Some v => Some (g v)
      | None => lookup_col c cs
      end
    else lookup_col c cs.
Proof.
  unfold copy_col. destruct (decide (c = col)) as [->|Hne].
  - destruct (lookup_col col (columns df)); [apply lookup_assign_eq | done].
  - destruct (lookup_col col (columns df)); [by apply lookup_assign_ne | done].
Qed.

Lemma lookup_foldl_copy_col g cols cs c :
  lookup_col c (foldl (copy_col df g) cs cols)
  = if decide (c ∈ cols) then
      match lookup_col c (columns df) with
      | Some v => Some (g v)
      | None => lookup_col c cs
      end
    else lookup_col c cs.
Proof.
  revert cs. induction cols as [|col cols IH]; intros cs; cbn [foldl].
  - rewrite decide_False; [done | apply not_elem_of_nil].
  - rewrite IH, lookup_copy_col. clear IH.
    destruct (decide (c ∈ cols)) as [Hin|Hnot];
      destruct (decide (c = col)) as [->|Hne];
      destruct (decide (_ ∈ col :: cols)) as [Hin'|Hnot'];
      try (match goal with
           | |- context [lookup_col ?x (columns df)] =>
               destruct (lookup_col x (columns df))
           end);
      try done;
      try (apply elem_of_cons in Hin' as [?|?]; done);
      exfalso; apply Hnot'; rewrite elem_of_cons; auto.
Qed.

Lemma process_data_v21_columns :
  ∃ out, CpiAgentV21.process_data pads df = Ok (df, out)
    ∧ on_index_of df out
    ∧ columns out =
        let cs := yoy_and_rate_columns pads df in
        match lookup_col "CPI (Headline)" cs,
              lookup_col "PPI (Final Demand)" cs with
        | Some cpi, Some ppi => assign_col "Profit Spread" (sub_col cpi ppi) cs
        | _, _ => cs
        end.
Proof.
  unfold CpiAgentV21.process_data, yoy_and_rate_columns.
  destruct (foldl_steps (CpiAgentV21.yoy_step pads df) (yoy_col pads 12)
              CpiAgentV21.index_cols yoy_step_columns empty_frame)
    as (y1 & -> & Hy1 & Hc1); [by left|].
  cbn [mbind result_bind].
  destruct (foldl_steps (CpiAgentV21.rate_step df) id
              CpiAgentV21.rate_cols rate_step_columns y1 Hy1)
    as (y2 & -> & Hy2 & Hc2).
  cbn [mbind result_bind]. cbv zeta.
  replace (foldl (copy_col df id) _ CpiAgentV21.rate_cols) with (columns y2)
    by (by rewrite Hc2, Hc1).
  clear Hc1 Hc2. unfold getitem_series.
  case_has_col.
  - rewrite Hcol, Hcol0. cbn [mbind mret result_bind result_ret s_index s_values].
    rewrite setitem_series_same_index. eexists; split; [done|].
    split; [|done]. right. destruct Hy2 as [->|Hy2]; [done|]. exact Hy2.
  - rewrite Hcol, (proj1 (has_col_false _ _) Hcol0). by eexists.
  - rewrite (proj1 (has_col_false _ _) Hcol). by eexists.
Qed.

Lemma lookup_yoy_and_rate_index c :
  c ∈ CpiAgentV21.index_cols →
  lookup_col c (yoy_and_rate_columns pads df)
  = yoy_col pads 12 <$> lookup_col c (columns df).
Proof.
  intros Hin. unfold yoy_and_rate_columns.
  rewrite !lookup_foldl_copy_col.
  rewrite (decide_True (P := c ∈ CpiAgentV21.index_cols)) by done.
  rewrite decide_False.
  - by destruct (lookup_col c (columns df)).
  - unfold CpiAgentV21.index_cols in Hin.
    repeat (apply elem_of_cons in Hin as [->|Hin]);
      [..| by apply elem_of_nil in Hin]; not_elem_of_literal.
Qed.

Lemma lookup_yoy_and_rate_rate c :
  c ∈ CpiAgentV21.rate_cols →
  lookup_col c (yoy_and_rate_columns pads df) = lookup_col c (columns df).
Proof.
  intros Hin. unfold yoy_and_rate_columns.
  rewrite !lookup_foldl_copy_col.
  rewrite (decide_True (P := c ∈ CpiAgentV21.rate_cols)) by done.
  rewrite decide_False.
  - by destruct (lookup_col c (columns df)).
  - unfold CpiAgentV21.rate_cols in Hin.
    repeat (apply elem_of_cons in Hin as [->|Hin]);
      [..| by apply elem_of_nil in Hin]; not_elem_of_literal.
Qed.

Lemma lookup_yoy_and_rate_other c :
  c ∉ CpiAgentV21.index_cols → c ∉ CpiAgentV21.rate_cols →
  lookup_col c (yoy_and_rate_columns pads df) = None.
Proof.
  intros H1 H2. unfold yoy_and_rate_columns.
  rewrite !lookup_foldl_copy_col. by rewrite !decide_False.
Qed.

(** The derived table of [cpi_agent_v2.1.py], column by column. *)
Lemma process_data_v21_lookup :
  ∃ out, CpiAgentV21.process_data pads df = Ok (df, out)
    ∧ (∀ c, c ∈ CpiAgentV21.index_cols →
         lookup_col c (columns out)
         = yoy_col pads 12 <$> lookup_col c (columns df))
    ∧ (∀ c, c ∈ CpiAgentV21.rate_cols →
         lookup_col c (columns out) = lookup_col c (columns df))
    ∧ lookup_col "Profit Spread" (columns out)
      = match lookup_col "CPI (Headline)" (columns df),
              lookup_col "PPI (Final Demand)" (columns df) with
        | Some cpi, Some ppi =>
            Some (sub_col (yoy_col pads 12 cpi) (yoy_col pads 12 ppi))
        | _, _ => None
        end.
Proof.
  destruct process_data_v21_columns as (out & Hout & _ & Hcols).
  exists out. split; [done|]. cbv zeta in Hcols.
  rewrite !lookup_yoy_and_rate_index in Hcols by elem_of_literal.
  assert (Hps : lookup_col "Profit Spread" (yoy_and_rate_columns pads df) = None)
    by (apply lookup_yoy_and_rate_other; not_elem_of_literal).
  rewrite Hcols. clear Hcols Hout.
  destruct (lookup_col "CPI (Headline)" (columns df)) as [cpi|];
    destruct (lookup_col "PPI (Final Demand)" (columns df)) as [ppi|];
    cbn [fmap option_fmap option_map]; repeat split; try done.
  - intros c Hc. rewrite lookup_assign_ne.
    + by apply lookup_yoy_and_rate_index.
    + intros ->. assert ("Profit Spread" ∉ CpiAgentV21.index_cols) as Hn
        by not_elem_of_literal. done.
  - intros c Hc. rewrite lookup_assign_ne.
    + by apply lookup_yoy_and_rate_rate.
    + intros ->. assert ("Profit Spread" ∉ CpiAgentV21.rate_cols) as Hn
        by not_elem_of_literal. done.
  - apply lookup_assign_eq.
  - intros c Hc. by apply lookup_yoy_and_rate_index.
  - intros c Hc. by apply lookup_yoy_and_rate_rate.
  - intros c Hc. by apply lookup_yoy_and_rate_index.
  - intros c Hc. by apply lookup_yoy_and_rate_rate.
  - intros c Hc. by apply lookup_yoy_and_rate_index.
  - intros c Hc. by apply lookup_yoy_and_rate_rate.
Qed.

End ProcessDataV21.

Section CompositeClaim.
Import Pandas Spec.

Lemma absent_pair a b df :
  has_col a df = false → has_col b df = false → absent [a; b] df.
Proof.
  intros Ha Hb n Hn.
  apply elem_of_cons in Hn as [->|Hn]; [done|].
  apply elem_of_cons in Hn as [->|Hn]; [done|].
  by apply elem_of_nil in Hn.
Qed.

Lemma absent_second a b df : absent [a; b] df → has_col b df = false.
Proof. intros H. apply H. elem_of_literal. Qed.

(** C2, as the scripts have it. When an input column of a composite
    metric is absent from the table (and the table has no column of the
    metric's name yet): the yield-curve spread, the liquidity stress and
    the profit spread are absent from the output, and so is the net
    liquidity of [rate_agent.py]; [rate_agent_v2.py] and
    [rate_agent_v3.py] return a net-liquidity column that is NaN in every
    row; [cpi_agent.py] computes no spread at all. Nothing is zero or
    partly computed. *)
Theorem composite_metric_without_inputs (pads : bool) (df : DataFrame) :
  (∀ missing,
     missing ∈ ["Fed Total Assets"; "TGA Account"; "Reverse Repo"] →
     has_col missing df = false →
     (has_col "US 10Y Yield" df = true →
      has_col "Net Liquidity" df = false →
      ∃ out, RateAgent.process_rates_data df = Ok out
             ∧ has_col "Net Liquidity" out = false)
     ∧ (∃ out, RateAgentV2.process_rates_data df = Ok out
               ∧ lookup_col "Net Liquidity" (columns out)
                 = Some (replicate (length (index df)) nan))
     ∧ (∃ out, RateAgentV3.process_rates_data pads df = Ok out
               ∧ lookup_col "Net Liquidity" (columns out)
                 = Some (replicate (length (index df)) nan)))
  ∧ (∀ missing,
       missing ∈ ["US 10Y Yield"; "US 2Y Yield"] →
       has_col missing df = false →
       has_col "Curve 10Y-2Y" df = false →
       (∃ out, RateAgentV2.process_rates_data df = Ok out
               ∧ has_col "Curve 10Y-2Y" out = false)
       ∧ (∃ out, RateAgentV3.process_rates_data pads df = Ok out
                 ∧ has_col "Curve 10Y-2Y" out = false)
       ∧ (has_col "US 10Y Yield" df = true →
          ∃ out, RateAgent.process_rates_data df = Ok out
                 ∧ has_col "Curve 10Y-2Y" out = false))
  ∧ (∀ missing,
       missing ∈ ["SOFR Rate"; "IORB Rate"] →
       has_col missing df = false →
       has_col "Liquidity Stress" df = false →
       ∃ out, RateAgentV3.process_rates_data pads df = Ok out
              ∧ has_col "Liquidity Stress" out = false)
  ∧ (∀ missing,
       missing ∈ ["CPI (Headline)"; "PPI (Final Demand)"] →
       has_col missing df = false →
       (∃ out, CpiAgentV21.process_data pads df = Ok (df, out)
               ∧ has_col "Profit Spread" out = false)
       ∧ is_ok (CpiAgent.calculate_spread df) = false).
Proof.
  split; [|split; [|split]].
  - intros missing Hin Hmiss. split; [|split].
    + intros Hanchor Hnl. by eapply rate_agent_net_liquidity_absent.
    + by eapply v2_net_liquidity_all_missing.
    + by eapply v3_net_liquidity_all_missing.
  - intros missing Hin Hmiss Hcurve.
    pose proof (absent_pair _ _ _ Hmiss Hcurve) as Habs.
    apply elem_of_cons in Hin as [->|Hin];
      [|apply elem_of_cons in Hin as [->|Hin]; [|by apply elem_of_nil in Hin]].
    + split; [|split].
      * destruct (v2_curve_absent_10y _ Habs) as (out & Hout & Ha).
        exists out. split; [done|]. by eapply absent_second.
      * destruct (fun H => v3_absent pads df _ H Habs) as (out & Hout & Ha);
          [elem_of_literal|].
        exists out. split; [done|]. by eapply absent_second.
      * intros Hanchor. congruence.
    + split; [|split].
      * destruct (v2_curve_absent _ Habs) as (out & Hout & Ha).
        exists out. split; [done|]. by eapply absent_second.
      * destruct (fun H => v3_absent pads df _ H Habs) as (out & Hout & Ha);
          [elem_of_literal|].
        exists out. split; [done|]. by eapply absent_second.
      * intros Hanchor.
        destruct (rate_agent_curve_absent _ Hanchor Habs) as (out & Hout & Ha).
        exists out. split; [done|]. by eapply absent_second.
  - intros missing Hin Hmiss Hstress.
    pose proof (absent_pair _ _ _ Hmiss Hstress) as Habs.
    apply elem_of_cons in Hin as [->|Hin];
      [|apply elem_of_cons in Hin as [->|Hin]; [|by apply elem_of_nil in Hin]].
    + destruct (fun H => v3_absent pads df _ H Habs) as (out & Hout & Ha);
          [elem_of_literal|].
      exists out. split; [done|]. by eapply absent_second.
    + destruct (fun H => v3_absent pads df _ H Habs) as (out & Hout & Ha);
          [elem_of_literal|].
      exists out. split; [done|]. by eapply absent_second.
  - intros missing Hin Hmiss. split.
    + destruct (process_data_v21_lookup pads df) as (out & Hout & _ & _ & Hps).
      exists out. split; [done|]. apply has_col_false. rewrite Hps.
      apply has_col_false in Hmiss.
      apply elem_of_cons in Hin as [->|Hin];
        [|apply elem_of_cons in Hin as [->|Hin]; [|by apply elem_of_nil in Hin]].
      * by rewrite Hmiss.
      * rewrite Hmiss. by destruct (lookup_col "CPI (Headline)" (columns df)).
    + unfold CpiAgent.calculate_spread, getitem.
      apply has_col_false in Hmiss.
      apply elem_of_cons in Hin as [->|Hin];
        [|apply elem_of_cons in Hin as [->|Hin]; [|by apply elem_of_nil in Hin]].
      * by rewrite Hmiss.
      * rewrite Hmiss. by destruct (lookup_col "CPI (Headline)" (columns df)).
Qed.

(** [rate_agent_v2.py] on a table without the reverse-repo column: the
    output has a net-liquidity column, NaN in both rows. *)
Lemma v2_net_liquidity_present_without_rrp :
  has_col "Reverse Repo" no_rrp_table = false
  ∧ (out ← RateAgentV2.process_rates_data no_rrp_table;
     mret (has_col "Net Liquidity" out,
           lookup_col "Net Liquidity" (columns out)))
    = Ok (true, Some [nan; nan]).
Proof. by vm_compute. Qed.

Lemma composite_metric_without_inputs_witness :
  ∃ out, RateAgentV3.process_rates_data true no_rrp_table = Ok out
         ∧ lookup_col "Net Liquidity" (columns out)
           = Some (replicate (length (index no_rrp_table)) nan).
Proof.
  refine (proj2 (proj2 (proj1 (composite_metric_without_inputs true no_rrp_table)
                          "Reverse Repo" _ _))).
  - elem_of_literal.
  - reflexivity.
Defined.

End CompositeClaim.

(** ** Forward fill, cell by cell *)

Section ForwardFill.
Import Pandas Spec.
Implicit Types (c : list float) (i j k : nat) (x y v last : float).

Lemma length_ffill_from last c : length (ffill_from last c) = length c.
Proof.
  revert last. induction c as [|x c IH]; intros last; simpl; [done|].
  destruct (isna x); simpl; by rewrite IH.
Qed.

(** A cell that holds a value keeps it. *)
Lemma ffill_from_notna last c i x :
  c !! i = Some x → isna x = false → ffill_from last c !! i = Some x.
Proof.
  revert last i. induction c as [|x0 c IH]; intros last i Hi Hx; [done|].
  destruct i as [|i]; simpl in *.
  - injection Hi as ->. by rewrite Hx.
  - destruct (isna x0); simpl; by apply IH.
Qed.



Lemma lookup_col_ffill name df :
  lookup_col name (columns (ffill df))
  = ffill_col <$> lookup_col name (columns df).
Proof. apply lookup_col_fmap. Qed.

End ForwardFill.

(** ** Year over year *)

Section YearOverYear.
Import Pandas Spec.
Local Open Scope float_scope.
Implicit Types (c : list float) (t n : nat) (x y : float).

Lemma shift_lookup n c t :
  (n ≤ t)%nat → (t < length c)%nat → shift n c !! t = c !! (t - n)%nat.
Proof.
  intros Hn Ht. unfold shift.
  rewrite lookup_take_lt by done.
  rewrite lookup_app_r; rewrite length_replicate; [done | lia].
Qed.

Lemma shift_lookup_head n c t :
  (t < n)%nat → (t < length c)%nat → shift n c !! t = Some nan.
Proof.
  intros Hn Ht. unfold shift.
  rewrite lookup_take_lt by done.
  rewrite lookup_app_l by (rewrite length_replicate; lia).
  by apply lookup_replicate_2.
Qed.

Lemma pct_change_raw_lookup n c t x y :
  (n ≤ t)%nat → c !! t = Some x → c !! (t - n)%nat = Some y →
  pct_change false n c !! t = Some (x / y - 1).
Proof.
  intros Hn Hx Hy. unfold pct_change, sub_scalar, div_col.
  rewrite list_lookup_fmap, lookup_zip_with, Hx.
  rewrite shift_lookup by (done || by eapply lookup_lt_Some).
  by rewrite Hy.
Qed.

Lemma pct_change_lookup pads n c t x y :
  (n ≤ t)%nat → c !! t = Some x → c !! (t - n)%nat = Some y →
  (pads = true → isna x = false ∧ isna y = false) →
  pct_change pads n c !! t = Some (x / y - 1).
Proof.
  intros Hn Hx Hy Hpads. destruct pads; [|by apply pct_change_raw_lookup].
  destruct Hpads as [Hnx Hny]; [done|].
  unfold pct_change, sub_scalar, div_col.
  rewrite list_lookup_fmap, lookup_zip_with.
  rewrite shift_lookup.
  - unfold ffill_col.
    rewrite (ffill_from_notna _ _ _ _ Hx Hnx), (ffill_from_notna _ _ _ _ Hy Hny).
    done.
  - done.
  - unfold ffill_col. rewrite length_ffill_from. by eapply lookup_lt_Some.
Qed.

Lemma yoy_col_lookup pads n c t x y :
  (n ≤ t)%nat → c !! t = Some x → c !! (t - n)%nat = Some y →
  (pads = true → isna x = false ∧ isna y = false) →
  yoy_col pads n c !! t = Some ((x / y - 1) * 100).
Proof.
  intros Hn Hx Hy Hpads. unfold yoy_col, mul_scalar.
  by rewrite list_lookup_fmap, (pct_change_lookup _ _ _ _ x y).
Qed.

(** [rate_agent_v3.py]: the supercore year-over-year column is the
    252-row percent change of the supercore index column. *)
Lemma v3_supercore_yoy pads df c :
  lookup_col "Supercore CPI Index" (columns df) = Some c →
  ∃ out, RateAgentV3.process_rates_data pads df = Ok out
         ∧ lookup_col "Supercore YoY" (columns out)
           = Some (yoy_col pads 252 c).
Proof.
  intros Hc. unfold RateAgentV3.process_rates_data, RateAgentV3.req_liq.
  unfold setitem_scalar. cbn [forallb].
  case_has_col;
    repeat match goal with
    | H : has_col _ _ = false |- _ => apply has_col_false in H
    end;
    simpl in *; rewrite ?lookup_assign_ne in * by done;
    try congruence;
    (eexists; split; [reflexivity|]); simpl;
    rewrite ?lookup_assign_ne by done;
    rewrite lookup_assign_eq; unfold yoy_col; congruence.
Qed.

(** [cpi_agent.py]: the tables of [process_data], column by column. *)
Lemma cpi_process_data_lookup pads df :
  ∃ yoy mom, CpiAgent.process_data pads df = Ok (df, yoy, mom)
    ∧ (∀ col : string, col ∉ ["Sticky CPI"; "US_10Y_Yield"] →
         lookup_col col (columns yoy)
         = yoy_col pads 12 <$> lookup_col col (columns df))
    ∧ (∀ col : string, col ∈ ["Sticky CPI"; "US_10Y_Yield"] →
         lookup_col col (columns yoy) = lookup_col col (columns df))
    ∧ (∀ col : string, col ≠ "Sticky CPI" →
         lookup_col col (columns mom)
         = yoy_col pads 1 <$> lookup_col col (columns df))
    ∧ lookup_col "Sticky CPI" (columns mom)
      = (fun _ => replicate (length (index df)) nan)
          <$> lookup_col "Sticky CPI" (columns df).
Proof.
  unfold CpiAgent.process_data, setitem_scalar.
  case_has_col;
    repeat match goal with
    | H : has_col _ _ = false |- _ => apply has_col_false in H
    end;
    (do 2 eexists; split; [reflexivity|]); simpl;
    (split; [|split; [|split]]).
  all: try (intros c Hc;
            try (apply not_elem_of_cons in Hc as [? Hc];
                 apply not_elem_of_cons in Hc as [? _]);
            try (apply elem_of_cons in Hc as [->|Hc];
                 [|apply elem_of_cons in Hc as [->|Hc];
                   [|by apply elem_of_nil in Hc]]));
       rewrite ?lookup_assign_ne by done;
       rewrite ?lookup_assign_eq; rewrite ?lookup_col_fmap;
       repeat match goal with
              | H : lookup_col _ (columns _) = _ |- _ => rewrite H
              end;
       done.
Qed.







End YearOverYear.

(** ** Rate columns pass through *)

Section RatePassThrough.
Import Pandas Spec.

(** C7. A rate column goes unchanged into the derived table, on the same
    rows: in [cpi_agent_v2.1.py] every column of [rate_cols] (there is no
    month-over-month table), in [cpi_agent.py] the sticky CPI, whose
    month-over-month column is NaN in every row. *)
Theorem rate_columns_pass_through (pads : bool) (df : DataFrame)
    (col : string) (c : list float) :
  lookup_col col (columns df) = Some c →
  (col ∈ CpiAgentV21.rate_cols →
   ∃ out, CpiAgentV21.process_data pads df = Ok (df, out)
          ∧ index out = index df
          ∧ lookup_col col (columns out) = Some c)
  ∧ (col = "Sticky CPI" →
     ∃ yoy mom, CpiAgent.process_data pads df = Ok (df, yoy, mom)
                ∧ index yoy = index df ∧ index mom = index df
                ∧ lookup_col col (columns yoy) = Some c
                ∧ lookup_col col (columns mom)
                  = Some (replicate (length (index df)) nan)).
Proof.
  intros Hc. split.
  - intros Hin.
    destruct (process_data_v21_columns pads df) as (out & Hout & Hidx & _).
    destruct (process_data_v21_lookup pads df) as (out' & Hout' & _ & Hrate & _).
    assert (out' = out) as -> by congruence.
    exists out. split; [done|].
    assert (lookup_col col (columns out) = Some c) as Hl
      by (by rewrite (Hrate _ Hin)).
    split; [|done].
    destruct Hidx as [->|Hidx]; [done|exact Hidx].
  - intros ->.
    destruct (cpi_process_data_lookup pads df)
      as (yoy & mom & Hout & _ & Hrate & _ & Hmom).
    exists yoy, mom. split; [done|].
    rewrite Hmom, Hc, (Hrate "Sticky CPI") by elem_of_literal.
    assert (index yoy = index df ∧ index mom = index df) as [? ?]; [|done].
    revert Hout. unfold CpiAgent.process_data, setitem_scalar.
    rewrite (proj2 (has_col_true "Sticky CPI" df)) by (by exists c).
    rewrite (getitem_Ok _ _ _ Hc).
    cbn [mbind mret result_bind result_ret fst snd].
    case_has_col; intros [= <- <-]; done.
Qed.

Lemma rate_columns_pass_through_witness :
  ∃ yoy mom, CpiAgent.process_data true yoy_table = Ok (yoy_table, yoy, mom)
    ∧ index yoy = index yoy_table ∧ index mom = index yoy_table
    ∧ lookup_col "Sticky CPI" (columns yoy)
      = Some [3.5; 3.5; 3.5; 3.5; 3.5; 3.5; 3.5; 3.5; 3.5; 3.5; 3.5; 3.5;
              3.5]%float
    ∧ lookup_col "Sticky CPI" (columns mom)
      = Some (replicate (length (index yoy_table)) nan).
Proof.
  exact (proj2 (rate_columns_pass_through true yoy_table "Sticky CPI" _
                  eq_refl) eq_refl).
Defined.

End RatePassThrough.

(** ** Dropping rows without an anchor value *)

Section DropRows.
Import Pandas Spec.

Lemma filter_fmap_S (P : nat → Prop) `{!∀ i, Decision (P i)} (l : list nat) :
  filter P (S <$> l) = S <$> filter (fun i => P (S i)) l.
Proof.
  induction l as [|i l IH]; [done|].
  rewrite fmap_cons, !filter_cons, IH. by destruct (decide (P (S i))).
Qed.

(** [select] keeps the cells at the positions where the mask is true. *)
Lemma select_pick {A : Type} (d : A) (mask : list bool) (l : list A) :
  length mask = length l → select mask l = pick d l (kept mask).
Proof.
  revert l. induction mask as [|b mask IH]; intros [|x l] Hlen;
    try done. simpl in Hlen. injection Hlen as Hlen.
  unfold kept, pick in *. cbn [length seq select].
  rewrite <- fmap_S_seq, filter_cons, filter_fmap_S.
  specialize (IH l Hlen).
  change (filter (fun i => (b :: mask) !! S i = Some true) (seq 0 (length mask)))
    with (filter (fun i => mask !! i = Some true) (seq 0 (length mask))).
  destruct b; cbn [lookup list_lookup].
  - rewrite decide_True by done. rewrite fmap_cons, <- list_fmap_compose.
    simpl. f_equal. exact IH.
  - rewrite decide_False by done. rewrite <- list_fmap_compose. exact IH.
Qed.

Lemma elem_of_kept mask i : i ∈ kept mask ↔ mask !! i = Some true.
Proof.
  unfold kept. rewrite list_elem_of_filter, elem_of_seq. split.
  - by intros [? _].
  - intros H. split; [done|]. apply lookup_lt_Some in H. lia.
Qed.

Lemma lookup_notna_mask (a : list float) i :
  (notna <$> a) !! i = Some true ↔ ∃ v, a !! i = Some v ∧ isna v = false.
Proof.
  rewrite list_lookup_fmap. unfold notna. destruct (a !! i) as [v|]; simpl.
  - split.
    + intros [= H]. exists v. split; [done|]. by destruct (isna v).
    + intros (v' & [= <-] & ->). done.
  - split; [done | by intros (? & ? & _)].
Qed.

Lemma lookup_col_elem_of name (c : list float) cs :
  lookup_col name cs = Some c → (name, c) ∈ cs.
Proof.
  induction cs as [|[k w] cs IH]; simpl; [done|].
  destruct (decide (k = name)) as [->|Hne].
  - intros [= ->]. apply list_elem_of_here.
  - intros H. apply list_elem_of_further, IH, H.
Qed.

Lemma well_formed_length df name c :
  well_formed df → lookup_col name (columns df) = Some c →
  length c = length (index df).
Proof.
  intros Hwf Hc. unfold well_formed in Hwf. rewrite Forall_forall in Hwf.
  exact (Hwf _ (lookup_col_elem_of _ _ _ Hc)).
Qed.

Lemma lookup_complete_rows df i :
  complete_rows df !! i = Some true
  ↔ i < length (index df)
    ∧ Forall (fun kv : string * list float =>
                ∃ v, kv.2 !! i = Some v ∧ isna v = false) (columns df).
Proof.
  unfold complete_rows. rewrite list_lookup_fmap.
  destruct (decide (i < length (index df))) as [Hlt|Hge].
  - rewrite lookup_seq_lt by done. simpl.
    assert (forallb notna (row_cells df i) = true
            ↔ Forall (fun kv : string * list float =>
                        ∃ v, kv.2 !! i = Some v ∧ isna v = false)
                     (columns df)) as <-.
    { unfold row_cells. induction (columns df) as [|[k w] cs IH]; simpl.
      - split; [intros _; constructor | done].
      - rewrite Forall_cons, <- IH, andb_true_iff. simpl.
        unfold notna. destruct (w !! i) as [v|]; simpl.
        + split.
          * intros [Hv ?]. split; [|done]. exists v.
            split; [done|]. by destruct (isna v).
          * intros [(v' & [= <-] & ->) ?]. done.
        + split; [by intros [? _] | by intros [(? & ? & _) _]]. }
    split; [intros [= ->]; done | intros [_ ->]; done].
  - rewrite lookup_seq_ge by lia. simpl. split; [done | intros [? _]; lia].
Qed.

Lemma select_rows_pick mask df :
  well_formed df → length mask = length (index df) →
  index (select_rows mask df) = pick 0%Z (index df) (kept mask)
  ∧ ∀ name c, lookup_col name (columns df) = Some c →
      lookup_col name (columns (select_rows mask df))
      = Some (pick nan c (kept mask)).
Proof.
  intros Hwf Hlen. split.
  - simpl. by apply select_pick.
  - intros name c Hc. simpl. rewrite lookup_col_fmap, Hc. simpl.
    f_equal. apply select_pick.
    by rewrite (well_formed_length _ _ _ Hwf Hc).
Qed.

End DropRows.

(** ** Fetching: a failing series is left out, the others stay *)

Section Fetching.
Import Pandas Spec.
Variable get_series : string → date → result Series.
Variable start : date.

Lemma names_assign_new name (v : list float) (cs : list (string * list float)) :
  name ∉ cs.*1 → (assign_col name v cs).*1 = cs.*1 ++ [name].
Proof.
  induction cs as [|[k w] cs IH]; csimpl; [done|].
  rewrite not_elem_of_cons. intros [Hne Hnot].
  rewrite decide_False by done. csimpl. by rewrite IH.
Qed.

Lemma names_setitem_series df name s :
  name ∉ column_names df →
  column_names (setitem_series df name s) = column_names df ++ [name].
Proof.
  intros Hnot. unfold setitem_series, column_names, setitem.
  destruct (index df), (s_index s); simpl;
    rewrite names_assign_new; rewrite ?names_fmap; done.
Qed.

(** The fetch loop of both CPI scripts. *)
Lemma get_macro_data_loop (tickers : list (string * string)) df errs :
  NoDup (column_names df ++ tickers.*2) →
  let out :=
    foldl
      (fun (acc : DataFrame * list string) (t : string * string) =>
         match get_series t.1 start with
         | Ok series => (setitem_series acc.1 t.2 series, acc.2)
         | Raise _ => (acc.1, acc.2 ++ [t.2])
         end)
      (df, errs) tickers in
  column_names out.1 = column_names df ++ fetched get_series start tickers
  ∧ out.2 = errs ++ failed get_series start tickers.
Proof.
  revert df errs. unfold fetched, failed.
  induction tickers as [|[code name] ts IH]; intros df errs Hnd.
  - cbn [foldl]. rewrite !filter_nil. csimpl. by rewrite !app_nil_r.
  - rewrite fmap_cons in Hnd.
    apply NoDup_app in Hnd as (Hdf & Hdisj & Hts).
    apply NoDup_cons in Hts as [Hname Hts]. cbn [snd] in Hname.
    assert (name ∉ column_names df) as Hfresh
      by (intros Hin; apply (Hdisj _ Hin), list_elem_of_here).
    rewrite !filter_cons. cbn [foldl fst snd].
    destruct (get_series code start) as [series|e] eqn:E; cbn [is_ok].
    + rewrite decide_True by done. rewrite decide_False by done.
      destruct (IH (setitem_series df name series) errs) as [-> ->].
      * rewrite names_setitem_series by done.
        rewrite <- app_assoc. cbn [app].
        apply NoDup_app. split; [done|]. split; [|by apply NoDup_cons].
        intros x Hx. by apply Hdisj.
      * rewrite names_setitem_series by done.
        rewrite fmap_cons. cbn [snd]. by rewrite <- app_assoc.
    + rewrite decide_False by done. rewrite decide_True by done.
      destruct (IH df (errs ++ [name])) as [-> ->].
      * apply NoDup_app. split; [done|]. split; [|done].
        intros x Hx Hin. apply (Hdisj _ Hx). by apply list_elem_of_further.
      * rewrite fmap_cons. cbn [snd]. by rewrite <- app_assoc.
Qed.

(** The fetch loop of [rate_agent_v2.py]. *)
Lemma fetch_all_v2_loop (tickers : list (string * string)) acc warns :
  let out :=
    foldl
      (fun (acc : list (string * Series) * list string)
           (t : string * string) =>
         match get_series t.1 start with
         | Ok series => (acc.1 ++ [(t.2, series)], acc.2)
         | Raise _ => (acc.1, acc.2 ++ [t.2])
         end)
      (acc, warns) tickers in
  out.1.*1 = acc.*1 ++ fetched get_series start tickers
  ∧ out.2 = warns ++ failed get_series start tickers.
Proof.
  revert acc warns. unfold fetched, failed.
  induction tickers as [|[code name] ts IH]; intros acc warns.
  - cbn [foldl]. rewrite !filter_nil. csimpl. by rewrite !app_nil_r.
  - rewrite !filter_cons. cbn [foldl fst snd].
    destruct (get_series code start) as [series|e] eqn:E; cbn [is_ok].
    + rewrite decide_True by done. rewrite decide_False by done.
      destruct (IH (acc ++ [(name, series)]) warns) as [-> ->].
      rewrite fmap_app, !fmap_cons. cbn [fst snd fmap list_fmap].
      by rewrite <- app_assoc.
    + rewrite decide_False by done. rewrite decide_True by done.
      destruct (IH acc (warns ++ [name])) as [-> ->].
      rewrite fmap_cons. cbn [snd]. by rewrite <- app_assoc.
Qed.

(** The fetch loop of [rate_agent_v3.py]. *)
Lemma fetch_all_v3_loop (tickers : list (string * string)) acc :
  (foldl
     (fun (acc : list (string * Series)) (t : string * string) =>
        match get_series t.1 start with
        | Ok series => acc ++ [(t.2, series)]
        | Raise _ => acc
        end)
     acc tickers).*1
  = acc.*1 ++ fetched get_series start tickers.
Proof.
  revert acc. unfold fetched.
  induction tickers as [|[code name] ts IH]; intros acc.
  - cbn [foldl]. rewrite !filter_nil. csimpl. by rewrite !app_nil_r.
  - rewrite !filter_cons. cbn [foldl fst snd].
    destruct (get_series code start) as [series|e] eqn:E; cbn [is_ok].
    + rewrite decide_True by done. rewrite IH.
      rewrite fmap_app, !fmap_cons. cbn [fst snd fmap list_fmap].
      by rewrite <- app_assoc.
    + rewrite decide_False by done. by rewrite IH.
Qed.

(** The first fetch loop of [rate_agent.py]. *)
Lemma rate_agent_loop (tickers : list (string * string)) df :
  column_names
    (foldl
       (fun (df : DataFrame) (t : string * string) =>
          match get_series t.1 start with
          | Ok series => join_outer df (to_frame t.2 series)
          | Raise _ => df
          end)
       df tickers)
  = column_names df ++ fetched get_series start tickers.
Proof.
  revert df. unfold fetched.
  induction tickers as [|[code name] ts IH]; intros df.
  - cbn [foldl]. rewrite !filter_nil. csimpl. by rewrite !app_nil_r.
  - rewrite !filter_cons. cbn [foldl fst snd].
    destruct (get_series code start) as [series|e] eqn:E; cbn [is_ok].
    + rewrite decide_True by done. rewrite IH.
      unfold column_names at 1, join_outer, reindex_frame, to_frame.
      cbn [columns index]. rewrite fmap_app, !names_fmap.
      rewrite fmap_cons. cbn [fst snd fmap list_fmap].
      by rewrite <- app_assoc.
    + rewrite decide_False by done. by rewrite IH.
Qed.

Lemma fst_prod_map {A B : Type} (f : A → B) (l : list (string * A)) :
  (prod_map id f <$> l).*1 = l.*1.
Proof. induction l as [|[k v] l IH]; csimpl; [done|]. by f_equal. Qed.

Lemma names_concat_axis1 (l : list (string * Series)) :
  column_names (concat_axis1 l) = l.*1.
Proof. unfold column_names, concat_axis1. cbn [columns]. apply fst_prod_map. Qed.

Lemma names_ffill df : column_names (ffill df) = column_names df.
Proof. apply names_fmap. Qed.

Lemma names_select_rows mask df :
  column_names (select_rows mask df) = column_names df.
Proof. apply names_fmap. Qed.

(** Merging the fetched series succeeds when the anchor is among them,
    and keeps one column per series. *)
Lemma merge_and_fill_names (l : list (string * Series)) :
  "US 10Y Yield" ∈ l.*1 →
  ∃ out, dropna_subset "US 10Y Yield" (ffill (concat_axis1 l)) = Ok out
         ∧ column_names out = l.*1.
Proof.
  intros Hin.
  destruct (dropna_subset_Ok "US 10Y Yield" (ffill (concat_axis1 l)))
    as (c & _ & ->).
  - apply has_col_names. by rewrite names_ffill, names_concat_axis1.
  - eexists; split; [done|].
    by rewrite names_select_rows, names_ffill, names_concat_axis1.
Qed.

End Fetching.

Section FetchClaim.
Import Pandas Spec.
Variable get_series : string → date → result Series.
Variable now : date.

Lemma names_resample_D_ffill df :
  column_names (resample_D_ffill df) = column_names df.
Proof.
  unfold resample_D_ffill. destruct (index df); [done|]. apply names_fmap.
Qed.

Lemma names_join_outer df other :
  column_names (join_outer df other) = column_names df ++ column_names other.
Proof.
  unfold column_names, join_outer, reindex_frame. cbn [columns index].
  by rewrite fmap_app, !names_fmap.
Qed.

Lemma rate_agent_get_rates_data_names (years : Z) :
  column_names (RateAgent.get_rates_data get_series now years).1
  = fetched get_series (now - 365 * years)%Z RateAgent.tickers
    ++ (if liquidity_fetched get_series (now - 365 * years)%Z
        then liquidity_names else []).
Proof.
  unfold RateAgent.get_rates_data, RateAgent.fetch_liquidity, liquidity_fetched.
  cbv zeta. set (start := (now - 365 * years)%Z).
  pose proof (rate_agent_loop get_series start RateAgent.tickers empty_frame)
    as Hloop.
  change (column_names empty_frame) with (@nil string) in Hloop.
  rewrite app_nil_l in Hloop.
  destruct (get_series "WALCL" start) as [fa|e1];
    cbn [mbind mret result_bind result_ret is_ok andb fst];
    [|by rewrite Hloop, app_nil_r].
  destruct (get_series "WTREGEN" start) as [tga|e2];
    cbn [mbind mret result_bind result_ret is_ok andb fst];
    [|by rewrite Hloop, app_nil_r].
  destruct (get_series "RRPONTSYD" start) as [rrp|e3];
    cbn [mbind mret result_bind result_ret is_ok andb fst];
    [|by rewrite Hloop, app_nil_r].
  rewrite names_join_outer, names_resample_D_ffill, names_concat_axis1, Hloop.
  done.
Qed.

Lemma ticker_names_NoDup :
  NoDup (CpiAgent.tickers.*2) ∧ NoDup (CpiAgentV21.tickers.*2).
Proof. split; apply (bool_decide_unpack _); by vm_compute. Qed.

Lemma cpi_get_macro_data_names :
  column_names (CpiAgent.get_macro_data get_series now).1
  = fetched get_series (now - 365 * 5)%Z CpiAgent.tickers
  ∧ (CpiAgent.get_macro_data get_series now).2
    = failed get_series (now - 365 * 5)%Z CpiAgent.tickers.
Proof.
  exact (get_macro_data_loop get_series _ CpiAgent.tickers empty_frame []
           (proj1 ticker_names_NoDup)).
Qed.

Lemma cpi_v21_get_macro_data_names :
  column_names (CpiAgentV21.get_macro_data get_series now).1
  = fetched get_series (now - 365 * 6)%Z CpiAgentV21.tickers
  ∧ (CpiAgentV21.get_macro_data get_series now).2
    = failed get_series (now - 365 * 6)%Z CpiAgentV21.tickers.
Proof.
  exact (get_macro_data_loop get_series _ CpiAgentV21.tickers empty_frame []
           (proj2 ticker_names_NoDup)).
Qed.

Lemma v2_fetch_all_names start :
  (RateAgentV2.fetch_all get_series start).1.*1
  = fetched get_series start RateAgentV2.tickers
  ∧ (RateAgentV2.fetch_all get_series start).2
    = failed get_series start RateAgentV2.tickers.
Proof.
  exact (fetch_all_v2_loop get_series start RateAgentV2.tickers [] []).
Qed.

Lemma v3_fetch_all_names start :
  (RateAgentV3.fetch_all get_series start).*1
  = fetched get_series start RateAgentV3.tickers.
Proof.
  exact (fetch_all_v3_loop get_series start RateAgentV3.tickers []).
Qed.

Lemma v2_get_rates_data_names (years : Z) :
  "US 10Y Yield"
    ∈ fetched get_series (now - 365 * years)%Z RateAgentV2.tickers →
  ∃ out, RateAgentV2.get_rates_data get_series now years = Ok out
         ∧ column_names out
           = fetched get_series (now - 365 * years)%Z RateAgentV2.tickers.
Proof.
  intros Hanchor. unfold RateAgentV2.get_rates_data. cbv zeta.
  destruct (v2_fetch_all_names (now - 365 * years)%Z) as [Hnames _].
  rewrite <- Hnames in Hanchor |- *.
  destruct (RateAgentV2.fetch_all get_series _).1 as [|d ds] eqn:E.
  - by apply elem_of_nil in Hanchor.
  - unfold RateAgentV2.merge_and_fill. by apply merge_and_fill_names.
Qed.

Lemma v3_get_rates_data_names (years : Z) :
  "US 10Y Yield"
    ∈ fetched get_series (now - 365 * years)%Z RateAgentV3.tickers →
  ∃ out, RateAgentV3.get_rates_data get_series now years = Ok out
         ∧ column_names out
           = fetched get_series (now - 365 * years)%Z RateAgentV3.tickers.
Proof.
  intros Hanchor. unfold RateAgentV3.get_rates_data. cbv zeta.
  pose proof (v3_fetch_all_names (now - 365 * years)%Z) as Hnames.
  rewrite <- Hnames in Hanchor |- *.
  destruct (RateAgentV3.fetch_all get_series _) as [|d ds] eqn:E.
  - by apply elem_of_nil in Hanchor.
  - unfold RateAgentV3.merge_and_fill. by apply merge_and_fill_names.
Qed.

(** C8, as the scripts have it. A failed fetch never aborts the batch.
    The CPI scripts, [rate_agent_v2.py] and [rate_agent_v3.py] return a
    table with one column per series fetched and none for a failed one
    (the rate scripts when the anchor is among the fetched); the CPI
    scripts and [rate_agent_v2.py] report the failed names.
    [rate_agent.py] does so for its eight rate tickers, and adds its three
    liquidity columns together: all three when all three fetches
    succeed, none otherwise. *)
Theorem fetch_failure_leaves_batch (years : Z) :
  let start := (now - 365 * years)%Z in
  (column_names (CpiAgent.get_macro_data get_series now).1
     = fetched get_series (now - 365 * 5)%Z CpiAgent.tickers
   ∧ (CpiAgent.get_macro_data get_series now).2
     = failed get_series (now - 365 * 5)%Z CpiAgent.tickers)
  ∧ (column_names (CpiAgentV21.get_macro_data get_series now).1
       = fetched get_series (now - 365 * 6)%Z CpiAgentV21.tickers
     ∧ (CpiAgentV21.get_macro_data get_series now).2
       = failed get_series (now - 365 * 6)%Z CpiAgentV21.tickers)
  ∧ ("US 10Y Yield" ∈ fetched get_series start RateAgentV2.tickers →
     (∃ out, RateAgentV2.get_rates_data get_series now years = Ok out
             ∧ column_names out = fetched get_series start RateAgentV2.tickers)
     ∧ (RateAgentV2.fetch_all get_series start).2
       = failed get_series start RateAgentV2.tickers)
  ∧ ("US 10Y Yield" ∈ fetched get_series start RateAgentV3.tickers →
     ∃ out, RateAgentV3.get_rates_data get_series now years = Ok out
            ∧ column_names out = fetched get_series start RateAgentV3.tickers)
  ∧ column_names (RateAgent.get_rates_data get_series now years).1
    = fetched get_series start RateAgent.tickers
      ++ (if liquidity_fetched get_series start then liquidity_names else []).
Proof.
  intros start. split; [|split; [|split; [|split]]].
  - apply cpi_get_macro_data_names.
  - apply cpi_v21_get_macro_data_names.
  - intros Hanchor. split.
    + by apply v2_get_rates_data_names.
    + apply v2_fetch_all_names.
  - intros Hanchor. by apply v3_get_rates_data_names.
  - apply rate_agent_get_rates_data_names.
Qed.

End FetchClaim.

Section FetchExamples.
Import Pandas Spec.

(** [rate_agent.py] with a source that fails for the reverse repo only:
    the Fed assets and the TGA were fetched, yet neither is a column of
    the table; the failure is reported. *)
Lemma rate_agent_drops_fetched_liquidity :
  is_ok (sample_source "WALCL" 18175%Z) = true
  ∧ is_ok (sample_source "WTREGEN" 18175%Z) = true
  ∧ column_names (RateAgent.get_rates_data sample_source 20000%Z 5).1
    = [ "US 10Y Yield"; "US 2Y Yield"; "Fed Funds Rate"; "10Y Real Yield";
        "10Y-3M Spread"; "High Yield Spread"; "Financial Conditions";
        "S&P 500" ]
  ∧ (RateAgent.get_rates_data sample_source 20000%Z 5).2
    = [FetchError "RRPONTSYD"].
Proof. by vm_compute. Qed.

Lemma fetch_failure_leaves_batch_witness :
  ∃ out, RateAgentV2.get_rates_data sample_source 20000%Z 5 = Ok out
         ∧ column_names out
           = [ "US 10Y Yield"; "US 2Y Yield"; "Fed Funds Rate";
               "10Y Real Yield"; "10Y-3M Spread"; "Fed Total Assets";
               "TGA Account"; "High Yield Spread"; "Financial Conditions";
               "S&P 500" ].
Proof.
  refine (proj1 (proj1 (proj2 (proj2
            (fetch_failure_leaves_batch sample_source 20000%Z 5))) _)).
  vm_compute. apply list_elem_of_here.
Defined.

End FetchExamples.

(** ** When the anchor series cannot be fetched *)

(** The ticker code of a display name, by inspection of a ticker list. *)
Ltac ticker_code H :=
  repeat (apply elem_of_cons in H as [H|H]; [by simplify_eq|]);
  by apply elem_of_nil in H.

Section AnchorFailure.
Import Pandas Spec.
Variable get_series : string → date → result Series.
Variable now : date.

Lemma not_fetched start (tickers : list (string * string)) code name :
  (∀ c, (c, name) ∈ tickers → c = code) →
  is_ok (get_series code start) = false →
  name ∉ fetched get_series start tickers.
Proof.
  intros Huniq Hfail Hin. unfold fetched in Hin.
  apply list_elem_of_fmap in Hin as ([c n] & Hn & Hf). simpl in Hn. subst n.
  apply list_elem_of_filter in Hf as [Hok Hmem]. simpl in Hok.
  rewrite (Huniq c Hmem) in Hok. congruence.
Qed.

Lemma cpi_v21_halts pads assumed_mom :
  is_ok (get_series "CPIAUCSL" (now - 365 * 6)%Z) = false →
  CpiAgentV21.run get_series now pads assumed_mom
  = Failed (Stop "CPI data unavailable").
Proof.
  intros Hfail. unfold CpiAgentV21.run, CpiAgentV21.main.
  destruct (cpi_v21_get_macro_data_names get_series now) as [Hnames _].
  assert (has_col "CPI (Headline)" (CpiAgentV21.get_macro_data get_series now).1
          = false) as ->; [|done].
  apply not_true_iff_false. rewrite has_col_names, Hnames.
  apply (not_fetched _ _ "CPIAUCSL"); [|done].
  intros c Hc. unfold CpiAgentV21.tickers in Hc. ticker_code Hc.
Qed.

Lemma cpi_halts pads assumed_mom :
  is_ok (get_series "CPIAUCSL" (now - 365 * 5)%Z) = false →
  CpiAgent.run get_series now pads assumed_mom
  = Failed (KeyError "CPI (Headline)").
Proof.
  intros Hfail. unfold CpiAgent.run, CpiAgent.main.
  set (raw_df := dropna (CpiAgent.get_macro_data get_series now).1).
  assert (lookup_col "CPI (Headline)" (columns raw_df) = None) as Hnone.
  { apply has_col_false. subst raw_df. unfold dropna.
    rewrite has_col_select_rows. apply not_true_iff_false.
    rewrite has_col_names, (proj1 (cpi_get_macro_data_names get_series now)).
    apply (not_fetched _ _ "CPIAUCSL"); [|done].
    intros c Hc. unfold CpiAgent.tickers in Hc. ticker_code Hc. }
  destruct (cpi_process_data_lookup pads raw_df)
    as (yoy & mom & -> & Hidx & _).
  cbn [mbind result_bind fst snd]. unfold CpiAgent.calculate_spread, getitem.
  rewrite (Hidx "CPI (Headline)") by not_elem_of_literal.
  rewrite Hnone. done.
Qed.

Lemma process_rates_data_empty_frame pads :
  RateAgentV2.process_rates_data empty_frame
  = Ok (mkDataFrame [] [("Net Liquidity", [])])
  ∧ RateAgentV3.process_rates_data pads empty_frame
    = Ok (mkDataFrame [] [("Net Liquidity", [])]).
Proof. by vm_compute. Qed.

Lemma v2_halts (years : Z) :
  is_ok (get_series "DGS10" (now - 365 * years)%Z) = false →
  RateAgentV2.run get_series now years = Failed (Stop "no data")
  ∨ RateAgentV2.run get_series now years = Failed (KeyError "US 10Y Yield").
Proof.
  intros Hfail. unfold RateAgentV2.run, RateAgentV2.main,
    RateAgentV2.get_rates_data. cbv zeta.
  assert ("US 10Y Yield"
            ∉ (RateAgentV2.fetch_all get_series (now - 365 * years)%Z).1.*1)
    as Hnot.
  { rewrite (proj1 (v2_fetch_all_names get_series _)).
    apply (not_fetched _ _ "DGS10"); [|done].
    intros c Hc. unfold RateAgentV2.tickers in Hc. ticker_code Hc. }
  destruct (RateAgentV2.fetch_all get_series _).1 as [|d ds] eqn:E.
  - left. cbn [mret result_ret mbind result_bind].
    by rewrite (proj1 (process_rates_data_empty_frame true)).
  - right. unfold RateAgentV2.merge_and_fill.
    rewrite dropna_subset_KeyError; [done|].
    apply not_true_iff_false.
    by rewrite has_col_names, names_ffill, names_concat_axis1.
Qed.

Lemma v3_halts pads (years : Z) :
  is_ok (get_series "DGS10" (now - 365 * years)%Z) = false →
  RateAgentV3.run get_series now pads years = Failed (Stop "no data")
  ∨ RateAgentV3.run get_series now pads years
    = Failed (KeyError "US 10Y Yield").
Proof.
  intros Hfail. unfold RateAgentV3.run, RateAgentV3.main,
    RateAgentV3.get_rates_data. cbv zeta.
  assert ("US 10Y Yield"
            ∉ (RateAgentV3.fetch_all get_series (now - 365 * years)%Z).*1)
    as Hnot.
  { rewrite (v3_fetch_all_names get_series _).
    apply (not_fetched _ _ "DGS10"); [|done].
    intros c Hc. unfold RateAgentV3.tickers in Hc. ticker_code Hc. }
  destruct (RateAgentV3.fetch_all get_series _) as [|d ds] eqn:E.
  - left. cbn [mret result_ret mbind result_bind].
    by rewrite (proj2 (process_rates_data_empty_frame pads)).
  - right. unfold RateAgentV3.merge_and_fill.
    rewrite dropna_subset_KeyError; [done|].
    apply not_true_iff_false.
    by rewrite has_col_names, names_ffill, names_concat_axis1.
Qed.

Lemma rate_agent_halts (years : Z) :
  is_ok (get_series "DGS10" (now - 365 * years)%Z) = false →
  RateAgent.run get_series now years = Failed (KeyError "US 10Y Yield").
Proof.
  intros Hfail. unfold RateAgent.run, RateAgent.main,
    RateAgent.process_rates_data.
  rewrite dropna_subset_KeyError; [done|].
  apply not_true_iff_false.
  rewrite has_col_names, names_ffill, rate_agent_get_rates_data_names.
  rewrite elem_of_app. intros [Hin|Hin].
  - revert Hin. apply (not_fetched _ _ "DGS10"); [|done].
    intros c Hc. unfold RateAgent.tickers in Hc. ticker_code Hc.
  - destruct (liquidity_fetched _ _); [|by apply elem_of_nil in Hin].
    assert ("US 10Y Yield" ∉ liquidity_names) as Hn
      by (unfold liquidity_names; not_elem_of_literal).
    done.
Qed.

End AnchorFailure.

Section AnchorFailureClaim.
Import Pandas Spec.

(** C9. When the fetch of the anchor series fails, the render cycle of
    every script ends with a reported failure and hands nothing on: no
    table, no derived column, no latest value. [cpi_agent_v2.1.py] stops
    on its own check; the others fail on the missing column, or, in
    [rate_agent_v2.py] and [rate_agent_v3.py] when no series at all was
    fetched, stop on the empty table. *)
Theorem anchor_failure_halts (get_series : string → date → result Series)
    (now : date) (years : Z) (pads : bool) (assumed_mom : float) :
  (is_ok (get_series "CPIAUCSL" (now - 365 * 6)%Z) = false →
   CpiAgentV21.run get_series now pads assumed_mom
   = Failed (Stop "CPI data unavailable"))
  ∧ (is_ok (get_series "CPIAUCSL" (now - 365 * 5)%Z) = false →
     CpiAgent.run get_series now pads assumed_mom
     = Failed (KeyError "CPI (Headline)"))
  ∧ (is_ok (get_series "DGS10" (now - 365 * years)%Z) = false →
     (RateAgentV2.run get_series now years = Failed (Stop "no data")
      ∨ RateAgentV2.run get_series now years
        = Failed (KeyError "US 10Y Yield"))
     ∧ (RateAgentV3.run get_series now pads years = Failed (Stop "no data")
        ∨ RateAgentV3.run get_series now pads years
          = Failed (KeyError "US 10Y Yield"))
     ∧ RateAgent.run get_series now years
       = Failed (KeyError "US 10Y Yield")).
Proof.
  split; [|split].
  - apply cpi_v21_halts.
  - apply cpi_halts.
  - intros Hfail. split; [|split].
    + by apply v2_halts.
    + by apply v3_halts.
    + by apply rate_agent_halts.
Qed.

Lemma anchor_failure_halts_witness :
  CpiAgentV21.run no_anchor_source 20000%Z true 0.002%float
  = Failed (Stop "CPI data unavailable")
  ∧ RateAgent.run no_anchor_source 20000%Z 5
    = Failed (KeyError "US 10Y Yield").
Proof.
  pose proof (anchor_failure_halts no_anchor_source 20000%Z 5 true 0.002%float)
    as (H21 & _ & Hrate).
  split.
  - apply H21. reflexivity.
  - apply Hrate. reflexivity.
Defined.

End AnchorFailureClaim.

(** ** The derivation step of the rate scripts leaves its input alone *)

Section FrameClaim.
Import Pandas Spec.

Lemma fetched_subseteq get_series start (tickers : list (string * string)) c :
  c ∈ fetched get_series start tickers → c ∈ tickers.*2.
Proof.
  unfold fetched. intros Hin.
  apply list_elem_of_fmap in Hin as (t & -> & Hf).
  apply list_elem_of_filter in Hf as [_ Hmem].
  apply list_elem_of_fmap. by exists t.
Qed.

Lemma names_dropna_subset a df out :
  dropna_subset a df = Ok out → column_names out = column_names df.
Proof.
  unfold dropna_subset. destruct (lookup_col a (columns df)); [|done].
  intros [= <-]. apply names_select_rows.
Qed.

Lemma v2_raw_names get_series now years raw c :
  RateAgentV2.get_rates_data get_series now years = Ok raw →
  c ∈ column_names raw → c ∈ RateAgentV2.tickers.*2.
Proof.
  unfold RateAgentV2.get_rates_data. cbv zeta.
  destruct (v2_fetch_all_names get_series (now - 365 * years)%Z)
    as [Hnames _].
  destruct (RateAgentV2.fetch_all get_series _).1 as [|d ds] eqn:E.
  - intros [= <-] Hin. by apply elem_of_nil in Hin.
  - unfold RateAgentV2.merge_and_fill. intros Hok%names_dropna_subset.
    rewrite Hok, names_ffill, names_concat_axis1, Hnames.
    apply fetched_subseteq.
Qed.

Lemma v3_raw_names get_series now years raw c :
  RateAgentV3.get_rates_data get_series now years = Ok raw →
  c ∈ column_names raw → c ∈ RateAgentV3.tickers.*2.
Proof.
  unfold RateAgentV3.get_rates_data. cbv zeta.
  pose proof (v3_fetch_all_names get_series (now - 365 * years)%Z)
    as Hnames.
  destruct (RateAgentV3.fetch_all get_series _) as [|d ds] eqn:E.
  - intros [= <-] Hin. by apply elem_of_nil in Hin.
  - unfold RateAgentV3.merge_and_fill. intros Hok%names_dropna_subset.
    rewrite Hok, names_ffill, names_concat_axis1, Hnames.
    apply fetched_subseteq.
Qed.

Lemma ticker_names_not_derived c :
  (c ∈ RateAgentV2.tickers.*2 → c ∉ derived_v2)
  ∧ (c ∈ RateAgentV3.tickers.*2 → c ∉ derived_v3).
Proof.
  split; intros Hin; cbn in Hin;
    repeat (apply elem_of_cons in Hin as [->|Hin]; [not_elem_of_literal|]);
    by apply elem_of_nil in Hin.
Qed.

(** C10. [process_rates_data] of [rate_agent_v2.py] and
    [rate_agent_v3.py] always returns; its output has the index of its
    input, every column whose name is not one of the derived names holds
    the cells it held, and the only new names are derived ones. No column
    of a table that [get_rates_data] returns has a derived name, so on
    those tables every input column is unchanged. *)
Theorem process_rates_data_keeps_input (pads : bool) (df : DataFrame) :
  (∃ out, RateAgentV2.process_rates_data df = Ok out
     ∧ index out = index df
     ∧ (∀ c, c ∉ derived_v2 →
          lookup_col c (columns out) = lookup_col c (columns df))
     ∧ (∀ c, c ∈ column_names out → c ∈ column_names df ∨ c ∈ derived_v2)
     ∧ (∀ get_series now years c col,
          RateAgentV2.get_rates_data get_series now years = Ok df →
          lookup_col c (columns df) = Some col →
          lookup_col c (columns out) = Some col))
  ∧ (∃ out, RateAgentV3.process_rates_data pads df = Ok out
       ∧ index out = index df
       ∧ (∀ c, c ∉ derived_v3 →
            lookup_col c (columns out) = lookup_col c (columns df))
       ∧ (∀ c, c ∈ column_names out → c ∈ column_names df ∨ c ∈ derived_v3)
       ∧ (∀ get_series now years c col,
            RateAgentV3.get_rates_data get_series now years = Ok df →
            lookup_col c (columns df) = Some col →
            lookup_col c (columns out) = Some col)).
Proof.
  split.
  - destruct (process_rates_data_v2_extends df) as (out & Hout & Hi & Hc & Hn).
    exists out. repeat split; try done.
    intros get_series now years c col Hraw Hcol. rewrite Hc; [done|].
    apply (proj1 (ticker_names_not_derived c)).
    eapply v2_raw_names; [exact Hraw|]. by eapply lookup_col_Some_names.
  - destruct (process_rates_data_v3_extends pads df)
      as (out & Hout & Hi & Hc & Hn).
    exists out. repeat split; try done.
    intros get_series now years c col Hraw Hcol. rewrite Hc; [done|].
    apply (proj2 (ticker_names_not_derived c)).
    eapply v3_raw_names; [exact Hraw|]. by eapply lookup_col_Some_names.
Qed.

Lemma process_rates_data_keeps_input_witness :
  ∃ out, RateAgentV2.process_rates_data units_table = Ok out
    ∧ index out = [20000%Z]
    ∧ lookup_col "TGA Account" (columns out) = Some [700000%float].
Proof.
  destruct (proj1 (process_rates_data_keeps_input true units_table))
    as (out & Hout & Hi & Hc & _).
  exists out. split; [exact Hout|]. split; [exact Hi|].
  rewrite Hc; [reflexivity|]. not_elem_of_literal.
Defined.

End FrameClaim.

(** ** The base-effect simulator *)

Section Simulator.
Import Pandas Spec.
Implicit Types (base history : list float) (rate last curr : float)
  (i k steps : nat).

Lemma projected_level_shift last rate i :
  projected_level (PrimFloat.mul last (PrimFloat.add 1 rate)) rate i
  = projected_level last rate (S i).
Proof. induction i as [|i IH]; simpl; [done | by rewrite IH]. Qed.

Lemma length_simulate_loop base rate steps i curr :
  length (simulate_loop base rate steps i curr) = steps.
Proof.
  revert i curr. induction steps as [|steps IH]; intros i curr; simpl;
    [done | by rewrite IH].
Qed.

(** Step [k] of the loop: the level compounded [k + 1] times against
    [base[i + k]], NaN when the base has no such entry. *)
Lemma simulate_loop_lookup base rate steps i curr k :
  k < steps →
  simulate_loop base rate steps i curr !! k
  = Some (match base !! (i + k) with
          | Some b => yoy_against (projected_level curr rate k) b
          | None => nan
          end).
Proof.
  revert i curr k. induction steps as [|steps IH]; intros i curr k Hk; [lia|].
  destruct k as [|k]; cbn [simulate_loop lookup list_lookup].
  - by rewrite Nat.add_0_r.
  - rewrite IH by lia. rewrite projected_level_shift.
    by replace (S i + k) with (i + S k) by lia.
Qed.

Lemma rev_lookup (l : list float) i :
  i < length l → rev l !! i = l !! (length l - S i).
Proof. intros Hi. rewrite rev_alt. by apply reverse_lookup. Qed.

Lemma iloc_neg_1 (l : list float) n x :
  length l = S n → l !! n = Some x → iloc_neg l 1 = Ok x.
Proof.
  intros Hlen Hx. unfold iloc_neg. cbn [pred].
  rewrite rev_lookup by lia. rewrite Hlen.
  replace (S n - 1) with n by lia. by rewrite Hx.
Qed.

(** [iloc[-13:-7]] of a history of at least 13 rows: six rows, the first
    one twelve rows above the last. *)
Lemma iloc_slice_base history n i :
  length history = n → 13 ≤ n → i < 6 →
  iloc_slice_neg history 13 7 !! i = history !! (n - 13 + i).
Proof.
  intros Hlen Hn Hi. unfold iloc_slice_neg. rewrite Hlen.
  rewrite lookup_drop, lookup_take_lt by lia. done.
Qed.

Lemma iloc_slice_base_None history n i :
  length history = n → 13 ≤ n → 6 ≤ i →
  iloc_slice_neg history 13 7 !! i = None.
Proof.
  intros Hlen Hn Hi. unfold iloc_slice_neg. rewrite Hlen.
  apply lookup_ge_None. rewrite length_drop, length_take. lia.
Qed.

(** With at least thirteen rows of history both simulators return six
    figures; figure [i] is the level compounded [i + 1] times against the
    row twelve rows above the last, plus [i]. *)
Lemma simulate_aligned rate raw_df history n last :
  lookup_col "CPI (Headline)" (columns raw_df) = Some history →
  length history = n → 13 ≤ n →
  history !! (n - 1) = Some last →
  ∃ out, CpiAgentV21.simulate rate raw_df = Ok out
    ∧ CpiAgent.simulate rate raw_df = Ok out
    ∧ length out = 6
    ∧ ∀ i b, i < 6 → history !! (n - 13 + i) = Some b →
        out !! i = Some (yoy_against (projected_level last rate i) b).
Proof.
  intros Hc Hlen Hn Hlast.
  unfold CpiAgentV21.simulate, CpiAgent.simulate.
  rewrite (getitem_Ok _ _ _ Hc). cbn [mbind result_bind].
  rewrite (iloc_neg_1 history (n - 1) last) by (done || lia).
  cbn [mbind mret result_bind result_ret].
  eexists. split; [reflexivity|]. split; [reflexivity|].
  split; [apply length_simulate_loop|].
  intros i b Hi Hb.
  rewrite simulate_loop_lookup by done. cbn [Nat.add].
  change (13 - CpiAgentV21.months_predict) with 7.
  by rewrite (iloc_slice_base history n i), Hb.
Qed.

Lemma simulate_aligned_witness :
  ∃ out, CpiAgentV21.simulate 0.002 history13 = Ok out
    ∧ CpiAgent.simulate 0.002 history13 = Ok out
    ∧ length out = 6
    ∧ out !! 0 = Some (yoy_against (projected_level 310 0.002 0) 300)
    ∧ out !! 5 = Some (yoy_against (projected_level 310 0.002 5) 305).
Proof.
  destruct (simulate_aligned 0.002 history13
              [300; 301; 302; 303; 304; 305; 306; 307; 308; 309; 310; 311;
               310]%float 13 310 eq_refl eq_refl (le_n 13) eq_refl)
    as (out & H21 & H1 & Hlen & Hcell).
  exists out. split; [exact H21|]. split; [exact H1|]. split; [exact Hlen|].
  split.
  - apply (Hcell 0); [lia | reflexivity].
  - apply (Hcell 5); [lia | reflexivity].
Defined.

(** C4. The simulator on a history of twelve rows. The level twelve
    months before the latest date is not in the table, so the first step
    has no matching base point, yet both scripts give it a figure, taken
    against the first row (eleven months before the latest date); the
    last step is NaN although its base point, row 4, is in the table. *)
Theorem simulate_short_history :
  CpiAgentV21.simulate 0.002 history12
  = Ok [ yoy_against (projected_level 311 0.002 0) 300;
         yoy_against (projected_level 311 0.002 1) 301;
         yoy_against (projected_level 311 0.002 2) 302;
         yoy_against (projected_level 311 0.002 3) 303;
         yoy_against (projected_level 311 0.002 4) 304;
         nan ]
  ∧ CpiAgent.simulate 0.002 history12 = CpiAgentV21.simulate 0.002 history12
  ∧ isna (yoy_against (projected_level 311 0.002 0) 300) = false
  ∧ (getitem history12 "CPI (Headline)" ≫= fun cpi =>
       mret (length cpi, cpi !! 0, cpi !! 4))
    = Ok (12, Some 300%float, Some 304%float).
Proof. by vm_compute. Qed.

End Simulator.

(** * Further properties of the pipeline *)

(** ** Spreads and rescaled columns, row by row *)

(** After the [name in df.columns] tests of a derivation step are decided:
    every lookup is brought back to the input table and the goal closed by
    the equations at hand. *)
Ltac close_by_lookups :=
  repeat match goal with
         | H : Pandas.has_col _ _ = false |- _ => apply has_col_false in H
         end;
  cbn [Pandas.columns Pandas.setitem Pandas.index] in *;
  rewrite ?lookup_assign_ne in * by done;
  rewrite ?lookup_assign_eq in *;
  try congruence.

Section DerivedColumns.
Import Pandas Spec.
Local Open Scope float_scope.

Lemma sub_col_lookup (a b : list float) (i : nat) (x y : float) :
  a !! i = Some x → b !! i = Some y → sub_col a b !! i = Some (x - y).
Proof.
  intros Ha Hb. unfold sub_col. by rewrite lookup_zip_with, Ha, Hb.
Qed.

Lemma v2_curve_column df out y10 y2 :
  RateAgentV2.process_rates_data df = Ok out →
  lookup_col "US 10Y Yield" (columns out) = Some y10 →
  lookup_col "US 2Y Yield" (columns out) = Some y2 →
  lookup_col "Curve 10Y-2Y" (columns out) = Some (sub_col y10 y2).
Proof.
  unfold RateAgentV2.process_rates_data, RateAgentV2.req_cols, setitem_scalar.
  cbn [forallb]. case_has_col; intros [= <-] H10 H2; close_by_lookups.
Qed.

Lemma v3_curve_column pads df out y10 y2 :
  RateAgentV3.process_rates_data pads df = Ok out →
  lookup_col "US 10Y Yield" (columns out) = Some y10 →
  lookup_col "US 2Y Yield" (columns out) = Some y2 →
  lookup_col "Curve 10Y-2Y" (columns out) = Some (sub_col y10 y2).
Proof.
  unfold RateAgentV3.process_rates_data, RateAgentV3.req_liq, setitem_scalar.
  cbn [forallb]. case_has_col; intros [= <-] H10 H2; close_by_lookups.
Qed.

Lemma rate_agent_curve_column df out y10 y2 :
  RateAgent.process_rates_data df = Ok out →
  lookup_col "US 10Y Yield" (columns out) = Some y10 →
  lookup_col "US 2Y Yield" (columns out) = Some y2 →
  lookup_col "Curve 10Y-2Y" (columns out) = Some (sub_col y10 y2).
Proof.
  unfold RateAgent.process_rates_data.
  destruct (dropna_subset "US 10Y Yield" (ffill df)) as [clean|e]; [|done].
  cbn [mbind result_bind forallb].
  case_has_col; intros [= <-] H10 H2; close_by_lookups.
Qed.

(** In the table that [process_rates_data] returns, in all three rate
    scripts, the yield-curve column is the 10-year column less the 2-year
    column of that table, row by row. *)
Theorem curve_spread_rows (pads : bool) (df out : DataFrame)
    (y10 y2 : list float) (i : nat) (a b : float) :
  RateAgent.process_rates_data df = Ok out
  ∨ RateAgentV2.process_rates_data df = Ok out
  ∨ RateAgentV3.process_rates_data pads df = Ok out →
  lookup_col "US 10Y Yield" (columns out) = Some y10 →
  lookup_col "US 2Y Yield" (columns out) = Some y2 →
  y10 !! i = Some a → y2 !! i = Some b →
  (lookup_col "Curve 10Y-2Y" (columns out) ≫= (.!! i)) = Some (a - b).
Proof.
  intros Hout H10 H2 Ha Hb.
  assert (lookup_col "Curve 10Y-2Y" (columns out) = Some (sub_col y10 y2)) as ->.
  { destruct Hout as [Hout|[Hout|Hout]].
    - by eapply rate_agent_curve_column.
    - by eapply v2_curve_column.
    - by eapply v3_curve_column. }
  simpl. by apply sub_col_lookup.
Qed.

Lemma curve_spread_rows_witness :
  ∃ out, RateAgentV2.process_rates_data no_rrp_table = Ok out
    ∧ (lookup_col "Curve 10Y-2Y" (columns out) ≫= (.!! 1%nat))
      = Some (4.5 - 4.125).
Proof.
  destruct (process_rates_data_v2_extends no_rrp_table) as (out & Hout & _ & Hc & _).
  exists out. split; [exact Hout|].
  apply (curve_spread_rows true no_rrp_table out [4.25; 4.5] [4; 4.125] 1).
  - right. left. exact Hout.
  - rewrite Hc; [reflexivity | not_elem_of_literal].
  - rewrite Hc; [reflexivity | not_elem_of_literal].
  - reflexivity.
  - reflexivity.
Defined.

Lemma v3_stress_column pads df out sofr iorb :
  RateAgentV3.process_rates_data pads df = Ok out →
  lookup_col "SOFR Rate" (columns out) = Some sofr →
  lookup_col "IORB Rate" (columns out) = Some iorb →
  lookup_col "Liquidity Stress" (columns out) = Some (sub_col sofr iorb).
Proof.
  unfold RateAgentV3.process_rates_data, RateAgentV3.req_liq, setitem_scalar.
  cbn [forallb]. case_has_col; intros [= <-] Hs Hi; close_by_lookups.
Qed.

Lemma v3_reserves_column pads df out reserves :
  RateAgentV3.process_rates_data pads df = Ok out →
  lookup_col "Bank Reserves" (columns out) = Some reserves →
  lookup_col "Bank Reserves Trillions" (columns out)
  = Some (div_scalar reserves 1000).
Proof.
  unfold RateAgentV3.process_rates_data, RateAgentV3.req_liq, setitem_scalar.
  cbn [forallb]. case_has_col; intros [= <-] Hr; close_by_lookups.
Qed.

(** In the table that [process_rates_data] of [rate_agent_v3.py] returns,
    the liquidity stress of a row is its SOFR rate less its IORB rate, and
    the bank reserves in trillions are the bank reserves over 1,000. *)
Theorem v3_stress_and_reserves_rows (pads : bool) (df out : DataFrame)
    (i : nat) :
  RateAgentV3.process_rates_data pads df = Ok out →
  (∀ sofr iorb a b,
     lookup_col "SOFR Rate" (columns out) = Some sofr →
     lookup_col "IORB Rate" (columns out) = Some iorb →
     sofr !! i = Some a → iorb !! i = Some b →
     (lookup_col "Liquidity Stress" (columns out) ≫= (.!! i)) = Some (a - b))
  ∧ (∀ reserves r,
       lookup_col "Bank Reserves" (columns out) = Some reserves →
       reserves !! i = Some r →
       (lookup_col "Bank Reserves Trillions" (columns out) ≫= (.!! i))
       = Some (r / 1000)).
Proof.
  intros Hout. split.
  - intros sofr iorb a b Hs Hi Ha Hb.
    rewrite (v3_stress_column _ _ _ _ _ Hout Hs Hi). simpl.
    by apply sub_col_lookup.
  - intros reserves r Hr Hri.
    rewrite (v3_reserves_column _ _ _ _ Hout Hr). simpl.
    unfold div_scalar. by rewrite list_lookup_fmap, Hri.
Qed.

Lemma v3_stress_and_reserves_rows_witness :
  ∃ out, RateAgentV3.process_rates_data true stress_table = Ok out
    ∧ (lookup_col "Liquidity Stress" (columns out) ≫= (.!! 1%nat))
      = Some (5.33 - 5.4)
    ∧ (lookup_col "Bank Reserves Trillions" (columns out) ≫= (.!! 1%nat))
      = Some (3300 / 1000).
Proof.
  destruct (process_rates_data_v3_extends true stress_table)
    as (out & Hout & _ & Hc & _).
  exists out. split; [exact Hout|].
  destruct (v3_stress_and_reserves_rows true stress_table out 1 Hout)
    as [Hstress Hres].
  split.
  - apply (Hstress [5.31; 5.33] [5.4; 5.4]); try reflexivity;
      (rewrite Hc; [reflexivity | not_elem_of_literal]).
  - apply (Hres [3400; 3300]); try reflexivity;
      (rewrite Hc; [reflexivity | not_elem_of_literal]).
Defined.

(** The profit spread of both CPI scripts is the year-over-year column of
    the headline CPI less that of the PPI: the [Profit Spread] column of
    [cpi_agent_v2.1.py] and the result of [calculate_spread] in
    [cpi_agent.py]. At a row with both figures it is their difference. *)
Theorem profit_spread_rows (pads : bool) (df : DataFrame)
    (cpi ppi : list float) (t : nat) (x y : float) :
  lookup_col "CPI (Headline)" (columns df) = Some cpi →
  lookup_col "PPI (Final Demand)" (columns df) = Some ppi →
  yoy_col pads 12 cpi !! t = Some x →
  yoy_col pads 12 ppi !! t = Some y →
  (∃ out, CpiAgentV21.process_data pads df = Ok (df, out)
     ∧ lookup_col "Profit Spread" (columns out)
       = Some (sub_col (yoy_col pads 12 cpi) (yoy_col pads 12 ppi))
     ∧ (lookup_col "Profit Spread" (columns out) ≫= (.!! t)) = Some (x - y))
  ∧ (∃ yoy mom spread,
       CpiAgent.process_data pads df = Ok (df, yoy, mom)
       ∧ CpiAgent.calculate_spread yoy = Ok spread
       ∧ spread = sub_col (yoy_col pads 12 cpi) (yoy_col pads 12 ppi)
       ∧ spread !! t = Some (x - y)).
Proof.
  intros Hcpi Hppi Hx Hy. split.
  - destruct (process_data_v21_lookup pads df) as (out & Hout & _ & _ & Hps).
    exists out. split; [done|]. rewrite Hps, Hcpi, Hppi. split; [done|].
    simpl. by apply sub_col_lookup.
  - destruct (cpi_process_data_lookup pads df)
      as (yoy & mom & Hout & Hidx & _).
    exists yoy, mom. eexists. split; [done|].
    unfold CpiAgent.calculate_spread, getitem.
    rewrite (Hidx "CPI (Headline)"), (Hidx "PPI (Final Demand)")
      by not_elem_of_literal.
    rewrite Hcpi, Hppi. simpl. split; [reflexivity|]. split; [reflexivity|].
    by apply sub_col_lookup.
Qed.

Lemma profit_spread_rows_witness :
  ∃ out, CpiAgentV21.process_data false spread_table = Ok (spread_table, out)
    ∧ (lookup_col "Profit Spread" (columns out) ≫= (.!! 12%nat))
      = Some ((110 / 100 - 1) * 100 - (210 / 200 - 1) * 100).
Proof.
  destruct (proj1 (profit_spread_rows false spread_table _ _ 12
                     ((110 / 100 - 1) * 100) ((210 / 200 - 1) * 100)
                     eq_refl eq_refl eq_refl eq_refl))
    as (out & Hout & _ & Hcell).
  exists out. split; [exact Hout | exact Hcell].
Defined.

End DerivedColumns.

(** ** Forward fill leaves no gap *)

Section NoGaps.
Import Pandas Spec.
Implicit Types (c : list float) (i j : nat) (x y last : float).

Lemma ffill_from_idempotent last c :
  ffill_from last (ffill_from last c) = ffill_from last c.
Proof.
  revert last. induction c as [|x c IH]; intros last; [done|].
  cbn [ffill_from]. destruct (isna x) eqn:Hx; cbn [ffill_from].
  - destruct (isna last); by rewrite IH.
  - by rewrite Hx, IH.
Qed.

Lemma ffill_from_observed_last last c j :
  isna last = false → j < length c →
  ∃ y, ffill_from last c !! j = Some y ∧ isna y = false.
Proof.
  revert last j. induction c as [|x c IH]; intros last j Hlast Hj;
    [simpl in Hj; lia|].
  cbn [ffill_from]. destruct (isna x) eqn:Hx; destruct j as [|j]; simpl.
  - by exists last.
  - apply IH; [done | simpl in Hj; lia].
  - by exists x.
  - apply IH; [done | simpl in Hj; lia].
Qed.

Lemma ffill_from_no_gap last c i j x :
  i ≤ j → j < length c →
  ffill_from last c !! i = Some x → isna x = false →
  ∃ y, ffill_from last c !! j = Some y ∧ isna y = false.
Proof.
  revert last i j. induction c as [|x0 c IH]; intros last i j Hij Hj Hi Hx;
    [simpl in Hj; lia|].
  destruct j as [|j].
  - assert (i = 0) as -> by lia. by exists x.
  - simpl in Hj. destruct i as [|i].
    + cbn [ffill_from] in *. destruct (isna x0) eqn:Hx0; simpl in Hi |- *;
        injection Hi as ->; apply ffill_from_observed_last; (done || lia).
    + cbn [ffill_from] in *. destruct (isna x0) eqn:Hx0; simpl in Hi |- *;
        (eapply IH; [| |exact Hi|done]; lia).
Qed.

Lemma ffill_idempotent df : ffill (ffill df) = ffill df.
Proof.
  unfold ffill. cbn [index columns]. f_equal.
  rewrite <- list_fmap_compose. apply list_fmap_ext.
  intros k [name c] _. unfold prod_map, ffill_col. simpl.
  by rewrite ffill_from_idempotent.
Qed.

(** Once a column has a value, forward fill leaves no missing cell below
    it: in every column of [df.ffill()], a row that holds a value is
    followed by rows that hold values only. Filling a filled table changes
    nothing. *)
Theorem forward_fill_no_gaps (df : DataFrame) (name : string) (c : list float)
    (i j : nat) (x : float) :
  lookup_col name (columns (ffill df)) = Some c →
  i ≤ j → j < length c →
  c !! i = Some x → isna x = false →
  (∃ y, c !! j = Some y ∧ isna y = false)
  ∧ ffill (ffill df) = ffill df.
Proof.
  intros Hc Hij Hj Hi Hx. split; [|apply ffill_idempotent].
  rewrite lookup_col_ffill in Hc.
  destruct (lookup_col name (columns df)) as [c0|]; [|done].
  injection Hc as <-. unfold ffill_col in *.
  rewrite length_ffill_from in Hj.
  eapply ffill_from_no_gap; [exact Hij | exact Hj | exact Hi | exact Hx].
Qed.

Lemma forward_fill_no_gaps_witness :
  (∃ y, [9000000; 9000000; 9000000; 8900000]%float !! 2 = Some y
        ∧ isna y = false)
  ∧ ffill (ffill gap_table) = ffill gap_table.
Proof.
  apply (forward_fill_no_gaps gap_table "Fed Total Assets" _ 0 2 9000000%float);
    [reflexivity | lia | simpl; lia | reflexivity | reflexivity].
Defined.

End NoGaps.

(** ** What the aligned table of the rate scripts guarantees *)

Section AlignedTable.
Import Pandas Spec.
Implicit Types (c : list float) (mask : list bool) (df : DataFrame).

Lemma Forall_select {A : Type} (P : A → Prop) mask (l : list A) :
  Forall P l → Forall P (select mask l).
Proof.
  revert l. induction mask as [|b mask IH]; intros [|x l] Hl; try constructor.
  apply Forall_cons in Hl as [Hx Hl]. cbn [select].
  destruct b; [apply Forall_cons; split; [done|] |]; by apply IH.
Qed.

Lemma no_gap_observed c : Forall observed c → no_gap c.
Proof.
  induction c as [|x c IH]; [done|]. intros [Hx Hc]%Forall_cons.
  cbn [no_gap]. unfold observed in Hx. by rewrite Hx.
Qed.

Lemma no_gap_select mask c : no_gap c → no_gap (select mask c).
Proof.
  revert c. induction mask as [|b mask IH]; intros [|x c] Hc; try done.
  cbn [select no_gap] in *. destruct b.
  - cbn [no_gap]. destruct (isna x); [by apply IH | by apply Forall_select].
  - destruct (isna x); [by apply IH | by apply IH, no_gap_observed].
Qed.

Lemma no_gap_gap_free c : no_gap c → gap_free c.
Proof.
  induction c as [|x0 c IH]; intros Hc i j x Hij Hj Hi Hx;
    [simpl in Hj; lia|].
  cbn [no_gap] in Hc. destruct (isna x0) eqn:Hx0.
  - destruct i as [|i]; [simpl in Hi; congruence|].
    destruct j as [|j]; [lia|]. simpl in *.
    apply (IH Hc i j x); (done || lia).
  - destruct j as [|j]; [by exists x0|]. simpl in *.
    destruct (lookup_lt_is_Some_2 c j) as [y Hy]; [lia|].
    exists y. split; [done|]. rewrite Forall_forall in Hc.
    apply Hc. by eapply list_elem_of_lookup_2.
Qed.

Lemma ffill_from_observed last c :
  isna last = false → Forall observed (ffill_from last c).
Proof.
  revert last. induction c as [|x c IH]; intros last Hlast; [constructor|].
  cbn [ffill_from]. destruct (isna x) eqn:Hx; apply Forall_cons; split;
    try done; by apply IH.
Qed.

Lemma no_gap_ffill_from last c : no_gap (ffill_from last c).
Proof.
  revert last. induction c as [|x c IH]; intros last; [done|].
  cbn [ffill_from]. destruct (isna x) eqn:Hx; cbn [no_gap].
  - destruct (isna last) eqn:Hl; [apply IH | by apply ffill_from_observed].
  - rewrite Hx. by apply ffill_from_observed.
Qed.

Lemma select_notna_observed c : Forall observed (select (notna <$> c) c).
Proof.
  induction c as [|x c IH]; [constructor|]. cbn [fmap list_fmap select].
  unfold notna at 1. destruct (isna x) eqn:Hx; simpl; [done|].
  by apply Forall_cons.
Qed.

(** *** Shape: one cell per row in every column *)

Lemma length_select {A B : Type} mask (l : list A) (k : list B) :
  length l = length k → length (select mask l) = length (select mask k).
Proof.
  revert l k. induction mask as [|b mask IH]; intros [|x l] [|y k] Hlen;
    try done. simpl in Hlen. injection Hlen as Hlen. cbn [select].
  destruct b; simpl; by rewrite (IH l k).
Qed.

Lemma well_formed_ffill df : well_formed df → well_formed (ffill df).
Proof.
  unfold well_formed, ffill. cbn [index columns]. rewrite Forall_fmap.
  intros Hwf. eapply Forall_impl; [exact Hwf|]. intros [name c] Hc. simpl in *.
  unfold ffill_col. by rewrite length_ffill_from.
Qed.

Lemma well_formed_select_rows mask df :
  well_formed df → well_formed (select_rows mask df).
Proof.
  unfold well_formed, select_rows. cbn [index columns]. rewrite Forall_fmap.
  intros Hwf. eapply Forall_impl; [exact Hwf|]. intros [name c] Hc. simpl in *.
  by apply length_select.
Qed.

Lemma well_formed_concat_axis1 (l : list (string * Series)) :
  well_formed (concat_axis1 l).
Proof.
  unfold well_formed, concat_axis1. cbn [index columns]. rewrite Forall_fmap.
  apply Forall_forall. intros [name s] _. simpl. unfold reindex.
  by rewrite length_fmap.
Qed.

Lemma well_formed_setitem df name (v : list float) :
  well_formed df → length v = length (index df) →
  well_formed (setitem df name v).
Proof.
  unfold well_formed, setitem. cbn [index columns]. intros Hwf Hv.
  induction (columns df) as [|[k w] cs IH]; cbn [assign_col].
  - by repeat constructor.
  - apply Forall_cons in Hwf as [Hw Hcs].
    destruct (decide (k = name)); apply Forall_cons; split; try done.
    by apply IH.
Qed.

Lemma length_shift n c : length (shift n c) = length c.
Proof.
  unfold shift. rewrite length_take, length_app, length_replicate. lia.
Qed.

Lemma length_pct_change pads n c : length (pct_change pads n c) = length c.
Proof.
  unfold pct_change, sub_scalar, div_col.
  rewrite length_fmap, length_zip_with, length_shift.
  destruct pads; unfold ffill_col; rewrite ?length_ffill_from; lia.
Qed.

Lemma bind_well_formed (m : result DataFrame)
    (k : DataFrame → result DataFrame) :
  (∃ df1, m = Ok df1 ∧ well_formed df1) →
  (∀ df1, well_formed df1 → ∃ df2, k df1 = Ok df2 ∧ well_formed df2) →
  ∃ df2, (m ≫= k) = Ok df2 ∧ well_formed df2.
Proof. intros (df1 & -> & H1) Hk. by apply Hk. Qed.

End AlignedTable.

(** The length of a column computed from columns of a well-formed table. *)
Ltac column_length :=
  unfold Pandas.sub_col, Pandas.div_col, Pandas.div_scalar, Pandas.mul_scalar,
    Pandas.sub_scalar;
  rewrite ?length_fmap, ?length_zip_with, ?length_fmap, ?length_replicate,
    ?length_pct_change;
  repeat match goal with
         | Hwf : Spec.well_formed ?d,
           H : Pandas.lookup_col _ (Pandas.columns ?d) = Some ?x |- _ =>
             rewrite (well_formed_length d _ x Hwf H); clear H
         end;
  lia.

Ltac stage_well_formed :=
  cbn [forallb]; unfold Pandas.setitem_scalar; case_has_col;
  eexists; (split; [reflexivity|]);
  first [ assumption
        | apply well_formed_setitem; [assumption | column_length] ].

Section AlignedTableShape.
Import Pandas Spec.

Lemma v2_process_well_formed df :
  well_formed df →
  ∃ out, RateAgentV2.process_rates_data df = Ok out ∧ well_formed out.
Proof.
  intros Hwf. unfold RateAgentV2.process_rates_data, RateAgentV2.req_cols.
  apply bind_well_formed; [stage_well_formed|].
  intros df1 H1. stage_well_formed.
Qed.

Lemma v3_process_well_formed pads df :
  well_formed df →
  ∃ out, RateAgentV3.process_rates_data pads df = Ok out ∧ well_formed out.
Proof.
  intros Hwf. unfold RateAgentV3.process_rates_data, RateAgentV3.req_liq.
  apply bind_well_formed; [stage_well_formed|].
  intros df1 H1. apply bind_well_formed; [stage_well_formed|].
  intros df2 H2. apply bind_well_formed; [stage_well_formed|].
  intros df3 H3. apply bind_well_formed; [stage_well_formed|].
  intros df4 H4. stage_well_formed.
Qed.

Lemma rate_agent_process_total df :
  well_formed df → has_col "US 10Y Yield" df = true →
  ∃ out, RateAgent.process_rates_data df = Ok out ∧ well_formed out.
Proof.
  intros Hwf Hanchor. unfold RateAgent.process_rates_data.
  rewrite <- has_col_ffill in Hanchor.
  destruct (dropna_subset_Ok _ _ Hanchor) as (c & _ & ->).
  cbn [mbind result_bind].
  pose proof (well_formed_select_rows (notna <$> c) _ (well_formed_ffill _ Hwf))
    as Hclean.
  apply bind_well_formed; [stage_well_formed|].
  intros df1 H1. stage_well_formed.
Qed.

Lemma rate_agent_process_well_formed df out :
  well_formed df → RateAgent.process_rates_data df = Ok out →
  well_formed out.
Proof.
  intros Hwf Hout. destruct (has_col "US 10Y Yield" df) eqn:Hanchor.
  - destruct (rate_agent_process_total df Hwf Hanchor) as (out' & Hout' & Hwf').
    congruence.
  - unfold RateAgent.process_rates_data in Hout.
    rewrite dropna_subset_KeyError in Hout; [done|]. by rewrite has_col_ffill.
Qed.

End AlignedTableShape.

(** *** Rows in date order *)

Section DateOrder.
Import Pandas Spec.
Implicit Types (d : date) (idx : list date).

Lemma elem_of_insert_date d idx x :
  x ∈ insert_date d idx ↔ x = d ∨ x ∈ idx.
Proof.
  induction idx as [|d' idx IH]; cbn [insert_date].
  - rewrite list_elem_of_singleton. split; [by left | intros [?|H]; [done|]].
    by apply elem_of_nil in H.
  - destruct (decide (d = d')) as [->|Hne].
    + rewrite elem_of_cons. naive_solver.
    + destruct (decide (d < d')%Z).
      * rewrite !elem_of_cons. naive_solver.
      * rewrite !elem_of_cons, IH. naive_solver.
Qed.

Lemma insert_date_sorted d idx :
  StronglySorted Z.lt idx → StronglySorted Z.lt (insert_date d idx).
Proof.
  induction idx as [|d' idx IH]; cbn [insert_date]; intros Hs.
  - repeat constructor.
  - inversion Hs as [|? ? Hidx Hall]; subst.
    destruct (decide (d = d')) as [->|Hne]; [done|].
    destruct (decide (d < d')%Z) as [Hlt|Hge].
    + constructor; [done|]. constructor; [done|].
      eapply Forall_impl; [exact Hall|]. intros y Hy. simpl in Hy. lia.
    + constructor; [by apply IH|].
      apply Forall_forall. intros y Hy.
      apply elem_of_insert_date in Hy as [->|Hy]; [lia|].
      rewrite Forall_forall in Hall. by apply Hall.
Qed.

Lemma union_index_sorted a b :
  StronglySorted Z.lt a → StronglySorted Z.lt (union_index a b).
Proof.
  intros Ha. unfold union_index. induction b as [|d b IH]; simpl; [done|].
  by apply insert_date_sorted.
Qed.

Lemma elem_of_union_index a b x : x ∈ union_index a b ↔ x ∈ a ∨ x ∈ b.
Proof.
  unfold union_index. induction b as [|d b IH]; simpl.
  - split; [by left | intros [?|H]; [done|]]. by apply elem_of_nil in H.
  - rewrite elem_of_insert_date, IH, elem_of_cons. naive_solver.
Qed.

Lemma concat_index_sorted (l : list (string * Series)) acc :
  StronglySorted Z.lt acc →
  StronglySorted Z.lt
    (foldl (fun acc (kv : string * Series) => union_index acc (s_index kv.2))
           acc l).
Proof.
  revert acc. induction l as [|kv l IH]; intros acc Hacc; simpl; [done|].
  by apply IH, union_index_sorted.
Qed.

Lemma elem_of_concat_index (l : list (string * Series)) acc x :
  x ∈ foldl (fun acc (kv : string * Series) => union_index acc (s_index kv.2))
        acc l
  ↔ x ∈ acc ∨ ∃ kv, kv ∈ l ∧ x ∈ s_index kv.2.
Proof.
  revert acc. induction l as [|kv l IH]; intros acc; simpl.
  - split; [by left | intros [?|(kv & H & _)]; [done|]].
    by apply elem_of_nil in H.
  - rewrite IH, elem_of_union_index. split.
    + intros [[?|?]|(kv' & Hin & Hx)].
      * by left.
      * right. exists kv. split; [apply list_elem_of_here | done].
      * right. exists kv'. split; [by apply list_elem_of_further | done].
    + intros [?|(kv' & Hin & Hx)]; [by left; left|].
      apply elem_of_cons in Hin as [->|Hin]; [by left; right|].
      right. by exists kv'.
Qed.

Lemma select_sorted (mask : list bool) idx :
  StronglySorted Z.lt idx → StronglySorted Z.lt (select mask idx).
Proof.
  revert idx. induction mask as [|b mask IH]; intros [|d idx] Hs;
    try constructor.
  inversion Hs as [|? ? Hidx Hall]; subst. cbn [select].
  destruct b; [|by apply IH].
  constructor; [by apply IH | by apply Forall_select].
Qed.

Lemma elem_of_select {A : Type} (mask : list bool) (l : list A) x :
  x ∈ select mask l → x ∈ l.
Proof.
  revert l. induction mask as [|b mask IH]; intros [|y l] Hx;
    try (by apply elem_of_nil in Hx).
  cbn [select] in Hx. destruct b.
  - apply elem_of_cons in Hx as [->|Hx]; [apply list_elem_of_here|].
    by apply list_elem_of_further, IH.
  - by apply list_elem_of_further, IH.
Qed.

End DateOrder.

Section AlignedTableTheorems.
Import Pandas Spec.

Lemma merge_and_fill_invariants (l : list (string * Series)) raw :
  dropna_subset "US 10Y Yield" (ffill (concat_axis1 l)) = Ok raw →
  well_formed raw
  ∧ StronglySorted Z.lt (index raw)
  ∧ (∀ d, d ∈ index raw → ∃ kv, kv ∈ l ∧ d ∈ s_index kv.2)
  ∧ (∀ a, lookup_col "US 10Y Yield" (columns raw) = Some a → Forall observed a)
  ∧ (∀ name c, lookup_col name (columns raw) = Some c → gap_free c).
Proof.
  unfold dropna_subset.
  destruct (lookup_col "US 10Y Yield" (columns (ffill (concat_axis1 l))))
    as [a|] eqn:Ha; [|done].
  intros [= <-]. split; [|split; [|split; [|split]]].
  - apply well_formed_select_rows, well_formed_ffill, well_formed_concat_axis1.
  - cbn [select_rows index ffill concat_axis1].
    apply select_sorted, concat_index_sorted. constructor.
  - cbn [select_rows index ffill concat_axis1]. intros d Hd.
    apply elem_of_select, elem_of_concat_index in Hd as [Hd|Hd]; [|done].
    by apply elem_of_nil in Hd.
  - intros a'. cbn [select_rows columns]. rewrite lookup_col_fmap, Ha.
    intros [= <-]. apply select_notna_observed.
  - intros name c. cbn [select_rows columns]. rewrite lookup_col_fmap.
    rewrite lookup_col_ffill.
    destruct (lookup_col name (columns (concat_axis1 l))) as [c0|]; [|done].
    intros [= <-]. apply no_gap_gap_free, no_gap_select, no_gap_ffill_from.
Qed.

Lemma fetch_all_v2_sources (get_series : string → date → result Series)
    (start : date) (tickers : list (string * string)) acc warns kv :
  kv ∈ (foldl
          (fun (acc : list (string * Series) * list string)
               (t : string * string) =>
             match get_series t.1 start with
             | Ok series => (acc.1 ++ [(t.2, series)], acc.2)
             | Raise _ => (acc.1, acc.2 ++ [t.2])
             end)
          (acc, warns) tickers).1 →
  kv ∈ acc ∨ ∃ code, (code, kv.1) ∈ tickers ∧ get_series code start = Ok kv.2.
Proof.
  revert acc warns. induction tickers as [|[code name] ts IH];
    intros acc warns Hin; cbn [foldl] in Hin; [by left|].
  cbn [fst snd] in Hin.
  destruct (get_series code start) as [s|e] eqn:E.
  - apply IH in Hin as [Hin|(c & Hc & Hs)].
    + cbn [fst] in Hin. apply elem_of_app in Hin as [Hin|Hin]; [by left|].
      apply list_elem_of_singleton in Hin as ->. right. exists code.
      split; [apply list_elem_of_here | done].
    + right. exists c. split; [by apply list_elem_of_further | done].
  - apply IH in Hin as [Hin|(c & Hc & Hs)]; [by left|].
    right. exists c. split; [by apply list_elem_of_further | done].
Qed.

Lemma fetch_all_v3_sources (get_series : string → date → result Series)
    (start : date) (tickers : list (string * string)) acc kv :
  kv ∈ foldl
         (fun (acc : list (string * Series)) (t : string * string) =>
            match get_series t.1 start with
            | Ok series => acc ++ [(t.2, series)]
            | Raise _ => acc
            end)
         acc tickers →
  kv ∈ acc ∨ ∃ code, (code, kv.1) ∈ tickers ∧ get_series code start = Ok kv.2.
Proof.
  revert acc. induction tickers as [|[code name] ts IH];
    intros acc Hin; cbn [foldl] in Hin; [by left|].
  cbn [fst snd] in Hin.
  destruct (get_series code start) as [s|e] eqn:E.
  - apply IH in Hin as [Hin|(c & Hc & Hs)].
    + apply elem_of_app in Hin as [Hin|Hin]; [by left|].
      apply list_elem_of_singleton in Hin as ->. right. exists code.
      split; [apply list_elem_of_here | done].
    + right. exists c. split; [by apply list_elem_of_further | done].
  - apply IH in Hin as [Hin|(c & Hc & Hs)]; [by left|].
    right. exists c. split; [by apply list_elem_of_further | done].
Qed.

(** The table that [get_rates_data] of [rate_agent_v2.py] or
    [rate_agent_v3.py] returns has one cell per row in every column; its
    rows are in strictly increasing date order, and each date is a date of
    some series that was fetched. *)
Theorem aligned_table_shape (get_series : string → date → result Series)
    (now : date) (years : Z) (raw : DataFrame) :
  RateAgentV2.get_rates_data get_series now years = Ok raw
  ∨ RateAgentV3.get_rates_data get_series now years = Ok raw →
  well_formed raw
  ∧ StronglySorted Z.lt (index raw)
  ∧ (∀ d, d ∈ index raw →
       ∃ code s, get_series code (now - 365 * years)%Z = Ok s
                 ∧ d ∈ s_index s).
Proof.
  intros [Hraw|Hraw].
  - unfold RateAgentV2.get_rates_data in Hraw. cbv zeta in Hraw.
    destruct (RateAgentV2.fetch_all get_series _).1 as [|kv0 l] eqn:E.
    + injection Hraw as <-. split; [constructor|]. split; [constructor|].
      intros d Hd. by apply elem_of_nil in Hd.
    + unfold RateAgentV2.merge_and_fill in Hraw.
      destruct (merge_and_fill_invariants _ _ Hraw) as (Hwf & Hs & Hd & _).
      split; [done|]. split; [done|]. intros d Hin.
      destruct (Hd d Hin) as (kv & Hkv & Hdate).
      rewrite <- E in Hkv. unfold RateAgentV2.fetch_all in Hkv.
      apply fetch_all_v2_sources in Hkv as [Hkv|(code & _ & Hs')];
        [by apply elem_of_nil in Hkv|].
      by exists code, kv.2.
  - unfold RateAgentV3.get_rates_data in Hraw. cbv zeta in Hraw.
    destruct (RateAgentV3.fetch_all get_series _) as [|kv0 l] eqn:E.
    + injection Hraw as <-. split; [constructor|]. split; [constructor|].
      intros d Hd. by apply elem_of_nil in Hd.
    + unfold RateAgentV3.merge_and_fill in Hraw.
      destruct (merge_and_fill_invariants _ _ Hraw) as (Hwf & Hs & Hd & _).
      split; [done|]. split; [done|]. intros d Hin.
      destruct (Hd d Hin) as (kv & Hkv & Hdate).
      rewrite <- E in Hkv. unfold RateAgentV3.fetch_all in Hkv.
      apply fetch_all_v3_sources in Hkv as [Hkv|(code & _ & Hs')];
        [by apply elem_of_nil in Hkv|].
      by exists code, kv.2.
Qed.

(** In that table the anchor column ['US 10Y Yield'] has no missing cell,
    and no column has a gap: a row that holds a value is followed by rows
    that hold values only. *)
Theorem aligned_table_observed (get_series : string → date → result Series)
    (now : date) (years : Z) (raw : DataFrame) :
  RateAgentV2.get_rates_data get_series now years = Ok raw
  ∨ RateAgentV3.get_rates_data get_series now years = Ok raw →
  (∀ a, lookup_col "US 10Y Yield" (columns raw) = Some a → Forall observed a)
  ∧ (∀ name c, lookup_col name (columns raw) = Some c → gap_free c).
Proof.
  intros [Hraw|Hraw].
  - unfold RateAgentV2.get_rates_data in Hraw. cbv zeta in Hraw.
    destruct (RateAgentV2.fetch_all get_series _).1 as [|kv0 l] eqn:E.
    + injection Hraw as <-. split; intros; done.
    + unfold RateAgentV2.merge_and_fill in Hraw.
      by destruct (merge_and_fill_invariants _ _ Hraw) as (_ & _ & _ & ? & ?).
  - unfold RateAgentV3.get_rates_data in Hraw. cbv zeta in Hraw.
    destruct (RateAgentV3.fetch_all get_series _) as [|kv0 l] eqn:E.
    + injection Hraw as <-. split; intros; done.
    + unfold RateAgentV3.merge_and_fill in Hraw.
      by destruct (merge_and_fill_invariants _ _ Hraw) as (_ & _ & _ & ? & ?).
Qed.

Lemma sample_source_table :
  ∃ raw, RateAgentV2.get_rates_data sample_source 20000%Z 5 = Ok raw.
Proof. eexists. vm_compute. reflexivity. Qed.

Lemma aligned_table_shape_witness :
  ∃ raw, RateAgentV2.get_rates_data sample_source 20000%Z 5 = Ok raw
    ∧ well_formed raw ∧ StronglySorted Z.lt (index raw).
Proof.
  destruct sample_source_table as (raw & Hraw).
  exists raw. split; [exact Hraw|].
  destruct (aligned_table_shape sample_source 20000%Z 5 raw (or_introl Hraw))
    as (Hwf & Hsorted & _).
  split; [exact Hwf | exact Hsorted].
Defined.

Lemma aligned_table_observed_witness :
  ∃ raw, RateAgentV2.get_rates_data sample_source 20000%Z 5 = Ok raw
    ∧ ∀ name c, lookup_col name (columns raw) = Some c → gap_free c.
Proof.
  destruct sample_source_table as (raw & Hraw).
  exists raw. split; [exact Hraw|].
  exact (proj2 (aligned_table_observed sample_source 20000%Z 5 raw
                  (or_introl Hraw))).
Defined.

End AlignedTableTheorems.

(** ** The derivation step keeps the shape of the table *)

Section DerivationShape.
Import Pandas Spec.

(** [process_rates_data] keeps one cell per row in every column, the
    derived ones included. In [rate_agent_v2.py] and [rate_agent_v3.py] it
    always returns; in [rate_agent.py] it returns when the table has the
    anchor column and raises [KeyError] otherwise. *)
Theorem derivation_keeps_shape (pads : bool) (df : DataFrame) :
  well_formed df →
  (∃ out, RateAgentV2.process_rates_data df = Ok out ∧ well_formed out)
  ∧ (∃ out, RateAgentV3.process_rates_data pads df = Ok out ∧ well_formed out)
  ∧ (has_col "US 10Y Yield" df = true →
     ∃ out, RateAgent.process_rates_data df = Ok out ∧ well_formed out)
  ∧ (has_col "US 10Y Yield" df = false →
     RateAgent.process_rates_data df = Raise (KeyError "US 10Y Yield")).
Proof.
  intros Hwf. split; [|split; [|split]].
  - by apply v2_process_well_formed.
  - by apply v3_process_well_formed.
  - by apply rate_agent_process_total.
  - intros Hanchor. unfold RateAgent.process_rates_data.
    rewrite dropna_subset_KeyError; [done|]. by rewrite has_col_ffill.
Qed.

Lemma derivation_keeps_shape_witness :
  ∃ out, RateAgent.process_rates_data gap_table = Ok out ∧ well_formed out.
Proof.
  assert (well_formed gap_table) as Hwf by (repeat constructor).
  exact (proj1 (proj2 (proj2 (derivation_keeps_shape true gap_table Hwf)))
           eq_refl).
Defined.

End DerivationShape.

(** ** When a render cycle of the rate dashboards succeeds *)

Section RenderCycle.
Import Pandas Spec.

Lemma iloc_neg_Ok {A : Type} (l : list A) k :
  1 ≤ k → k ≤ length l → ∃ x, iloc_neg l k = Ok x.
Proof.
  intros Hk Hlen. unfold iloc_neg.
  destruct (lookup_lt_is_Some_2 (rev l) (pred k)) as [x Hx].
  - rewrite length_rev. lia.
  - exists x. by rewrite Hx.
Qed.

Lemma iloc_neg_IndexError {A : Type} (l : list A) k :
  length l < k → iloc_neg l k = Raise IndexError.
Proof.
  intros Hlen. unfold iloc_neg.
  rewrite (proj2 (lookup_ge_None (rev l) (pred k))); [done|].
  rewrite length_rev. lia.
Qed.

Lemma iloc_row_Ok df k :
  1 ≤ k → k ≤ length (index df) → ∃ r, iloc_row df k = Ok r.
Proof.
  intros Hk Hlen. unfold iloc_row.
  destruct (iloc_neg_Ok (index df) k Hk Hlen) as [x ->].
  cbn [mbind mret result_bind result_ret]. by eexists.
Qed.

Lemma iloc_row_IndexError df k :
  length (index df) < k → iloc_row df k = Raise IndexError.
Proof.
  intros Hlen. unfold iloc_row. by rewrite iloc_neg_IndexError.
Qed.

Lemma empty_iff df :
  columns df ≠ [] → empty df = true ↔ length (index df) = 0.
Proof.
  intros Hc. unfold empty. destruct (index df), (columns df); simpl;
    split; (done || lia).
Qed.

Lemma v2_has_net_liquidity df out :
  RateAgentV2.process_rates_data df = Ok out → columns out ≠ [].
Proof.
  intros Hout Hnil.
  assert (lookup_col "Net Liquidity" (columns out) = None) as Hnone
    by (by rewrite Hnil).
  revert Hout Hnone.
  unfold RateAgentV2.process_rates_data, RateAgentV2.req_cols, setitem_scalar.
  cbn [forallb]. case_has_col; intros [= <-]; close_by_lookups.
Qed.

Lemma v3_has_net_liquidity pads df out :
  RateAgentV3.process_rates_data pads df = Ok out → columns out ≠ [].
Proof.
  intros Hout Hnil.
  assert (lookup_col "Net Liquidity" (columns out) = None) as Hnone
    by (by rewrite Hnil).
  revert Hout Hnone.
  unfold RateAgentV3.process_rates_data, RateAgentV3.req_liq, setitem_scalar.
  cbn [forallb]. case_has_col; intros [= <-]; close_by_lookups.
Qed.

Lemma v2_render_by_rows get_series now years raw :
  RateAgentV2.get_rates_data get_series now years = Ok raw →
  (length (index raw) = 0 →
   RateAgentV2.run get_series now years = Failed (Stop "no data"))
  ∧ (0 < length (index raw) < 7 →
     RateAgentV2.run get_series now years = Failed IndexError)
  ∧ (7 ≤ length (index raw) →
     ∃ d, RateAgentV2.run get_series now years = Presented d
          ∧ RateAgentV2.process_rates_data raw = Ok (RateAgentV2.d_table d)).
Proof.
  intros Hraw. unfold RateAgentV2.run, RateAgentV2.main. rewrite Hraw.
  cbn [mbind result_bind].
  destruct (process_rates_data_v2_extends raw) as (out & Hout & Hi & _).
  rewrite Hout. cbn [mbind result_bind].
  pose proof (empty_iff out (v2_has_net_liquidity _ _ Hout)) as Hempty.
  rewrite Hi in Hempty. split; [|split].
  - intros Hn. by rewrite (proj2 Hempty Hn).
  - intros Hn. assert (empty out = false) as ->
      by (apply not_true_iff_false; rewrite Hempty; lia).
    destruct (iloc_row_Ok out 1) as [latest ->]; [lia | rewrite Hi; lia|].
    cbn [mbind result_bind].
    rewrite iloc_row_IndexError by (rewrite Hi; lia). done.
  - intros Hn. assert (empty out = false) as ->
      by (apply not_true_iff_false; rewrite Hempty; lia).
    destruct (iloc_row_Ok out 1) as [latest ->]; [lia | rewrite Hi; lia|].
    destruct (iloc_row_Ok out 7) as [prev ->]; [lia | rewrite Hi; lia|].
    cbn [mbind mret result_bind result_ret render_cycle].
    eexists. split; [reflexivity|]. done.
Qed.

Lemma v3_render_by_rows get_series now pads years raw :
  RateAgentV3.get_rates_data get_series now years = Ok raw →
  (length (index raw) = 0 →
   RateAgentV3.run get_series now pads years = Failed (Stop "no data"))
  ∧ (0 < length (index raw) < 7 →
     RateAgentV3.run get_series now pads years = Failed IndexError)
  ∧ (7 ≤ length (index raw) →
     ∃ d, RateAgentV3.run get_series now pads years = Presented d
          ∧ RateAgentV3.process_rates_data pads raw
            = Ok (RateAgentV3.d_table d)).
Proof.
  intros Hraw. unfold RateAgentV3.run, RateAgentV3.main. rewrite Hraw.
  cbn [mbind result_bind].
  destruct (process_rates_data_v3_extends pads raw) as (out & Hout & Hi & _).
  rewrite Hout. cbn [mbind result_bind].
  pose proof (empty_iff out (v3_has_net_liquidity _ _ _ Hout)) as Hempty.
  rewrite Hi in Hempty. split; [|split].
  - intros Hn. by rewrite (proj2 Hempty Hn).
  - intros Hn. assert (empty out = false) as ->
      by (apply not_true_iff_false; rewrite Hempty; lia).
    destruct (iloc_row_Ok out 1) as [latest ->]; [lia | rewrite Hi; lia|].
    cbn [mbind result_bind].
    rewrite iloc_row_IndexError by (rewrite Hi; lia). done.
  - intros Hn. assert (empty out = false) as ->
      by (apply not_true_iff_false; rewrite Hempty; lia).
    destruct (iloc_row_Ok out 1) as [latest ->]; [lia | rewrite Hi; lia|].
    destruct (iloc_row_Ok out 7) as [prev ->]; [lia | rewrite Hi; lia|].
    cbn [mbind mret result_bind result_ret render_cycle].
    eexists. split; [reflexivity|]. done.
Qed.

(** A render cycle of [rate_agent_v2.py] or [rate_agent_v3.py] whose fetch
    step returns a table: with no row it stops on the empty table; with one
    to six rows it fails with [IndexError], since the row seven from the
    end is read; with seven rows or more it hands on the derived table. *)
Theorem rate_render_needs_seven_rows
    (get_series : string → date → result Series) (now : date) (years : Z)
    (pads : bool) (raw : DataFrame) :
  (RateAgentV2.get_rates_data get_series now years = Ok raw →
   (length (index raw) = 0 →
    RateAgentV2.run get_series now years = Failed (Stop "no data"))
   ∧ (0 < length (index raw) < 7 →
      RateAgentV2.run get_series now years = Failed IndexError)
   ∧ (7 ≤ length (index raw) →
      ∃ d, RateAgentV2.run get_series now years = Presented d
           ∧ RateAgentV2.process_rates_data raw = Ok (RateAgentV2.d_table d)))
  ∧ (RateAgentV3.get_rates_data get_series now years = Ok raw →
     (length (index raw) = 0 →
      RateAgentV3.run get_series now pads years = Failed (Stop "no data"))
     ∧ (0 < length (index raw) < 7 →
        RateAgentV3.run get_series now pads years = Failed IndexError)
     ∧ (7 ≤ length (index raw) →
        ∃ d, RateAgentV3.run get_series now pads years = Presented d
             ∧ RateAgentV3.process_rates_data pads raw
               = Ok (RateAgentV3.d_table d))).
Proof.
  split; intros Hraw.
  - by apply v2_render_by_rows.
  - by apply v3_render_by_rows.
Qed.

Lemma rate_render_needs_seven_rows_witness :
  RateAgentV2.run sample_source 20000%Z 5 = Failed IndexError
  ∧ ∃ d, RateAgentV2.run week_source 20000%Z 5 = Presented d.
Proof.
  split.
  - destruct sample_source_table as (raw & Hraw).
    apply (proj1 (proj2 (proj1 (rate_render_needs_seven_rows sample_source
                                  20000%Z 5 true raw) Hraw))).
    revert Hraw. vm_compute. intros [= <-]. simpl. lia.
  - assert (∃ raw, RateAgentV2.get_rates_data week_source 20000%Z 5 = Ok raw)
      as (raw & Hraw) by (eexists; vm_compute; reflexivity).
    destruct (proj2 (proj2 (proj1 (rate_render_needs_seven_rows week_source
                                     20000%Z 5 true raw) Hraw)))
      as (d & Hd & _).
    + revert Hraw. vm_compute. intros [= <-]. simpl. lia.
    + by exists d.
Defined.

End RenderCycle.

(** ** The dates of the macro table *)

Section MacroTableDates.
Import Pandas Spec.
Variable get_series : string → date → result Series.
Variable start : date.

Lemma setitem_series_on_rows df name s :
  index df ≠ [] →
  setitem_series df name s
  = setitem df name (aligned_to (index df) s).
Proof.
  intros Hidx. unfold setitem_series, aligned_to.
  destruct (index df) as [|d idx] eqn:E; [done|].
  destruct (s_index s); by rewrite ?E.
Qed.

(** Once the frame has rows, the fetch loop of the CPI scripts keeps its
    index; a fetched series ends up as a column aligned to it. *)
Lemma macro_loop_on_index (ts : list (string * string)) df errs :
  index df ≠ [] →
  NoDup (ts.*2) →
  let out :=
    foldl
      (fun (acc : DataFrame * list string) (t : string * string) =>
         match get_series t.1 start with
         | Ok series => (setitem_series acc.1 t.2 series, acc.2)
         | Raise _ => (acc.1, acc.2 ++ [t.2])
         end)
      (df, errs) ts in
  index out.1 = index df
  ∧ (∀ code name s, (code, name) ∈ ts → get_series code start = Ok s →
       lookup_col name (columns out.1) = Some (aligned_to (index df) s))
  ∧ (∀ name, name ∉ ts.*2 →
       lookup_col name (columns out.1) = lookup_col name (columns df)).
Proof.
  revert df errs. induction ts as [|[code name] ts IH]; intros df errs Hidx Hnd.
  - cbn [foldl fst]. split; [done|]. split; [|done].
    intros c n s Hin. by apply elem_of_nil in Hin.
  - rewrite fmap_cons in Hnd. apply NoDup_cons in Hnd as [Hname Hnd].
    cbn [snd] in Hname. cbn [foldl fst snd].
    destruct (get_series code start) as [series|e] eqn:E.
    + rewrite setitem_series_on_rows by done.
      destruct (IH (setitem df name (aligned_to (index df) series)) errs)
        as (Hi & Hfetched & Hother); [done | done |].
      cbn [setitem index columns] in Hi, Hfetched, Hother.
      split; [done|]. split.
      * intros c n s Hin Hs.
        apply elem_of_cons in Hin as [[= -> ->]|Hin].
        -- rewrite Hother by done. rewrite lookup_assign_eq. congruence.
        -- by apply (Hfetched c).
      * intros n Hn. rewrite fmap_cons in Hn.
        apply not_elem_of_cons in Hn as [Hne Hn]. cbn [snd] in Hne.
        rewrite Hother by done. by rewrite lookup_assign_ne.
    + destruct (IH df (errs ++ [name])) as (Hi & Hfetched & Hother);
        [done | done |].
      split; [done|]. split.
      * intros c n s Hin Hs.
        apply elem_of_cons in Hin as [[= -> ->]|Hin]; [congruence|].
        by apply (Hfetched c).
      * intros n Hn. rewrite fmap_cons in Hn.
        apply not_elem_of_cons in Hn as [_ Hn]. by apply Hother.
Qed.

(** The loop started on the empty frame, when the first ticker is
    delivered with at least one observation. *)
Lemma macro_loop_first_series (code0 name0 : string)
    (ts : list (string * string)) (s0 : Series) :
  get_series code0 start = Ok s0 → s_index s0 ≠ [] →
  NoDup (((code0, name0) :: ts).*2) →
  let out :=
    foldl
      (fun (acc : DataFrame * list string) (t : string * string) =>
         match get_series t.1 start with
         | Ok series => (setitem_series acc.1 t.2 series, acc.2)
         | Raise _ => (acc.1, acc.2 ++ [t.2])
         end)
      (empty_frame, []) ((code0, name0) :: ts) in
  index out.1 = s_index s0
  ∧ (∀ code name s, (code, name) ∈ (code0, name0) :: ts →
       get_series code start = Ok s →
       lookup_col name (columns out.1) = Some (aligned_to (s_index s0) s)).
Proof.
  intros Hs0 Hrows Hnd. cbn [foldl fst snd]. rewrite Hs0.
  rewrite fmap_cons in Hnd. apply NoDup_cons in Hnd as [Hname Hnd].
  cbn [snd] in Hname.
  assert (setitem_series empty_frame name0 s0
          = mkDataFrame (s_index s0) [(name0, s_values s0)]) as ->.
  { unfold setitem_series, empty_frame, setitem. cbn [index columns].
    destruct (s_index s0) as [|d idx] eqn:E; [done|].
    cbn [index columns fmap list_fmap assign_col]. by rewrite decide_True. }
  destruct (macro_loop_on_index ts
              (mkDataFrame (s_index s0) [(name0, s_values s0)]) [])
    as (Hi & Hfetched & Hother); [done | done |].
  cbn [index columns] in Hi, Hfetched, Hother.
  split; [done|].
  intros code name s Hin Hs.
  apply elem_of_cons in Hin as [[= -> ->]|Hin]; [|by apply (Hfetched code)].
  rewrite Hother by done. cbn [lookup_col]. rewrite decide_True by done.
  unfold aligned_to. rewrite Hs0 in Hs. injection Hs as <-.
  by rewrite decide_True.
Qed.

Lemma reindex_lookup idx s i d :
  idx !! i = Some d →
  reindex idx s !! i
  = Some (default nan (lookup_date d (s_index s) (s_values s))).
Proof. intros Hd. unfold reindex. by rewrite list_lookup_fmap, Hd. Qed.

End MacroTableDates.

Section MacroTableDatesTheorem.
Import Pandas Spec.

(** The table of [get_macro_data], in both CPI scripts, when the headline
    CPI series arrives with at least one observation: its rows are the
    dates of that series, and every series that arrives is the column of
    its display name, as it is when it has these very dates and reindexed
    to them otherwise, so that a row holds its observation of that date
    or NaN and its observations at other dates are not in the table. *)
Theorem macro_table_dates (get_series : string → date → result Series)
    (now : date) (start : date) (tickers : list (string * string))
    (df : DataFrame) (cpi : Series) :
  (start = (now - 365 * 5)%Z ∧ tickers = CpiAgent.tickers
   ∧ df = (CpiAgent.get_macro_data get_series now).1)
  ∨ (start = (now - 365 * 6)%Z ∧ tickers = CpiAgentV21.tickers
     ∧ df = (CpiAgentV21.get_macro_data get_series now).1) →
  get_series "CPIAUCSL" start = Ok cpi →
  s_index cpi ≠ [] →
  index df = s_index cpi
  ∧ lookup_col "CPI (Headline)" (columns df) = Some (s_values cpi)
  ∧ ∀ code name s, (code, name) ∈ tickers → get_series code start = Ok s →
      ∃ c, lookup_col name (columns df) = Some c
        ∧ (s_index s = s_index cpi → c = s_values s)
        ∧ (s_index s ≠ s_index cpi →
           ∀ i d, s_index cpi !! i = Some d →
             c !! i
             = Some (default nan (lookup_date d (s_index s) (s_values s)))).
Proof.
  intros Hscript Hcpi Hrows.
  assert (index df = s_index cpi
          ∧ ∀ code name s, (code, name) ∈ tickers →
              get_series code start = Ok s →
              lookup_col name (columns df)
              = Some (aligned_to (s_index cpi) s)) as [Hi Hfetched].
  { destruct Hscript as [(-> & -> & ->)|(-> & -> & ->)].
    - apply (macro_loop_first_series get_series _ "CPIAUCSL" "CPI (Headline)"
               (tail CpiAgent.tickers) cpi Hcpi Hrows).
      apply (bool_decide_unpack _). by vm_compute.
    - apply (macro_loop_first_series get_series _ "CPIAUCSL" "CPI (Headline)"
               (tail CpiAgentV21.tickers) cpi Hcpi Hrows).
      apply (bool_decide_unpack _). by vm_compute. }
  split; [done|]. split.
  - rewrite (Hfetched "CPIAUCSL" "CPI (Headline)" cpi); [| |done].
    + unfold aligned_to. by rewrite decide_True.
    + destruct Hscript as [(_ & -> & _)|(_ & -> & _)]; apply list_elem_of_here.
  - intros code name s Hin Hs. exists (aligned_to (s_index cpi) s).
    split; [by apply (Hfetched code)|]. unfold aligned_to. split.
    + intros Heq. by rewrite decide_True.
    + intros Hne i d Hd. rewrite decide_False by done.
      by apply reindex_lookup.
Qed.

Lemma macro_table_dates_witness :
  index (CpiAgentV21.get_macro_data sample_source 20000%Z).1
  = [19000%Z; 19031%Z]
  ∧ ∃ c, lookup_col "CPI (Core)"
           (columns (CpiAgentV21.get_macro_data sample_source 20000%Z).1)
         = Some c
      ∧ c !! 1 = Some nan.
Proof.
  destruct (macro_table_dates sample_source 20000%Z (20000 - 365 * 6)%Z
              CpiAgentV21.tickers
              (CpiAgentV21.get_macro_data sample_source 20000%Z).1
              (mkSeries [19000%Z; 19031%Z] [300; 301]%float))
    as (Hi & _ & Hfetched).
  - right. done.
  - reflexivity.
  - done.
  - split; [exact Hi|].
    destruct (Hfetched "CPILFESL" "CPI (Core)" (mkSeries [19000%Z] [1%float]))
      as (c & Hc & _ & Hcell).
    + apply list_elem_of_further, list_elem_of_here.
    + reflexivity.
    + exists c. split; [exact Hc|].
      rewrite (Hcell ltac:(done) 1 19031%Z eq_refl). reflexivity.
Defined.

End MacroTableDatesTheorem.

(** ** The simulator on a short history *)

Section SimulatorEdges.
Import Pandas Spec.
Implicit Types (history : list float) (rate last : float) (i n : nat).

(** [iloc[-13:-7]] of a history of fewer than 13 rows starts at the first
    row: the rows but the last seven. *)
Lemma iloc_slice_short history n :
  length history = n → n < 13 →
  iloc_slice_neg history 13 7 = take (n - 7) history.
Proof.
  intros Hlen Hn. unfold iloc_slice_neg. rewrite Hlen.
  by replace (n - 13) with 0 by lia.
Qed.

Lemma simulate_few_rows rate raw_df history n last :
  lookup_col "CPI (Headline)" (columns raw_df) = Some history →
  length history = n → 0 < n < 13 →
  history !! (n - 1) = Some last →
  ∃ out, CpiAgentV21.simulate rate raw_df = Ok out
    ∧ CpiAgent.simulate rate raw_df = Ok out
    ∧ length out = 6
    ∧ (∀ i b, i < 6 → i + 7 < n → history !! i = Some b →
         out !! i = Some (yoy_against (projected_level last rate i) b))
    ∧ (∀ i, i < 6 → n ≤ i + 7 → out !! i = Some nan).
Proof.
  intros Hc Hlen Hn Hlast.
  unfold CpiAgentV21.simulate, CpiAgent.simulate.
  rewrite (getitem_Ok _ _ _ Hc). cbn [mbind result_bind].
  rewrite (iloc_neg_1 history (n - 1) last) by (done || lia).
  cbn [mbind mret result_bind result_ret].
  eexists. split; [reflexivity|]. split; [reflexivity|].
  split; [apply length_simulate_loop|].
  change (13 - CpiAgentV21.months_predict) with 7.
  rewrite (iloc_slice_short history n) by (done || lia).
  split.
  - intros i b Hi Hrow Hb. rewrite simulate_loop_lookup by done.
    cbn [Nat.add]. rewrite lookup_take_lt by lia. by rewrite Hb.
  - intros i Hi Hrow. rewrite simulate_loop_lookup by done.
    cbn [Nat.add]. rewrite lookup_take_ge by lia. done.
Qed.

(** The simulators of both CPI scripts outside the case of 13 rows or
    more. Without the headline column they raise [KeyError]; on a column
    without rows [IndexError], from [iloc[-1]]. On 1 to 12 rows they
    return six figures: [iloc[-13:-7]] then starts at the first row, so
    figure [i] is taken against row [i] of the history while [i + 7] is
    below the number of rows, and is NaN from there on; up to seven rows
    all six figures are NaN. *)
Theorem simulate_below_thirteen_rows (rate : float) (raw_df : DataFrame) :
  (lookup_col "CPI (Headline)" (columns raw_df) = None →
   CpiAgentV21.simulate rate raw_df = Raise (KeyError "CPI (Headline)")
   ∧ CpiAgent.simulate rate raw_df = Raise (KeyError "CPI (Headline)"))
  ∧ (lookup_col "CPI (Headline)" (columns raw_df) = Some [] →
     CpiAgentV21.simulate rate raw_df = Raise IndexError
     ∧ CpiAgent.simulate rate raw_df = Raise IndexError)
  ∧ (∀ history n last,
       lookup_col "CPI (Headline)" (columns raw_df) = Some history →
       length history = n → 0 < n < 13 →
       history !! (n - 1) = Some last →
       ∃ out, CpiAgentV21.simulate rate raw_df = Ok out
         ∧ CpiAgent.simulate rate raw_df = Ok out
         ∧ length out = 6
         ∧ (∀ i b, i < 6 → i + 7 < n → history !! i = Some b →
              out !! i = Some (yoy_against (projected_level last rate i) b))
         ∧ (∀ i, i < 6 → n ≤ i + 7 → out !! i = Some nan)
         ∧ (n ≤ 7 → out = replicate 6 nan)).
Proof.
  split; [|split].
  - intros Hc. unfold CpiAgentV21.simulate, CpiAgent.simulate, getitem.
    by rewrite Hc.
  - intros Hc. unfold CpiAgentV21.simulate, CpiAgent.simulate.
    by rewrite (getitem_Ok _ _ _ Hc).
  - intros history n last Hc Hlen Hn Hlast.
    destruct (simulate_few_rows rate raw_df history n last Hc Hlen Hn Hlast)
      as (out & H21 & H1 & Hout & Hhead & Htail).
    exists out. repeat (split; [done|]).
    intros Hseven. apply list_eq. intros i.
    destruct (decide (i < 6)) as [Hi|Hi].
    + rewrite Htail by lia. symmetry. by apply lookup_replicate_2.
    + rewrite !(proj2 (lookup_ge_None _ _));
        [done | rewrite length_replicate; lia | lia].
Qed.

Lemma simulate_below_thirteen_rows_witness :
  CpiAgent.simulate 0.002 ppi_gap_table = Ok (replicate 6 nan)
  ∧ ∃ out, CpiAgentV21.simulate 0.002 history12 = Ok out
      ∧ out !! 0 = Some (yoy_against (projected_level 311 0.002 0) 300)
      ∧ out !! 5 = Some nan.
Proof.
  split.
  - destruct (proj2 (proj2 (simulate_below_thirteen_rows 0.002 ppi_gap_table))
                [300; 301]%float 2 301%float eq_refl eq_refl
                ltac:(lia) eq_refl)
      as (out & _ & H1 & _ & _ & _ & Hnan).
    rewrite H1. f_equal. apply Hnan. lia.
  - destruct (proj2 (proj2 (simulate_below_thirteen_rows 0.002 history12))
                [300; 301; 302; 303; 304; 305; 306; 307; 308; 309; 310;
                 311]%float 12 311%float eq_refl eq_refl ltac:(lia) eq_refl)
      as (out & H21 & _ & _ & Hhead & Htail & _).
    exists out. split; [exact H21|]. split.
    + apply (Hhead 0); [lia | lia | reflexivity].
    + apply (Htail 5); lia.
Defined.

End SimulatorEdges.

(** ** A year-over-year figure needs a year of history *)

Section YoYHead.
Import Pandas Spec.
Local Open Scope float_scope.
Implicit Types (c : list float) (i n : nat) (x : float).

Lemma div_nan_r x : x / nan = nan.
Proof.
  apply Prim2SF_inj. rewrite div_spec.
  change (Prim2SF nan) with S754_nan.
  unfold SF64div, SFdiv. by destruct (Prim2SF x).
Qed.

Lemma sub_nan_l x : nan - x = nan.
Proof.
  apply Prim2SF_inj. rewrite sub_spec.
  change (Prim2SF nan) with S754_nan. reflexivity.
Qed.

Lemma pct_change_head pads n c i :
  (i < n)%nat → (i < length c)%nat → pct_change pads n c !! i = Some nan.
Proof.
  intros Hn Hi. unfold pct_change, sub_scalar, div_col.
  set (data := if pads then ffill_col c else c).
  assert (length data = length c) as Hlen.
  { unfold data, ffill_col. destruct pads; [apply length_ffill_from | done]. }
  destruct (lookup_lt_is_Some_2 data i) as [x Hx]; [lia|].
  rewrite list_lookup_fmap, lookup_zip_with, Hx.
  rewrite shift_lookup_head by lia. simpl.
  by rewrite div_nan_r.
Qed.

Lemma yoy_col_head pads n c i :
  (i < n)%nat → (i < length c)%nat → yoy_col pads n c !! i = Some nan.
Proof.
  intros Hn Hi. unfold yoy_col, mul_scalar.
  by rewrite list_lookup_fmap, pct_change_head.
Qed.

(** The first twelve rows of a year-over-year column hold no figure: in
    the derived table of both CPI scripts, row [i < 12] of the column of
    an index series is NaN, whatever the series holds, and so is the
    profit spread of [cpi_agent_v2.1.py] there; in [cpi_agent.py] the
    first row of the month-over-month column is NaN as well. The supercore
    year-over-year column of [rate_agent_v3.py], a change over 252 rows,
    is NaN in its first 252 rows. *)
Theorem yoy_needs_history (pads : bool) (df : DataFrame) (col : string)
    (c : list float) (i : nat) :
  lookup_col col (columns df) = Some c →
  (i < length c)%nat →
  (col ∈ CpiAgentV21.index_cols → (i < 12)%nat →
   ∃ out, CpiAgentV21.process_data pads df = Ok (df, out)
     ∧ (lookup_col col (columns out) ≫= (.!! i)) = Some nan
     ∧ (∀ ppi, col = "CPI (Headline)" →
          lookup_col "PPI (Final Demand)" (columns df) = Some ppi →
          (i < length ppi)%nat →
          (lookup_col "Profit Spread" (columns out) ≫= (.!! i)) = Some nan))
  ∧ (col ∉ ["Sticky CPI"; "US_10Y_Yield"] → (i < 12)%nat →
     ∃ yoy mom, CpiAgent.process_data pads df = Ok (df, yoy, mom)
       ∧ (lookup_col col (columns yoy) ≫= (.!! i)) = Some nan
       ∧ (i = 0%nat →
          (lookup_col col (columns mom) ≫= (.!! i)) = Some nan))
  ∧ (col = "Supercore CPI Index" → (i < 252)%nat →
     ∃ out, RateAgentV3.process_rates_data pads df = Ok out
       ∧ (lookup_col "Supercore YoY" (columns out) ≫= (.!! i)) = Some nan).
Proof.
  intros Hc Hi. split; [|split].
  - intros Hcol Hrow.
    destruct (process_data_v21_lookup pads df) as (out & Hout & Hidx & _ & Hps).
    exists out. split; [done|]. split.
    + rewrite (Hidx col Hcol), Hc. simpl. by apply yoy_col_head.
    + intros ppi -> Hppi Hlen. rewrite Hps, Hc, Hppi. cbn [mbind option_bind].
      unfold sub_col. rewrite lookup_zip_with, !yoy_col_head by done.
      cbn [mbind option_bind]. by rewrite sub_nan_l.
  - intros Hcol Hrow.
    destruct (cpi_process_data_lookup pads df)
      as (yoy & mom & Hout & Hyoy & _ & Hmom & _).
    exists yoy, mom. split; [done|]. split.
    + rewrite (Hyoy col Hcol), Hc. simpl. by apply yoy_col_head.
    + intros ->. rewrite Hmom, Hc.
      * simpl. apply yoy_col_head; [lia | done].
      * intros ->. apply Hcol. apply list_elem_of_here.
  - intros -> Hrow.
    destruct (v3_supercore_yoy pads df c Hc) as (out & Hout & Hyoy).
    exists out. split; [done|]. rewrite Hyoy. simpl. by apply yoy_col_head.
Qed.

Lemma yoy_needs_history_witness :
  ∃ out, CpiAgentV21.process_data true yoy_table = Ok (yoy_table, out)
    ∧ (lookup_col "CPI (Headline)" (columns out) ≫= (.!! 11%nat)) = Some nan.
Proof.
  assert ("CPI (Headline)" ∈ CpiAgentV21.index_cols) as Hcol
    by apply list_elem_of_here.
  destruct (proj1 (yoy_needs_history true yoy_table "CPI (Headline)" _ 11
                     eq_refl ltac:(simpl; lia)) Hcol ltac:(lia))
    as (out & Hout & Hcell & _).
  exists out. split; [exact Hout | exact Hcell].
Defined.

End YoYHead.

(** ** The rows of a chart *)

Section ChartRows.
Import Pandas Spec.
Implicit Types (mask : list bool) (df sel : DataFrame) (c a b : list float)
  (i j k : nat).

(** A row mask that stays true once it is true is a run of [false]
    followed by a run of [true]. *)
Lemma monotone_mask_split mask :
  (∀ i j, i ≤ j → j < length mask →
     mask !! i = Some true → mask !! j = Some true) →
  ∃ k, k ≤ length mask
    ∧ mask = replicate k false ++ replicate (length mask - k) true.
Proof.
  induction mask as [|b mask IH]; intros Hmono.
  - exists 0. by split.
  - destruct b.
    + exists 0. split; [lia|]. cbn [replicate app]. rewrite Nat.sub_0_r.
      apply list_eq. intros j.
      destruct (decide (j < length (true :: mask))) as [Hj|Hj].
      * rewrite (Hmono 0 j) by (done || lia).
        symmetry. by apply lookup_replicate_2.
      * rewrite !(proj2 (lookup_ge_None _ _));
          [done | rewrite length_replicate; lia | lia].
    + destruct IH as (k & Hk & Hmask).
      * intros i j Hij Hj Hi. apply (Hmono (S i) (S j)); [lia | simpl; lia|].
        done.
      * exists (S k). split; [simpl; lia|]. cbn [length replicate app].
        replace (S (length mask) - S k) with (length mask - k) by lia.
        by rewrite <- Hmask.
Qed.

Lemma select_split {A : Type} k n (l : list A) :
  length l = k + n →
  select (replicate k false ++ replicate n true) l = drop k l.
Proof.
  revert l. induction k as [|k IH]; intros l Hlen.
  - cbn [replicate app drop]. revert l Hlen.
    induction n as [|n IHn]; intros [|x l] Hlen; try done.
    cbn [replicate select]. rewrite IHn; [done|]. simpl in Hlen. lia.
  - destruct l as [|x l]; [done|]. cbn [replicate app select drop].
    apply IH. simpl in Hlen. lia.
Qed.

Lemma length_complete_rows df :
  length (complete_rows df) = length (index df).
Proof. unfold complete_rows. by rewrite length_fmap, length_seq. Qed.

Lemma complete_rows_monotone sel i j :
  well_formed sel →
  Forall (fun kv : string * list float => gap_free kv.2) (columns sel) →
  i ≤ j → j < length (complete_rows sel) →
  complete_rows sel !! i = Some true → complete_rows sel !! j = Some true.
Proof.
  intros Hwf Hgap Hij Hj. rewrite length_complete_rows in Hj.
  rewrite !lookup_complete_rows. intros [_ Hi]. split; [done|].
  unfold well_formed in Hwf.
  rewrite Forall_forall in Hwf, Hgap, Hi. rewrite Forall_forall.
  intros kv Hkv. destruct (Hi kv Hkv) as (x & Hx & Hobs).
  apply (Hgap kv Hkv i j x); [done | by rewrite (Hwf kv Hkv) | done | done].
Qed.

(** [dropna()] on a table whose columns have no gap drops a run of rows
    at the top and nothing else. *)
Lemma dropna_gap_free sel :
  well_formed sel →
  Forall (fun kv : string * list float => gap_free kv.2) (columns sel) →
  ∃ k, k ≤ length (index sel)
    ∧ complete_rows sel
      = replicate k false ++ replicate (length (index sel) - k) true
    ∧ dropna sel
      = mkDataFrame (drop k (index sel))
          (prod_map id (drop k) <$> columns sel).
Proof.
  intros Hwf Hgap.
  destruct (monotone_mask_split (complete_rows sel)) as (k & Hk & Hmask).
  { intros i j. by apply complete_rows_monotone. }
  rewrite length_complete_rows in Hk, Hmask.
  exists k. split; [done|]. split; [done|].
  change (dropna sel) with (select_rows (complete_rows sel) sel).
  unfold select_rows. rewrite Hmask. f_equal.
  - apply select_split. lia.
  - apply Forall_fmap_ext. unfold well_formed in Hwf.
    eapply Forall_impl; [exact Hwf|].
    intros [name c] Hlen. cbn [prod_map fst snd] in *. f_equal.
    apply select_split. lia.
Qed.

Lemma getitem_list_two df col1 col2 a b :
  lookup_col col1 (columns df) = Some a →
  lookup_col col2 (columns df) = Some b →
  getitem_list df [col1; col2]
  = Ok (mkDataFrame (index df) [(col1, a); (col2, b)]).
Proof.
  intros Ha Hb. unfold getitem_list. cbn [getitem_cols].
  by rewrite (getitem_Ok _ _ _ Ha), (getitem_Ok _ _ _ Hb).
Qed.

Lemma getitem_list_one df col a :
  lookup_col col (columns df) = Some a →
  getitem_list df [col] = Ok (mkDataFrame (index df) [(col, a)]).
Proof.
  intros Ha. unfold getitem_list. cbn [getitem_cols].
  by rewrite (getitem_Ok _ _ _ Ha).
Qed.

Lemma empty_drop k idx (cs : list (string * list float)) :
  k ≤ length idx → cs ≠ [] →
  empty (mkDataFrame (drop k idx) cs) = bool_decide (k = length idx).
Proof.
  intros Hk Hcs. unfold empty. cbn [index columns].
  destruct (drop k idx) as [|d l] eqn:E.
  - apply (f_equal length) in E. rewrite length_drop in E. simpl in E.
    rewrite bool_decide_eq_true_2 by lia. by destruct cs.
  - destruct cs; [done|]. rewrite bool_decide_eq_false_2; [done|].
    intros ->. by rewrite drop_all in E.
Qed.

(** The rows a mask of the shape above keeps and drops. *)
Lemma split_mask_dropped k n i :
  i < k → (replicate k false ++ replicate n true) !! i = Some false.
Proof.
  intros Hi. rewrite lookup_app_l by (rewrite length_replicate; lia).
  by apply lookup_replicate_2.
Qed.

Lemma split_mask_kept k n i :
  i < n → (replicate k false ++ replicate n true) !! (k + i) = Some true.
Proof.
  intros Hi. rewrite lookup_app_r by (rewrite length_replicate; lia).
  rewrite length_replicate. replace (k + i - k) with i by lia.
  by apply lookup_replicate_2.
Qed.

Lemma kept_rows_observed sel k name c :
  well_formed sel →
  k ≤ length (index sel) →
  complete_rows sel
  = replicate k false ++ replicate (length (index sel) - k) true →
  (name, c) ∈ columns sel →
  Forall observed (drop k c).
Proof.
  intros Hwf Hk Hmask Hin. apply Forall_lookup. intros i x Hx.
  rewrite lookup_drop in Hx.
  assert (length c = length (index sel)) as Hlen.
  { unfold well_formed in Hwf. rewrite Forall_forall in Hwf.
    exact (Hwf _ Hin). }
  assert (k + i < length (index sel)) as Hrow
    by (rewrite <- Hlen; by eapply lookup_lt_Some).
  pose proof (split_mask_kept k (length (index sel) - k) i ltac:(lia)) as Hrowmask.
  rewrite <- Hmask in Hrowmask.
  apply lookup_complete_rows in Hrowmask as [_ Hall].
  rewrite Forall_forall in Hall.
  destruct (Hall _ Hin) as (v & Hv & Hobs). cbn [snd] in Hv.
  rewrite Hx in Hv. by injection Hv as ->.
Qed.

Lemma dual_axis_rows df col1 col2 a b :
  well_formed df →
  lookup_col col1 (columns df) = Some a →
  lookup_col col2 (columns df) = Some b →
  gap_free a → gap_free b →
  ∃ k, k ≤ length (index df)
    ∧ (∀ i x y, i < k → a !! i = Some x → b !! i = Some y →
         isna x = true ∨ isna y = true)
    ∧ Forall observed (drop k a) ∧ Forall observed (drop k b)
    ∧ dropna (mkDataFrame (index df) [(col1, a); (col2, b)])
      = mkDataFrame (drop k (index df)) [(col1, drop k a); (col2, drop k b)].
Proof.
  intros Hwf Ha Hb Hga Hgb.
  set (sel := mkDataFrame (index df) [(col1, a); (col2, b)]).
  assert (well_formed sel) as Hsel.
  { unfold well_formed, sel. cbn [index columns].
    repeat constructor; cbn [snd]; by eapply well_formed_length. }
  destruct (dropna_gap_free sel Hsel) as (k & Hk & Hmask & Hdrop).
  { unfold sel. cbn [columns]. by repeat constructor. }
  exists k. split; [done|]. split; [|split; [|split]].
  - intros i x y Hi Hx Hy.
    destruct (isna x) eqn:Ex; [by left|].
    destruct (isna y) eqn:Ey; [by right|]. exfalso.
    pose proof (split_mask_dropped k (length (index sel) - k) i Hi) as Hrow.
    rewrite <- Hmask in Hrow.
    assert (complete_rows sel !! i = Some true) as Htrue; [|congruence].
    apply lookup_complete_rows. split; [cbn [sel index] in *; lia|].
    unfold sel. cbn [columns]. repeat constructor; cbn [snd]; by eexists.
  - apply (kept_rows_observed sel k col1 a Hsel Hk Hmask).
    unfold sel. cbn [columns]. apply list_elem_of_here.
  - apply (kept_rows_observed sel k col2 b Hsel Hk Hmask).
    unfold sel. cbn [columns]. apply list_elem_of_further, list_elem_of_here.
  - exact Hdrop.
Qed.

Lemma single_column_rows df col a :
  well_formed df →
  lookup_col col (columns df) = Some a →
  gap_free a →
  ∃ k, k ≤ length (index df)
    ∧ (∀ i x, i < k → a !! i = Some x → isna x = true)
    ∧ Forall observed (drop k a)
    ∧ dropna (mkDataFrame (index df) [(col, a)])
      = mkDataFrame (drop k (index df)) [(col, drop k a)].
Proof.
  intros Hwf Ha Hga.
  set (sel := mkDataFrame (index df) [(col, a)]).
  assert (well_formed sel) as Hsel.
  { unfold well_formed, sel. cbn [index columns].
    repeat constructor; cbn [snd]; by eapply well_formed_length. }
  destruct (dropna_gap_free sel Hsel) as (k & Hk & Hmask & Hdrop).
  { unfold sel. cbn [columns]. by repeat constructor. }
  exists k. split; [done|]. split; [|split].
  - intros i x Hi Hx.
    destruct (isna x) eqn:Ex; [done|]. exfalso.
    pose proof (split_mask_dropped k (length (index sel) - k) i Hi) as Hrow.
    rewrite <- Hmask in Hrow.
    assert (complete_rows sel !! i = Some true) as Htrue; [|congruence].
    apply lookup_complete_rows. split; [cbn [sel index] in *; lia|].
    unfold sel. cbn [columns]. repeat constructor; cbn [snd]; by eexists.
  - apply (kept_rows_observed sel k col a Hsel Hk Hmask).
    unfold sel. cbn [columns]. apply list_elem_of_here.
  - exact Hdrop.
Qed.

(** A two-series chart of the rate scripts on two columns without a gap,
    as the columns of the aligned table are: [df[[col1, col2]].dropna()]
    drops the rows above the first one at which both series hold a value
    and keeps every row from there on, so the chart is one unbroken run of
    rows ending with the last row of the table, every cell of it a value.
    When no row is left, [rate_agent_v2.py] and [rate_agent_v3.py] draw
    nothing; [rate_agent.py] draws the empty table. *)
Theorem dual_axis_chart_rows (df : DataFrame) (col1 col2 : string)
    (a b : list float) :
  well_formed df →
  lookup_col col1 (columns df) = Some a →
  lookup_col col2 (columns df) = Some b →
  gap_free a → gap_free b →
  ∃ k plot_df,
    k ≤ length (index df)
    ∧ plot_df
      = mkDataFrame (drop k (index df)) [(col1, drop k a); (col2, drop k b)]
    ∧ (∀ i x y, i < k → a !! i = Some x → b !! i = Some y →
         isna x = true ∨ isna y = true)
    ∧ Forall observed (drop k a) ∧ Forall observed (drop k b)
    ∧ RateAgent.plot_dual_axis df col1 col2 = Ok plot_df
    ∧ RateAgentV2.plot_dual_axis df col1 col2
      = Ok (if decide (k = length (index df)) then None else Some plot_df)
    ∧ RateAgentV3.plot_dual_axis df col1 col2
      = Ok (if decide (k = length (index df)) then None else Some plot_df).
Proof.
  intros Hwf Ha Hb Hga Hgb.
  destruct (dual_axis_rows df col1 col2 a b Hwf Ha Hb Hga Hgb)
    as (k & Hk & Hdropped & Hoa & Hob & Hdrop).
  exists k. eexists. split; [done|]. split; [reflexivity|].
  repeat (split; [done|]).
  unfold RateAgent.plot_dual_axis, RateAgentV2.plot_dual_axis,
    RateAgentV3.plot_dual_axis.
  rewrite (getitem_list_two _ _ _ _ _ Ha Hb).
  cbn [mbind mret result_bind result_ret]. rewrite Hdrop.
  rewrite empty_drop by done.
  split; [done|]. by destruct (decide (k = length (index df))) as [E|E];
    [rewrite bool_decide_eq_true_2 by done
    |rewrite bool_decide_eq_false_2 by done].
Qed.

Lemma dual_axis_chart_rows_witness :
  ∃ k plot_df,
    RateAgentV3.plot_dual_axis (ffill gap_table)
      "US 10Y Yield" "Fed Total Assets" = Ok (Some plot_df)
    ∧ index plot_df = drop k (index gap_table).
Proof.
  destruct (dual_axis_chart_rows (ffill gap_table)
              "US 10Y Yield" "Fed Total Assets"
              [4.25; 4.5; 4.5; 4.75]%float
              [9000000; 9000000; 9000000; 8900000]%float)
    as (k & plot_df & Hk & -> & _ & _ & _ & _ & _ & H3).
  - repeat constructor.
  - reflexivity.
  - reflexivity.
  - apply no_gap_gap_free. simpl. repeat constructor.
  - apply no_gap_gap_free. simpl. repeat constructor.
  - exists k.
    destruct (decide (k = length (index (ffill gap_table)))) as [->|Hne].
    + exfalso. revert H3. vm_compute. discriminate.
    + eexists. split; [exact H3 | reflexivity].
Defined.

(** The one-series charts on a column without a gap: [df[[col]].dropna()]
    drops the rows above the first value of the column and nothing else.
    [plot_single_line] of [rate_agent_v3.py] draws nothing when no row is
    left; [plot_area_chart] draws what is left, in all three rate
    scripts, and in [rate_agent_v2.py] and [rate_agent_v3.py] returns
    without a figure, and without an error, when the column is not in the
    table. *)
Theorem single_series_chart_rows (df : DataFrame) (col : string)
    (a : list float) :
  well_formed df →
  lookup_col col (columns df) = Some a →
  gap_free a →
  ∃ k plot_df,
    k ≤ length (index df)
    ∧ plot_df = mkDataFrame (drop k (index df)) [(col, drop k a)]
    ∧ (∀ i x, i < k → a !! i = Some x → isna x = true)
    ∧ Forall observed (drop k a)
    ∧ RateAgentV3.plot_single_line df col
      = Ok (if decide (k = length (index df)) then None else Some plot_df)
    ∧ RateAgent.plot_area_chart df col = Ok plot_df
    ∧ RateAgentV2.plot_area_chart df col = Ok (Some plot_df)
    ∧ RateAgentV3.plot_area_chart df col = Ok (Some plot_df)
    ∧ (∀ other, has_col other df = false →
         RateAgentV2.plot_area_chart df other = Ok None
         ∧ RateAgentV3.plot_area_chart df other = Ok None).
Proof.
  intros Hwf Ha Hga.
  destruct (single_column_rows df col a Hwf Ha Hga)
    as (k & Hk & Hdropped & Hoa & Hdrop).
  exists k. eexists. split; [done|]. split; [reflexivity|].
  repeat (split; [done|]).
  unfold RateAgentV3.plot_single_line, RateAgent.plot_area_chart,
    RateAgentV2.plot_area_chart, RateAgentV3.plot_area_chart.
  assert (has_col col df = true) as -> by (apply has_col_true; by eexists).
  rewrite (getitem_list_one _ _ _ Ha).
  cbn [mbind mret result_bind result_ret negb]. rewrite Hdrop.
  rewrite empty_drop by done.
  split.
  { by destruct (decide (k = length (index df))) as [E|E];
      [rewrite bool_decide_eq_true_2 by done
      |rewrite bool_decide_eq_false_2 by done]. }
  repeat (split; [done|]).
  intros other ->. done.
Qed.

Lemma single_series_chart_rows_witness :
  ∃ k plot_df,
    RateAgentV2.plot_area_chart (ffill gap_table) "Fed Total Assets"
    = Ok (Some plot_df)
    ∧ index plot_df = drop k (index gap_table)
    ∧ Forall observed (drop k [9000000; 9000000; 9000000; 8900000]%float).
Proof.
  destruct (single_series_chart_rows (ffill gap_table) "Fed Total Assets"
              [9000000; 9000000; 9000000; 8900000]%float)
    as (k & plot_df & Hk & -> & _ & Hobs & _ & _ & H2 & _).
  - repeat constructor.
  - reflexivity.
  - apply no_gap_gap_free. simpl. repeat constructor.
  - exists k. eexists. split; [exact H2|]. split; [reflexivity | exact Hobs].
Defined.

End ChartRows.

(** ** The credit chart and its test on the columns *)

Section CreditChart.
Import Pandas Spec.

Lemma dual_axis_v2_v3_total df col1 col2 :
  has_col col1 df = true → has_col col2 df = true →
  is_ok (RateAgentV2.plot_dual_axis df col1 col2) = true
  ∧ is_ok (RateAgentV3.plot_dual_axis df col1 col2) = true.
Proof.
  intros [a Ha]%has_col_true [b Hb]%has_col_true.
  unfold RateAgentV2.plot_dual_axis, RateAgentV3.plot_dual_axis.
  rewrite (getitem_list_two _ _ _ _ _ Ha Hb).
  cbn [mbind mret result_bind result_ret].
  by destruct (empty _).
Qed.

(** The credit chart reads the columns ['High Yield Spread'] and
    ['Financial Conditions']. [rate_agent.py] tests for the first only:
    on a table with the spread but without the index its chart raises
    [KeyError], where [rate_agent_v2.py] and [rate_agent_v3.py], which
    test for both, draw nothing. The chart of those two never raises, on
    any table; without the spread column none of the three draws. *)
Theorem credit_chart_guard (df : DataFrame) :
  (has_col "High Yield Spread" df = true →
   has_col "Financial Conditions" df = false →
   RateAgent.credit_chart df = Raise (KeyError "Financial Conditions")
   ∧ RateAgentV2.credit_chart df = Ok None
   ∧ RateAgentV3.credit_chart df = Ok None)
  ∧ (has_col "High Yield Spread" df = false →
     RateAgent.credit_chart df = Ok None
     ∧ RateAgentV2.credit_chart df = Ok None
     ∧ RateAgentV3.credit_chart df = Ok None)
  ∧ is_ok (RateAgentV2.credit_chart df) = true
  ∧ is_ok (RateAgentV3.credit_chart df) = true.
Proof.
  split; [|split].
  - intros Hhy Hfc.
    unfold RateAgent.credit_chart, RateAgentV2.credit_chart,
      RateAgentV3.credit_chart.
    rewrite Hhy, Hfc. split; [|done].
    apply has_col_true in Hhy as [a Ha]. apply has_col_false in Hfc.
    unfold RateAgent.plot_dual_axis, getitem_list. cbn [getitem_cols].
    rewrite (getitem_Ok _ _ _ Ha). unfold getitem. by rewrite Hfc.
  - intros Hhy.
    unfold RateAgent.credit_chart, RateAgentV2.credit_chart,
      RateAgentV3.credit_chart.
    by rewrite Hhy.
  - unfold RateAgentV2.credit_chart, RateAgentV3.credit_chart.
    destruct (has_col "High Yield Spread" df) eqn:Hhy; [|done].
    destruct (has_col "Financial Conditions" df) eqn:Hfc; [|done].
    cbn [andb]. by apply dual_axis_v2_v3_total.
Qed.

Lemma credit_chart_guard_witness :
  RateAgent.credit_chart no_nfci_table
  = Raise (KeyError "Financial Conditions")
  ∧ RateAgentV2.credit_chart no_nfci_table = Ok None
  ∧ RateAgentV3.credit_chart no_nfci_table = Ok None.
Proof.
  exact (proj1 (credit_chart_guard no_nfci_table) eq_refl eq_refl).
Defined.

End CreditChart.

(** ** Where the scripts fill and which rows they drop *)

Section FillAndDrop.
Import Pandas Spec.
Implicit Types (df raw out : DataFrame) (a c : list float) (i j k : nat).

Lemma bind_Ok_inv {A B : Type} (m : result A) (f : A → result B) (b : B) :
  (m ≫= f) = Ok b → ∃ x, m = Ok x ∧ f x = Ok b.
Proof. destruct m as [x|e]; [by exists x | done]. Qed.

(** [df.ffill()] followed by [dropna(subset=[anchor])]: the rows kept are
    those whose filled anchor cell holds a value, and a column of the
    result is the filled column at these rows. *)
Lemma ffill_then_dropna_rows df raw a :
  well_formed df →
  lookup_col "US 10Y Yield" (columns df) = Some a →
  dropna_subset "US 10Y Yield" (ffill df) = Ok raw →
  index raw = pick 0%Z (index df) (kept (notna <$> ffill_col a))
  ∧ ∀ name c, lookup_col name (columns df) = Some c →
      lookup_col name (columns raw)
      = Some (pick nan (ffill_col c) (kept (notna <$> ffill_col a))).
Proof.
  intros Hwf Ha. unfold dropna_subset. rewrite lookup_col_ffill, Ha.
  cbn [fmap option_fmap option_map]. intros [= <-].
  destruct (select_rows_pick (notna <$> ffill_col a) (ffill df))
    as [Hi Hc].
  - by apply well_formed_ffill.
  - rewrite length_fmap. unfold ffill_col. rewrite length_ffill_from.
    cbn [ffill index]. by eapply well_formed_length.
  - split; [exact Hi|]. intros name c Hname. apply Hc.
    by rewrite lookup_col_ffill, Hname.
Qed.

Lemma v2_get_rates_data_merged get_series now years raw a :
  RateAgentV2.get_rates_data get_series now years = Ok raw →
  lookup_col "US 10Y Yield" (columns (merged_v2 get_series now years))
  = Some a →
  dropna_subset "US 10Y Yield" (ffill (merged_v2 get_series now years))
  = Ok raw.
Proof.
  unfold RateAgentV2.get_rates_data, merged_v2. cbv zeta.
  destruct (RateAgentV2.fetch_all get_series _).1 as [|kv l] eqn:E; [|done].
  intros _ Ha. done.
Qed.

Lemma v3_get_rates_data_merged get_series now years raw a :
  RateAgentV3.get_rates_data get_series now years = Ok raw →
  lookup_col "US 10Y Yield" (columns (merged_v3 get_series now years))
  = Some a →
  dropna_subset "US 10Y Yield" (ffill (merged_v3 get_series now years))
  = Ok raw.
Proof.
  unfold RateAgentV3.get_rates_data, merged_v3. cbv zeta.
  destruct (RateAgentV3.fetch_all get_series _) as [|kv l] eqn:E; [|done].
  intros _ Ha. done.
Qed.

(** [process_rates_data] of [rate_agent.py]: the filled table without the
    rows that lack an anchor value, then columns of derived names only. *)
Lemma rate_agent_process_steps df out :
  RateAgent.process_rates_data df = Ok out →
  ∃ clean, dropna_subset "US 10Y Yield" (ffill df) = Ok clean
    ∧ index out = index clean
    ∧ ∀ name, name ∉ derived_v2 →
        lookup_col name (columns out) = lookup_col name (columns clean).
Proof.
  unfold RateAgent.process_rates_data.
  destruct (dropna_subset "US 10Y Yield" (ffill df)) as [clean|e]; [|done].
  cbn [mbind result_bind forallb]. intros Hout. exists clean.
  split; [done|]. revert Hout.
  case_has_col; intros [= <-]; (split; [done|]); intros name Hname;
    apply not_elem_of_cons in Hname as [? Hname];
    apply not_elem_of_cons in Hname as [? _];
    cbn [setitem columns]; by rewrite ?lookup_assign_ne by done.
Qed.

Lemma cpi_process_data_index pads df tables :
  CpiAgent.process_data pads df = Ok tables → index tables.1.2 = index df.
Proof.
  unfold CpiAgent.process_data, setitem_scalar.
  case_has_col; by intros [= <-].
Qed.

Lemma cpi_v21_process_data_index pads df tables :
  CpiAgentV21.process_data pads df = Ok tables →
  tables.2 = empty_frame ∨ index tables.2 = index df.
Proof.
  destruct (process_data_v21_columns pads df) as (out & Hout & Hon & _).
  rewrite Hout. by intros [= <-].
Qed.

Lemma cpi_v21_main_rows get_series now pads assumed_mom d a :
  well_formed (CpiAgentV21.get_macro_data get_series now).1 →
  lookup_col "CPI (Headline)"
    (columns (CpiAgentV21.get_macro_data get_series now).1) = Some a →
  CpiAgentV21.main get_series now pads assumed_mom = Ok d →
  index (CpiAgentV21.d_yoy d)
  = pick 0%Z (index (CpiAgentV21.get_macro_data get_series now).1)
      (kept (notna <$> a)).
Proof.
  unfold CpiAgentV21.main. cbv zeta.
  generalize (CpiAgentV21.get_macro_data get_series now).1.
  intros raw Hwf Ha.
  rewrite (proj2 (has_col_true "CPI (Headline)" raw)) by (by exists a).
  cbn [negb]. unfold dropna_subset. rewrite Ha. cbn [mbind result_bind].
  intros H.
  apply bind_Ok_inv in H as (tables & Htables & H).
  apply bind_Ok_inv in H as (latest & Hlatest & H).
  apply bind_Ok_inv in H as (prev & _ & H).
  apply bind_Ok_inv in H as (future & _ & H).
  cbv [mret result_ret] in H. injection H as <-. cbn [CpiAgentV21.d_yoy].
  apply cpi_v21_process_data_index in Htables as [Hempty|Hi].
  - by rewrite Hempty in Hlatest.
  - rewrite Hi. cbn [select_rows index]. apply select_pick.
    rewrite length_fmap. by eapply well_formed_length.
Qed.

Lemma cpi_main_rows get_series now pads assumed_mom d :
  well_formed (CpiAgent.get_macro_data get_series now).1 →
  CpiAgent.main get_series now pads assumed_mom = Ok d →
  index (CpiAgent.d_yoy d)
  = pick 0%Z (index (CpiAgent.get_macro_data get_series now).1)
      (kept (complete_rows (CpiAgent.get_macro_data get_series now).1)).
Proof.
  unfold CpiAgent.main. cbv zeta.
  generalize (CpiAgent.get_macro_data get_series now).1.
  intros raw Hwf H.
  apply bind_Ok_inv in H as (tables & Htables & H).
  do 13 (apply bind_Ok_inv in H as (? & _ & H)).
  cbv [mret result_ret] in H. injection H as <-. cbn [CpiAgent.d_yoy].
  rewrite (cpi_process_data_index _ _ _ Htables).
  change (dropna raw) with (select_rows (complete_rows raw) raw).
  cbn [select_rows index]. apply select_pick.
  unfold complete_rows. by rewrite length_fmap, length_seq.
Qed.




(** C6, as the scripts have it. The rows of the table that the script
    works on, among the rows of the table it starts from.
    [cpi_agent_v2.1.py] keeps exactly the rows of the fetched table (not
    forward-filled) whose anchor cell holds a value; the rate scripts
    keep exactly the rows of the forward-filled table whose anchor cell
    holds a value, in [get_rates_data] ([rate_agent_v2.py],
    [rate_agent_v3.py]) or in [process_rates_data] ([rate_agent.py]).
    [cpi_agent.py] calls [dropna()] without a subset: it keeps the rows
    of the fetched table that have a value in every column. Rows stay in
    their order. *)
Theorem rows_without_anchor_dropped
    (get_series : string → date → result Series) (now : date) (years : Z)
    (pads : bool) (assumed_mom : float) :
  (∀ d a,
     well_formed (CpiAgentV21.get_macro_data get_series now).1 →
     lookup_col "CPI (Headline)"
       (columns (CpiAgentV21.get_macro_data get_series now).1) = Some a →
     CpiAgentV21.main get_series now pads assumed_mom = Ok d →
     index (CpiAgentV21.d_yoy d)
     = pick 0%Z (index (CpiAgentV21.get_macro_data get_series now).1)
         (kept (notna <$> a)))
  ∧ (∀ raw a,
       RateAgentV2.get_rates_data get_series now years = Ok raw →
       lookup_col "US 10Y Yield" (columns (merged_v2 get_series now years))
       = Some a →
       index raw
       = pick 0%Z (index (merged_v2 get_series now years))
           (kept (notna <$> ffill_col a)))
  ∧ (∀ raw a,
       RateAgentV3.get_rates_data get_series now years = Ok raw →
       lookup_col "US 10Y Yield" (columns (merged_v3 get_series now years))
       = Some a →
       index raw
       = pick 0%Z (index (merged_v3 get_series now years))
           (kept (notna <$> ffill_col a)))
  ∧ (∀ df out a,
       well_formed df →
       RateAgent.process_rates_data df = Ok out →
       lookup_col "US 10Y Yield" (columns df) = Some a →
       index out = pick 0%Z (index df) (kept (notna <$> ffill_col a)))
  ∧ (∀ d,
       well_formed (CpiAgent.get_macro_data get_series now).1 →
       CpiAgent.main get_series now pads assumed_mom = Ok d →
       index (CpiAgent.d_yoy d)
       = pick 0%Z (index (CpiAgent.get_macro_data get_series now).1)
           (kept (complete_rows (CpiAgent.get_macro_data get_series now).1)))
  ∧ (∀ a i, i ∈ kept (notna <$> a) ↔ ∃ v, a !! i = Some v ∧ isna v = false)
  ∧ (∀ df i, i ∈ kept (complete_rows df)
             ↔ i < length (index df)
               ∧ Forall (fun kv : string * list float =>
                           ∃ v, kv.2 !! i = Some v ∧ isna v = false)
                        (columns df)).
Proof.
  split; [|split; [|split; [|split; [|split; [|split]]]]].
  - intros d a Hwf Ha Hd. by eapply cpi_v21_main_rows.
  - intros raw a Hraw Ha.
    pose proof (v2_get_rates_data_merged _ _ _ _ _ Hraw Ha) as Hdrop.
    by destruct (ffill_then_dropna_rows _ _ _
                   (well_formed_concat_axis1 _) Ha Hdrop) as [Hi _].
  - intros raw a Hraw Ha.
    pose proof (v3_get_rates_data_merged _ _ _ _ _ Hraw Ha) as Hdrop.
    by destruct (ffill_then_dropna_rows _ _ _
                   (well_formed_concat_axis1 _) Ha Hdrop) as [Hi _].
  - intros df out a Hwf Hout Ha.
    destruct (rate_agent_process_steps df out Hout)
      as (clean & Hclean & -> & _).
    by destruct (ffill_then_dropna_rows _ _ _ Hwf Ha Hclean) as [Hi _].
  - intros d Hwf Hd. by eapply cpi_main_rows.
  - intros a i. by rewrite elem_of_kept, lookup_notna_mask.
  - intros df i. by rewrite elem_of_kept, lookup_complete_rows.
Qed.

Lemma ppi_late_source_v21 :
  ∃ d, CpiAgentV21.main ppi_late_source 20000%Z true 0.002%float = Ok d.
Proof. eexists. by vm_compute. Qed.

Lemma rows_without_anchor_dropped_witness :
  ∃ d, CpiAgentV21.main ppi_late_source 20000%Z true 0.002%float = Ok d
    ∧ index (CpiAgentV21.d_yoy d) = [19000%Z; 19031%Z; 19061%Z].
Proof.
  destruct ppi_late_source_v21 as (d & Hd). exists d. split; [exact Hd|].
  refine (proj1 (rows_without_anchor_dropped ppi_late_source 20000%Z 5 true
                   0.002%float) d [300; 301; 302]%float _ eq_refl Hd).
  unfold well_formed. vm_compute. repeat constructor.
Defined.

(** [cpi_agent.py] on the same source: the row of the third month has a
    headline CPI of 302 in the fetched table, and the script works on the
    first two rows only. *)
Lemma cpi_agent_drops_row_with_anchor :
  index (CpiAgent.get_macro_data ppi_late_source 20000%Z).1
  = [19000%Z; 19031%Z; 19061%Z]
  ∧ lookup_col "CPI (Headline)"
      (columns (CpiAgent.get_macro_data ppi_late_source 20000%Z).1)
    = Some [300; 301; 302]%float
  ∧ isna 302 = false
  ∧ ∃ d, CpiAgent.main ppi_late_source 20000%Z true 0.002%float = Ok d
      ∧ index (CpiAgent.d_yoy d) = [19000%Z; 19031%Z].
Proof. repeat split; try (by vm_compute). eexists. by vm_compute. Qed.

End FillAndDrop.
